(** * InfoShield AI: the verification pipeline, embedded and checked

A shallow embedding of the rule-based core of InfoShield AI:

- [infoshield_ai/config.py]              the vocabularies and thresholds,
- [infoshield_ai/tools/credibility.py]   [calculate_credibility],
- [infoshield_ai/tools/analyzer.py]      [analyze_query],
- [infoshield_ai/tools/guardrails.py]    [validate_query],
- [infoshield_ai/tools/human_review.py]  the human-review queue,
- [infoshield_ai/agents/runner.py] and [infoshield_ai/agent.py]
                                         the post-processing of a report.

Python [str] values are Rocq strings.  The embedding follows Python on
ASCII text: [lower] folds [A-Z] only, and characters above 127 are
caseless symbols that are neither space, digit nor word characters. *)

From Stdlib Require Import Bool Arith List ZArith Lia Ascii String DecimalString.
Import ListNotations.
Open Scope string_scope.

(** ** Python string primitives *)

Module Py.

(** [c.lower()] on one character. *)
Definition lower_char (c : ascii) : ascii :=
  let n := nat_of_ascii c in
  if (65 <=? n)%nat && (n <=? 90)%nat then ascii_of_nat (n + 32) else c.

(** [s.lower()] *)
Fixpoint lower (s : string) : string :=
  match s with
  | EmptyString => EmptyString
  | String c s' => String (lower_char c) (lower s')
  end.

(** [s.startswith(x)] *)
Fixpoint startswith (x s : string) : bool :=
  match x with
  | EmptyString => true
  | String a x' =>
      match s with
      | EmptyString => false
      | String b s' => Ascii.eqb a b && startswith x' s'
      end
  end.

(** [x in s] for strings: [x] occurs in [s] as a contiguous substring. *)
Fixpoint contains (x s : string) : bool :=
  startswith x s ||
  match s with
  | EmptyString => false
  | String _ s' => contains x s'
  end.

(** [x in l] for a list of strings. *)
Definition mem (x : string) (l : list string) : bool :=
  existsb (String.eqb x) l.

(** [s.count(c)] for a one-character needle. *)
Fixpoint count_char (c : ascii) (s : string) : nat :=
  match s with
  | EmptyString => 0
  | String a s' => (if Ascii.eqb a c then 1 else 0) + count_char c s'
  end.

(** [any(kw in s for kw in kws)] *)
Definition any_in (kws : list string) (s : string) : bool :=
  existsb (fun kw => contains kw s) kws.

(** Truthiness of a string: the empty string is falsy. *)
Definition truthy (s : string) : bool :=
  match s with EmptyString => false | _ => true end.

(** [sep.join(l)] *)
Fixpoint join (sep : string) (l : list string) : string :=
  match l with
  | [] => ""
  | [x] => x
  | x :: rest => x ++ sep ++ join sep rest
  end.

(** [str(n)] for an integer. *)
Definition str_of_Z (n : Z) : string := NilZero.string_of_int (Z.to_int n).

(** [str(n)] for a length or a counter. *)
Definition str_of_nat (n : nat) : string := str_of_Z (Z.of_nat n).

(** [c.upper()] on one character. *)
Definition upper_char (c : ascii) : ascii :=
  let n := nat_of_ascii c in
  if (97 <=? n)%nat && (n <=? 122)%nat then ascii_of_nat (n - 32) else c.

(** [c.isspace()]: tab to carriage return, the four separators 28..31,
    and the blank. *)
Definition isspace (c : ascii) : bool :=
  let n := nat_of_ascii c in
  ((9 <=? n) && (n <=? 13) || (28 <=? n) && (n <=? 32))%nat.

(** A decimal digit. *)
Definition isdigit (c : ascii) : bool :=
  let n := nat_of_ascii c in ((48 <=? n) && (n <=? 57))%nat.

(** A word character: a letter, a digit or the underscore. *)
Definition isword (c : ascii) : bool :=
  let n := nat_of_ascii c in
  ((48 <=? n) && (n <=? 57) || (65 <=? n) && (n <=? 90)
   || (97 <=? n) && (n <=? 122) || (n =? 95))%nat.

(** [s.lstrip(...)], [s.rstrip(...)] and [s.strip(...)], the stripped
    characters given as a predicate. *)
Fixpoint lstrip_by (p : ascii -> bool) (s : string) : string :=
  match s with
  | EmptyString => EmptyString
  | String c s' => if p c then lstrip_by p s' else s
  end.

Fixpoint rstrip_by (p : ascii -> bool) (s : string) : string :=
  match s with
  | EmptyString => EmptyString
  | String c s' =>
      match rstrip_by p s' with
      | EmptyString => if p c then EmptyString else String c EmptyString
      | r => String c r
      end
  end.

Definition strip_by (p : ascii -> bool) (s : string) : string :=
  rstrip_by p (lstrip_by p s).

(** [s.strip()] *)
Definition strip (s : string) : string := strip_by isspace s.

(** [s.strip(chars)] *)
Definition strip_chars (chars : string) (s : string) : string :=
  strip_by (fun c => existsb (Ascii.eqb c) (list_ascii_of_string chars)) s.

(** [s.split()]: the maximal runs of non-space characters, in order.
    [cur] is the word being read. *)
Fixpoint split_from (cur : string) (s : string) : list string :=
  match s with
  | EmptyString => if truthy cur then [cur] else []
  | String c s' =>
      if isspace c
      then (if truthy cur then cur :: split_from "" s' else split_from "" s')
      else split_from (cur ++ String c "") s'
  end.

Definition split (s : string) : list string := split_from "" s.

(** [s[:n]] *)
Fixpoint take (n : nat) (s : string) : string :=
  match n, s with
  | S n', String c s' => String c (take n' s')
  | _, _ => ""
  end.

(** [int(s)] for a string of decimal digits. *)
Fixpoint int_from (acc : Z) (s : string) : Z :=
  match s with
  | EmptyString => acc
  | String c s' => int_from (acc * 10 + (Z.of_nat (nat_of_ascii c) - 48))%Z s'
  end.

Definition int_of_digits (s : string) : Z := int_from 0 s.

(** Equality of two lists of strings. *)
Fixpoint strings_eqb (a b : list string) : bool :=
  match a, b with
  | [], [] => true
  | x :: a', y :: b' => String.eqb x y && strings_eqb a' b'
  | _, _ => false
  end.

(** A string given by its bytes; the line feed, the double quote, and the
    UTF-8 bytes of the bullet U+2022. *)
Definition bytes (l : list nat) : string :=
  string_of_list_ascii (map ascii_of_nat l).

Definition nl : string := bytes [10].
Definition dq : string := bytes [34].
Definition bullet : string := bytes [226; 128; 162].

End Py.

(** ** [config.py] *)

Module Config.

Definition URGENCY_THRESHOLD : Z := 8.
Definition CREDIBILITY_THRESHOLD : Z := 60.

Definition DISASTER_KEYWORDS : list string :=
  [ "flood"; "flooding"; "earthquake"; "tsunami"; "cyclone"; "hurricane";
    "tornado"; "wildfire"; "fire"; "landslide"; "avalanche"; "drought";
    "volcano"; "eruption"; "storm"; "typhoon"; "blizzard"; "heatwave";
    "rescue"; "emergency"; "evacuation"; "trapped"; "help"; "sos" ].

Definition OFFICIAL_SOURCES : list string :=
  [ (* Global Organizations *)
    "un ocha"; "red cross"; "red crescent"; "world meteorological organization";
    "international federation"; "unicef"; "who";
    (* News Agencies *)
    "reuters"; "ap news"; "afp"; "bbc"; "cnn"; "al jazeera";
    (* Weather Services *)
    "accuweather"; "weather.com"; "weather underground";
    (* India *)
    "ndrf"; "ndma"; "imd"; "indian meteorological department"; "india met";
    "sdma"; "ddma"; "ndtv"; "times of india"; "hindustan times";
    (* United States *)
    "fema"; "nws"; "national weather service"; "noaa"; "usgs";
    "national hurricane center"; "storm prediction center";
    (* United Kingdom *)
    "met office"; "environment agency"; "bbc weather";
    (* Australia *)
    "bureau of meteorology"; "bom"; "ses"; "emergency victoria";
    (* Japan *)
    "jma"; "japan meteorological agency"; "data.jma.go.jp"; "jma.go.jp";
    "japan earthquake"; "japan tsunami warning";
    (* China *)
    "cma"; "china meteorological administration";
    (* European Union *)
    "eumetsat"; "copernicus"; "ecmwf";
    (* Philippines *)
    "pagasa"; "ndrrmc"; "philvolcs";
    (* Bangladesh *)
    "bmd"; "bangladesh meteorological department";
    (* Generic Official Terms *)
    "government"; "official"; "ministry"; "department";
    "meteorological"; "seismological"; "emergency management";
    "civil defense"; "disaster management authority" ].

End Config.

(** ** Python's [re], for the patterns the sources use

A backtracking matcher in continuation-passing style.  It tries the
alternatives of [|] from left to right and the repetitions greedily, as
[re] does, so the text it captures in a group is the text [re] captures.
The flag [ic] is [re.IGNORECASE]. *)

Module Re.
  Import Py.

(** [\s] and [\d] *)
Inductive category := Space | Digit.

(** The members of a bracketed set. *)
Inductive item :=
| One (c : ascii)
| Range (lo hi : ascii)
| Cat (k : category).

Inductive regex :=
| Eps                          (* the empty pattern *)
| Chr (c : ascii)              (* a literal character *)
| Set_ (items : list item)     (* [...], also a lone \s or \d *)
| Dot                          (* . : any character but the line feed *)
| Bol                          (* ^ *)
| Eol                          (* $ *)
| WordB                        (* \b *)
| Seq (r1 r2 : regex)
| Alt (r1 r2 : regex)          (* r1|r2 *)
| Star (r : regex)             (* r* *)
| Group (n : nat) (r : regex)  (* the n-th capturing group *).

Definition in_category (k : category) (c : ascii) : bool :=
  match k with Space => isspace c | Digit => isdigit c end.

Definition in_item (c : ascii) (i : item) : bool :=
  match i with
  | One a => Ascii.eqb a c
  | Range lo hi =>
      (nat_of_ascii lo <=? nat_of_ascii c)%nat
      && (nat_of_ascii c <=? nat_of_ascii hi)%nat
  | Cat k => in_category k c
  end.

Definition chr_match (ic : bool) (a c : ascii) : bool :=
  if ic then Ascii.eqb (lower_char a) (lower_char c) else Ascii.eqb a c.

Definition set_match (ic : bool) (items : list item) (c : ascii) : bool :=
  existsb (in_item c) items
  || (ic && (existsb (in_item (lower_char c)) items
             || existsb (in_item (upper_char c)) items)).

(** The groups captured so far, the latest first. *)
Definition captures := list (nat * string).

(** The text read between the input [s] and its suffix [rest]. *)
Definition consumed (s rest : string) : string :=
  take (String.length s - String.length rest) s.

Definition at_word (o : option ascii) : bool :=
  match o with Some c => isword c | None => false end.

Definition head (s : string) : option ascii :=
  match s with String c _ => Some c | EmptyString => None end.

Definition orelse {A} (x y : option A) : option A :=
  match x with Some _ => x | None => y end.

Section Matcher.
  Context {A : Type}.
  Variable ic : bool.

(** What remains to be matched: it receives the character before the
    position reached ([None] at the start of the text), the input left
    and the captures. *)
Definition cont := option ascii -> string -> captures -> option A.

Fixpoint run (r : regex) (prev : option ascii) (s : string)
    (cs : captures) (k : cont) {struct r} : option A :=
  match r with
  | Eps => k prev s cs
  | Chr a =>
      match s with
      | String c s' => if chr_match ic a c then k (Some c) s' cs else None
      | EmptyString => None
      end
  | Set_ items =>
      match s with
      | String c s' => if set_match ic items c then k (Some c) s' cs else None
      | EmptyString => None
      end
  | Dot =>
      match s with
      | String c s' => if Ascii.eqb c "010" then None else k (Some c) s' cs
      | EmptyString => None
      end
  | Bol => match prev with None => k prev s cs | Some _ => None end
  | Eol =>
      match s with
      | EmptyString => k prev s cs
      | String c EmptyString =>
          if Ascii.eqb c "010" then k prev s cs else None
      | _ => None
      end
  | WordB =>
      if xorb (at_word prev) (at_word (head s)) then k prev s cs else None
  | Seq r1 r2 =>
      run r1 prev s cs (fun prev' s' cs' => run r2 prev' s' cs' k)
  | Alt r1 r2 => orelse (run r1 prev s cs k) (run r2 prev s cs k)
  | Star r1 =>
      (* one more round of [r1] first, then the rest; a round has to
         read at least one character, so the length of the input
         bounds the number of rounds *)
      (fix loop (fuel : nat) (prev : option ascii) (s : string)
           (cs : captures) {struct fuel} : option A :=
         match fuel with
         | O => k prev s cs
         | S fuel' =>
             orelse
               (run r1 prev s cs
                  (fun prev' s' cs' =>
                     if (String.length s' <? String.length s)%nat
                     then loop fuel' prev' s' cs' else None))
               (k prev s cs)
         end) (String.length s) prev s cs
  | Group n r1 =>
      run r1 prev s cs
        (fun prev' s' cs' => k prev' s' ((n, consumed s s') :: cs'))
  end.
End Matcher.

(** A match object: where the match starts, its text, the input after it
    and the groups. *)
Record match_ := mkMatch {
  m_start : nat;
  m_text : string;
  m_rest : string;
  m_groups : captures
}.

(** [re.search]: the match at the leftmost position that has one. *)
Fixpoint search_from (ic : bool) (r : regex) (pos : nat)
    (prev : option ascii) (s : string) : option match_ :=
  match run ic r prev s []
          (fun _ s' cs' => Some (mkMatch pos (consumed s s') s' cs')) with
  | Some m => Some m
  | None =>
      match s with
      | EmptyString => None
      | String c s' => search_from ic r (S pos) (Some c) s'
      end
  end.

Definition search (ic : bool) (r : regex) (s : string) : option match_ :=
  search_from ic r 0 None s.

Fixpoint lookup (n : nat) (cs : captures) : option string :=
  match cs with
  | [] => None
  | (i, v) :: cs' => if (i =? n)%nat then Some v else lookup n cs'
  end.

(** [m.group(n)] *)
Definition group (n : nat) (m : match_) : option string :=
  lookup n (m_groups m).

(** Truthiness of [re.search(...)]. *)
Definition matches (ic : bool) (r : regex) (s : string) : bool :=
  match search ic r s with Some _ => true | None => false end.

(** [re.sub(r, "", s)]: every match, leftmost first and without overlap,
    is removed.  The patterns it is used with match no empty text; a match
    that reads nothing is stepped over. *)
Fixpoint remove_from (fuel : nat) (r : regex) (prev : option ascii)
    (s : string) : string :=
  match fuel with
  | O => s
  | S fuel' =>
      match run false r prev s [] (fun p s' _ => Some (p, s')) with
      | Some (p, s') =>
          if (String.length s' <? String.length s)%nat
          then remove_from fuel' r p s'
          else match s with
               | EmptyString => EmptyString
               | String c t => String c (remove_from fuel' r (Some c) t)
               end
      | None =>
          match s with
          | EmptyString => EmptyString
          | String c t => String c (remove_from fuel' r (Some c) t)
          end
      end
  end.

Definition remove_all (r : regex) (s : string) : string :=
  remove_from (S (String.length s)) r None s.

(** Pattern builders. *)
Fixpoint lit (s : string) : regex :=
  match s with
  | EmptyString => Eps
  | String c EmptyString => Chr c
  | String c s' => Seq (Chr c) (lit s')
  end.

Fixpoint seq (rs : list regex) : regex :=
  match rs with
  | [] => Eps
  | [r] => r
  | r :: rs' => Seq r (seq rs')
  end.

Fixpoint alt (rs : list regex) : regex :=
  match rs with
  | [] => Set_ []
  | [r] => r
  | r :: rs' => Alt r (alt rs')
  end.

Definition plus (r : regex) : regex := Seq r (Star r).   (* r+ *)
Definition opt (r : regex) : regex := Alt r Eps.         (* r? *)
Definition ws : regex := Set_ [Cat Space].               (* \s *)
Definition digit : regex := Set_ [Cat Digit].            (* \d *)
Definition words (l : list string) : regex := alt (map lit l).

(** A pattern together with its text in the source. *)
Definition pat (source : string) (r : regex) : regex := r.

End Re.

(** ** [tools/credibility.py] *)

Module Credibility.
  Import Py.

Record CredibilityResult := mkCredibility {
  score : Z;
  reasoning : string;
  sources_found : list string;
  official_sources_count : nat;
  news_sources_count : nat
}.

(** The names counted as official inside the scan loop. *)
Definition official_names : list string :=
  ["ndrf"; "ndma"; "fema"; "government"; "ministry"; "official"].

Definition recency_keywords : list string :=
  ["today"; "now"; "just"; "breaking"; "latest"; "current"; "ongoing"].

Definition doubt_keywords : list string :=
  ["unconfirmed"; "rumor"; "false"; "fake"; "hoax"; "not true"; "denied"].

(** The test of the scan loop:
    [source in search_lower or source in sources_lower]. *)
Definition source_hit (search_lower sources_lower source : string) : bool :=
  contains source search_lower || contains source sources_lower.

(** The scan loop over [OFFICIAL_SOURCES], as state passing over
    [(sources_found, official_count, news_count)]. *)
Definition scan_step (search_lower sources_lower : string)
    (st : list string * nat * nat) (source : string) : list string * nat * nat :=
  let '(found, official_count, news_count) := st in
  if source_hit search_lower sources_lower source then
    if mem source official_names
    then ((found ++ [source])%list, S official_count, news_count)
    else ((found ++ [source])%list, official_count, S news_count)
  else st.

Definition scan_sources (search_lower sources_lower : string)
    : list string * nat * nat :=
  fold_left (scan_step search_lower sources_lower)
            Config.OFFICIAL_SOURCES ([], 0, 0)%nat.

(** [location and location.lower() != "unknown"] followed by
    [location.lower() in search_lower]. *)
Definition location_confirmed (search_lower location : string) : bool :=
  truthy location && negb (String.eqb (lower location) "unknown")
  && contains (lower location) search_lower.

(** [disaster_type and disaster_type.lower() in search_lower] *)
Definition disaster_confirmed (search_lower disaster_type : string) : bool :=
  truthy disaster_type && contains (lower disaster_type) search_lower.

(** One conditional block of the function: when [cond] holds, add [pts]
    to the score and append [reason] to the reasons. *)
Definition rule (cond : bool) (pts : Z) (reason : string)
    (acc : Z * list string) : Z * list string :=
  if cond then ((fst acc + pts)%Z, (snd acc ++ [reason])%list) else acc.

Definition calculate_credibility
    (search_summary sources_mentioned location disaster_type : string)
    : CredibilityResult :=
  let search_lower := lower search_summary in
  let sources_lower := lower sources_mentioned in
  let '(found, official_count, news_count) :=
    scan_sources search_lower sources_lower in
  let official_points := Z.min 40 (Z.of_nat official_count * 20) in
  let news_points := Z.min 30 (Z.of_nat news_count * 10) in
  let acc := (0%Z, @nil string) in
  let acc := rule (0 <? official_count)%nat official_points
               ("Found " ++ str_of_nat official_count ++ " official source(s) (+"
                ++ str_of_Z official_points ++ ")") acc in
  let acc := rule (0 <? news_count)%nat news_points
               ("Found " ++ str_of_nat news_count ++ " news/reliable source(s) (+"
                ++ str_of_Z news_points ++ ")") acc in
  let acc := rule (any_in recency_keywords search_lower) 10
               "Recent/current event indicators (+10)" acc in
  let acc := rule (location_confirmed search_lower location) 10
               ("Location '" ++ location ++ "' confirmed in sources (+10)") acc in
  let acc := rule (3 <=? List.length found)%nat 10
               "Multiple sources corroborate (+10)" acc in
  let acc := rule (disaster_confirmed search_lower disaster_type) 5
               ("Disaster type '" ++ disaster_type ++ "' confirmed (+5)") acc in
  let acc := rule (any_in doubt_keywords search_lower) (-30)
               "Found doubt/denial indicators (-30)" acc in
  let score := Z.max 0 (Z.min 100 (fst acc)) in
  let reasons :=
    match snd acc with
    | [] => ["No confirming sources found in search results"]
    | rs => rs
    end in
  {| score := score;
     reasoning := join "; " reasons;
     sources_found := found;
     official_sources_count := official_count;
     news_sources_count := news_count |}.

(** The score before clamping, from the counts of the scan and the five
    tests on the search text. *)
Definition points (official_count news_count : nat)
    (recent located corroborated typed doubted : bool) : Z :=
  ((if (0 <? official_count)%nat then Z.min 40 (Z.of_nat official_count * 20) else 0)
   + (if (0 <? news_count)%nat then Z.min 30 (Z.of_nat news_count * 10) else 0)
   + (if recent then 10 else 0)
   + (if located then 10 else 0)
   + (if corroborated then 10 else 0)
   + (if typed then 5 else 0)
   + (if doubted then -30 else 0))%Z.


End Credibility.


(** ** [tools/analyzer.py] *)

Module Analyzer.
  Import Py Re.

Record QueryAnalysis := mkAnalysis {
  sentiment : string;
  urgency_score : Z;
  location : string;
  disaster_type : option string;
  is_emergency : bool;
  keywords_found : list string
}.

Definition panic_indicators : list string :=
  ["help"; "sos"; "emergency"; "trapped"; "dying"; "drowning"].

Definition urgent_indicators : list string :=
  ["now"; "immediately"; "urgent"; "quickly"; "asap"; "!"].

(** [[kw for kw in DISASTER_KEYWORDS if kw in query_lower]] *)
Definition find_keywords (query_lower : string) : list string :=
  filter (fun kw => contains kw query_lower) Config.DISASTER_KEYWORDS.

(** The urgency score before and after clamping. *)
Definition raw_urgency (query : string) : Z :=
  let query_lower := lower query in
  let keywords_found := find_keywords query_lower in
  let urgency_score := 3%Z in
  let urgency_score :=
    if any_in panic_indicators query_lower
    then (urgency_score + 4)%Z else urgency_score in
  let urgency_score :=
    if any_in urgent_indicators query_lower
    then (urgency_score + 2)%Z else urgency_score in
  let urgency_score :=
    if (2 <=? count_char "!" query)%nat
    then (urgency_score + 1)%Z else urgency_score in
  let urgency_score :=
    if (0 <? List.length keywords_found)%nat
    then (urgency_score + Z.of_nat (List.length keywords_found))%Z
    else urgency_score in
  urgency_score.

Definition clamp_urgency (u : Z) : Z := Z.min 10 (Z.max 1 u).

(** Whether [query'] keeps the hits of [query]: every panic indicator,
    urgent indicator and disaster keyword found in [query] is found in
    [query'], which has at least as many exclamation marks. *)
Definition keeps_hits (query query' : string) : bool :=
  forallb (fun ind => implb (contains ind (lower query))
                            (contains ind (lower query')))
          (panic_indicators ++ urgent_indicators ++ Config.DISASTER_KEYWORDS)
  && (count_char "!" query <=? count_char "!" query')%nat.

(** The capitalised words a location pattern captures. *)
Definition place_name : regex :=
  let cap := seq [Set_ [Range "A" "Z"]; plus (Set_ [Range "a" "z"])] in
  seq [cap; Star (seq [plus ws; cap])].

Definition location_patterns : list regex :=
  [ pat "in\s+([A-Z][a-z]+(?:\s+[A-Z][a-z]+)*)"
      (seq [lit "in"; plus ws; Group 1 place_name]);
    pat "at\s+([A-Z][a-z]+(?:\s+[A-Z][a-z]+)*)"
      (seq [lit "at"; plus ws; Group 1 place_name]);
    pat "near\s+([A-Z][a-z]+(?:\s+[A-Z][a-z]+)*)"
      (seq [lit "near"; plus ws; Group 1 place_name]);
    pat "from\s+([A-Z][a-z]+(?:\s+[A-Z][a-z]+)*)"
      (seq [lit "from"; plus ws; Group 1 place_name]);
    pat "([A-Z][a-z]+(?:\s+[A-Z][a-z]+)*)\s+(?:area|region|city|town|district)"
      (seq [Group 1 place_name; plus ws;
            words ["area"; "region"; "city"; "town"; "district"]]) ].

(** The loop over [location_patterns]: the first pattern that matches
    gives the location, [location] being the value held before the loop. *)
Fixpoint first_location (patterns : list regex) (query location : string)
    : string :=
  match patterns with
  | [] => location
  | pattern :: rest =>
      match search false pattern query with
      | Some m =>
          match group 1 m with Some g => g | None => location end
      | None => first_location rest query location
      end
  end.

Definition disaster_mapping : list (string * list string) :=
  [ ("flood", ["flood"; "flooding"; "water entering"]);
    ("earthquake", ["earthquake"; "quake"; "tremor"; "seismic"]);
    ("tsunami", ["tsunami"; "tidal wave"]);
    ("cyclone", ["cyclone"; "hurricane"; "typhoon"; "storm"]);
    ("fire", ["fire"; "wildfire"; "blaze"; "burning"]);
    ("landslide", ["landslide"; "mudslide"; "debris"]) ].

Fixpoint first_disaster (mapping : list (string * list string))
    (query_lower : string) : option string :=
  match mapping with
  | [] => None
  | (dtype, keywords) :: rest =>
      if any_in keywords query_lower then Some dtype
      else first_disaster rest query_lower
  end.

Definition analyze_query (query : string) (inferred_location : option string)
    : QueryAnalysis :=
  let query_lower := lower query in
  let keywords_found := find_keywords query_lower in
  let urgency_score := clamp_urgency (raw_urgency query) in
  let sentiment :=
    if (8 <=? urgency_score)%Z then "panic"
    else if (6 <=? urgency_score)%Z then "urgent"
    else if (4 <=? urgency_score)%Z then "concerned"
    else if contains "?" query && (List.length keywords_found =? 0)%nat
         then "curious"
    else "neutral" in
  let location :=
    match inferred_location with
    | Some l =>
        if truthy l && negb (String.eqb (lower l) "unknown") then l
        else first_location location_patterns query "Unknown"
    | None => first_location location_patterns query "Unknown"
    end in
  let disaster_type := first_disaster disaster_mapping query_lower in
  let is_emergency :=
    (8 <=? urgency_score)%Z || any_in panic_indicators query_lower in
  {| sentiment := sentiment;
     urgency_score := urgency_score;
     location := location;
     disaster_type := disaster_type;
     is_emergency := is_emergency;
     keywords_found := keywords_found |}.

End Analyzer.

(** ** [tools/guardrails.py] *)

Module Guardrails.
  Import Py Re.

Record Validation := mkValidation {
  is_valid : bool;
  reason : string;
  category : string
}.

Definition DISASTER_KEYWORDS : list string :=
  [ (* Natural disasters *)
    "flood"; "flooding"; "earthquake"; "quake"; "tsunami"; "cyclone"; "hurricane";
    "typhoon"; "tornado"; "storm"; "wildfire"; "fire"; "landslide"; "mudslide";
    "avalanche"; "drought"; "heatwave"; "blizzard"; "volcanic"; "eruption";
    (* Emergency situations *)
    "emergency"; "disaster"; "crisis"; "evacuation"; "rescue"; "relief";
    "casualty"; "casualties"; "damage"; "destroyed"; "collapse"; "trapped";
    (* Weather events *)
    "heavy rain"; "severe weather"; "warning"; "alert"; "red alert"; "orange alert";
    (* Safety concerns *)
    "safe"; "safety"; "danger"; "dangerous"; "risk"; "hazard"; "threat";
    (* Verification queries *)
    "is there"; "is it true"; "happening"; "real"; "fake"; "rumor"; "hoax";
    "verify"; "confirm"; "true or false"; "fact check";
    (* Location + event patterns *)
    "in india"; "in japan"; "in usa"; "in california"; "in tokyo"; "in chennai";
    "in mumbai"; "in delhi"; "near"; "around" ].

Definition OFF_TOPIC_PATTERNS : list regex :=
  [ pat "^\d+\s*[\+\-\*\/]\s*\d+"
      (seq [Bol; plus digit; Star ws;
            Set_ [One "+"; One "-"; One "*"; One "/"]; Star ws; plus digit]);
    pat "^(what is|define|explain|how to|tutorial)"
      (seq [Bol; Group 1 (words ["what is"; "define"; "explain"; "how to";
                                 "tutorial"])]);
    pat "(documentation|docs|api reference|library)"
      (Group 1 (words ["documentation"; "docs"; "api reference"; "library"]));
    pat "(code|programming|python|javascript|java\b)"
      (Group 1 (alt [lit "code"; lit "programming"; lit "python";
                     lit "javascript"; seq [lit "java"; WordB]]));
    pat "(recipe|cook|food|restaurant)"
      (Group 1 (words ["recipe"; "cook"; "food"; "restaurant"]));
    pat "(movie|music|song|game|sport)"
      (Group 1 (words ["movie"; "music"; "song"; "game"; "sport"]));
    pat "(stock|crypto|bitcoin|investment)"
      (Group 1 (words ["stock"; "crypto"; "bitcoin"; "investment"]));
    pat "(joke|funny|meme)"
      (Group 1 (words ["joke"; "funny"; "meme"]));
    pat "^(hi|hello|hey|good morning|good evening)"
      (seq [Bol; Group 1 (words ["hi"; "hello"; "hey"; "good morning";
                                 "good evening"])]);
    pat "(who are you|what are you|your name)"
      (Group 1 (words ["who are you"; "what are you"; "your name"]));
    pat "(weather forecast|temperature tomorrow)"
      (Group 1 (words ["weather forecast"; "temperature tomorrow"])) ].

Definition TECH_OR_DEV_PATTERNS : list regex :=
  [ pat "how\s+to\s+(deploy|install|build|set\s*up)"
      (seq [lit "how"; plus ws; lit "to"; plus ws;
            Group 1 (alt [lit "deploy"; lit "install"; lit "build";
                          seq [lit "set"; Star ws; lit "up"]])]);
    pat "deploy(ing)?\s+(adk|agent|model|app|application|service)"
      (seq [lit "deploy"; opt (Group 1 (lit "ing")); plus ws;
            Group 2 (words ["adk"; "agent"; "model"; "app"; "application";
                            "service"])]);
    pat "\b(adk|sdk|docker|dockerfile|railway|vercel|cloud\s*run|github|gitlab)\b"
      (seq [WordB;
            Group 1 (alt [lit "adk"; lit "sdk"; lit "docker"; lit "dockerfile";
                          lit "railway"; lit "vercel";
                          seq [lit "cloud"; Star ws; lit "run"];
                          lit "github"; lit "gitlab"]);
            WordB]);
    pat "code\s+(sample|snippet|example)"
      (seq [lit "code"; plus ws;
            Group 1 (words ["sample"; "snippet"; "example"])]);
    pat "(write|generate)\s+code"
      (seq [Group 1 (words ["write"; "generate"]); plus ws; lit "code"]);
    pat "(api\s+key|api\s+keys)"
      (Group 1 (alt [seq [lit "api"; plus ws; lit "key"];
                     seq [lit "api"; plus ws; lit "keys"]]));
    pat "(documentation|docs|tutorial|guide)\s+(for|about)"
      (seq [Group 1 (words ["documentation"; "docs"; "tutorial"; "guide"]);
            plus ws; Group 2 (words ["for"; "about"])]);
    pat "install\s+(the\s+)?dependencies"
      (seq [lit "install"; plus ws; opt (Group 1 (seq [lit "the"; plus ws]));
            lit "dependencies"]) ].

Definition location_indicators : list string :=
  ["in"; "at"; "near"; "around"; "happening"].

Definition situation_patterns : list regex :=
  [ pat "\?$" (seq [Chr "?"; Eol]);
    pat "^is\s" (seq [Bol; lit "is"; ws]);
    pat "^are\s" (seq [Bol; lit "are"; ws]);
    pat "^what.*happening" (seq [Bol; lit "what"; Star Dot; lit "happening"]);
    pat "situation" (lit "situation");
    pat "status" (lit "status");
    pat "update" (lit "update");
    pat "news" (lit "news");
    pat "report" (lit "report") ].

Definition too_short_reason : string :=
  "Query is too short. Please provide more details about the disaster situation you want to verify.".

Definition off_topic_reason : string :=
  "I'm InfoShield AI, specialized in disaster information verification. I can help you verify disaster reports, check emergency situations, and provide safety information. Please ask about a specific disaster or emergency situation.".

Definition tech_reason : string :=
  "I can't switch to development or deployment support. Please keep the conversation focused on verifying an actual disaster situation.".

Definition unclear_reason : string :=
  "I'm InfoShield AI, designed specifically for disaster information verification. I can help you:"
  ++ nl ++ nl
  ++ bullet ++ " Verify disaster reports (floods, earthquakes, fires, storms)" ++ nl
  ++ bullet ++ " Check emergency situations in specific locations" ++ nl
  ++ bullet ++ " Assess the credibility of disaster-related news" ++ nl
  ++ bullet ++ " Provide safety information during emergencies" ++ nl ++ nl
  ++ "Please ask about a specific disaster or emergency situation you'd like me to verify.".

(** [any(re.search(p, s, flags) for p in patterns)]; the two [for] loops
    that return at the first matching pattern compute the same test. *)
Definition any_match (ic : bool) (patterns : list regex) (s : string) : bool :=
  existsb (fun p => matches ic p s) patterns.

Definition validate_query (query : string) : Validation :=
  let query_lower := strip (lower query) in
  if (String.length query_lower <? 5)%nat then
    {| is_valid := false; reason := too_short_reason; category := "unclear" |}
  else if any_match true OFF_TOPIC_PATTERNS query_lower then
    {| is_valid := false; reason := off_topic_reason; category := "off_topic" |}
  else if any_match true TECH_OR_DEV_PATTERNS query_lower then
    {| is_valid := false; reason := tech_reason; category := "off_topic" |}
  else
    let has_disaster_keyword := any_in DISASTER_KEYWORDS query_lower in
    if has_disaster_keyword then
      {| is_valid := true; reason := "Query is disaster-related";
         category := "disaster" |}
    else
      let has_location_indicator := any_in location_indicators query_lower in
      let is_situation_query := any_match false situation_patterns query_lower in
      if has_location_indicator && is_situation_query then
        {| is_valid := true;
           reason := "Query appears to be about a situation at a location";
           category := "disaster" |}
      else
        {| is_valid := false; reason := unclear_reason; category := "unclear" |}.

End Guardrails.

(** ** [models.py] and [tools/human_review.py]

The queue is a CSV file.  Its state is [None] while the file does not
exist, and otherwise the table it holds: the header row and the rows
below it, each a list of fields.  [csv.writer] and [csv.DictReader] are
taken as a lossless coding of such tables, and file operations as
succeeding: the [except] branches, which turn an exception into an
error result, are outside the model.  The identifier drawn by
[uuid.uuid4()] and the clock read by [datetime.now()] are inputs. *)

Module HumanReview.
  Import Py.

Record HumanReviewEntry := mkEntry {
  session_id : string;
  query : string;
  location : string;
  urgency_score : Z;
  credibility_score : Z;
  timestamp : string;
  status : string;
  reviewer_notes : string
}.

(** [HumanReviewEntry.to_csv_row] *)
Definition to_csv_row (e : HumanReviewEntry) : list string :=
  [ session_id e; query e; location e;
    str_of_Z (urgency_score e); str_of_Z (credibility_score e);
    timestamp e; status e; reviewer_notes e ].

(** [HumanReviewEntry.csv_headers] *)
Definition csv_headers : list string :=
  [ "session_id"; "query"; "location"; "urgency_score";
    "credibility_score"; "timestamp"; "status"; "reviewer_notes" ].

Record table := mkTable {
  fieldnames : list string;
  rows : list (list string)
}.

Definition store := option table.

(** [_ensure_csv_exists]: a missing file is created with the header row. *)
Definition _ensure_csv_exists (st : store) : table :=
  match st with
  | Some t => t
  | None => mkTable csv_headers []
  end.

(** A row as [csv.DictReader] yields it: a dict from field names to
    fields, in insertion order.  The dicts are exact for rows that have
    as many fields as the header ([store_wf] below); the [None] padding of
    shorter rows and the rest key of longer ones are not modelled. *)
Definition dict := list (string * string).

(** [d.get(k)] *)
Fixpoint dict_get (k : string) (d : dict) : option string :=
  match d with
  | [] => None
  | (k', v) :: d' => if String.eqb k' k then Some v else dict_get k d'
  end.

(** [d.get(k, default)] *)
Definition dict_get_default (k : string) (d : dict) (default : string) : string :=
  match dict_get k d with Some v => v | None => default end.

(** [d[k] = v]: a key already present keeps its place. *)
Fixpoint dict_set (k v : string) (d : dict) : dict :=
  match d with
  | [] => [(k, v)]
  | (k', v') :: d' =>
      if String.eqb k' k then (k, v) :: d' else (k', v') :: dict_set k v d'
  end.

(** [dict(zip(fieldnames, row))] *)
Definition dict_of_row (fieldnames row : list string) : dict :=
  fold_left (fun d kv => dict_set (fst kv) (snd kv) d) (combine fieldnames row) [].

Definition is_blank (row : list string) : bool :=
  match row with [] => true | _ => false end.

(** The rows [csv.DictReader] iterates over; it skips blank rows. *)
Definition read_dicts (t : table) : list dict :=
  map (dict_of_row (fieldnames t))
      (filter (fun row => negb (is_blank row)) (rows t)).

(** The row [csv.DictWriter] writes for a dict. *)
Definition row_of_dict (fieldnames : list string) (d : dict) : list string :=
  map (fun k => dict_get_default k d "") fieldnames.

Record SaveResult := mkSave {
  save_session_id : string;
  save_status : string;
  save_message : string;
  estimated_review_time : string
}.

(** The review time estimated from the urgency. *)
Definition review_time (urgency_score : Z) : string :=
  if (8 <=? urgency_score)%Z then "within 15 minutes"
  else if (5 <=? urgency_score)%Z then "within 1 hour"
  else "within 24 hours".

(** The entry [save_for_human_review] builds; the dataclass defaults give
    it the time stamp, the status "pending" and empty notes. *)
Definition new_entry (uuid_hex now query location : string)
    (urgency_score credibility_score : Z) : HumanReviewEntry :=
  {| session_id := "IS-" ++ take 8 uuid_hex;
     query := query;
     location := location;
     urgency_score := urgency_score;
     credibility_score := credibility_score;
     timestamp := now;
     status := "pending";
     reviewer_notes := "" |}.

Definition save_for_human_review (uuid_hex now : string)
    (query location : string) (urgency_score credibility_score : Z)
    (st : store) : SaveResult * store :=
  let t := _ensure_csv_exists st in
  let entry := new_entry uuid_hex now query location urgency_score credibility_score in
  let t' := mkTable (fieldnames t) (rows t ++ [to_csv_row entry]) in
  ({| save_session_id := session_id entry;
      save_status := "saved";
      save_message := "Query saved for human verification. Your reference ID is "
                       ++ session_id entry ++ ".";
      estimated_review_time := review_time urgency_score |},
   Some t').

Record ReviewList := mkList {
  count : nat;
  entries : list dict;
  list_status : string
}.

Definition get_pending_reviews (status_filter : string) (st : store)
    : ReviewList * store :=
  let t := _ensure_csv_exists st in
  let entries :=
    filter (fun row =>
              String.eqb status_filter "all"
              || String.eqb (dict_get_default "status" row "pending") status_filter)
           (read_dicts t) in
  ({| count := List.length entries; entries := entries; list_status := "success" |},
   Some t).

Record UpdateResult := mkUpdate {
  update_status : string;
  update_message : string
}.

(** The body of the reading loop of [update_review_status], over
    [(entries, found)]. *)
Definition update_step (session_id new_status reviewer_notes : string)
    (acc : list dict * bool) (row : dict) : list dict * bool :=
  let '(entries, found) := acc in
  match dict_get "session_id" row with
  | Some v =>
      if String.eqb v session_id
      then ((entries ++ [dict_set "reviewer_notes" reviewer_notes
                           (dict_set "status" new_status row)])%list, true)
      else ((entries ++ [row])%list, found)
  | None => ((entries ++ [row])%list, found)
  end.

Definition update_review_status (session_id new_status reviewer_notes : string)
    (st : store) : UpdateResult * store :=
  let t := _ensure_csv_exists st in
  let headers := fieldnames t in
  let '(entries, found) :=
    fold_left (update_step session_id new_status reviewer_notes)
              (read_dicts t) ([], false) in
  if negb found then
    ({| update_status := "error";
        update_message := "Session ID " ++ session_id ++ " not found" |},
     Some t)
  else
    ({| update_status := "success";
        update_message := "Updated " ++ session_id ++ " to status: " ++ new_status |},
     Some (mkTable headers (map (row_of_dict headers) entries))).

(** The shape of the file this module creates and keeps: the header of
    [csv_headers], and rows with one field per column. *)
Definition table_wf (t : table) : bool :=
  strings_eqb (fieldnames t) csv_headers
  && forallb (fun row => (List.length row =? List.length csv_headers)%nat) (rows t).

Definition store_wf (st : store) : bool :=
  match st with Some t => table_wf t | None => true end.

(** The rows the file holds below its header; none while it is missing. *)
Definition stored_rows (st : store) : list (list string) :=
  match st with Some t => rows t | None => [] end.

(** Whether some stored entry has the given session id: the test of the
    reading loop of [update_review_status], over the rows it reads. *)
Definition matches_session (session_id : string) (row : dict) : bool :=
  match dict_get "session_id" row with
  | Some v => String.eqb v session_id
  | None => false
  end.

Definition has_session (session_id : string) (st : store) : bool :=
  existsb (matches_session session_id) (read_dicts (_ensure_csv_exists st)).

(** What the reading loop makes of one row. *)
Definition updated (session_id new_status reviewer_notes : string)
    (row : dict) : dict :=
  if matches_session session_id row
  then dict_set "reviewer_notes" reviewer_notes (dict_set "status" new_status row)
  else row.

(** [get_pending_reviews("all")["entries"]] *)
Definition list_all (st : store) : list dict :=
  entries (fst (get_pending_reviews "all" st)).


(** The row of a dict after the reading loop and the writing back. *)
Definition rewritten (session_id new_status reviewer_notes : string)
    (row : list string) : list string :=
  row_of_dict csv_headers
    (updated session_id new_status reviewer_notes (dict_of_row csv_headers row)).


(** The calls a client can make, and the queue after a sequence of them. *)
Inductive call :=
| Save (uuid_hex now query location : string) (urgency_score credibility_score : Z)
| List_ (status_filter : string)
| Update (session_id new_status reviewer_notes : string).

Definition after_call (st : store) (c : call) : store :=
  match c with
  | Save u n q l us cs => snd (save_for_human_review u n q l us cs st)
  | List_ f => snd (get_pending_reviews f st)
  | Update sid ns rn => snd (update_review_status sid ns rn st)
  end.

Definition after_calls (st : store) (cs : list call) : store :=
  fold_left after_call cs st.


End HumanReview.

(** ** [tools/guardrails.py], the rejection message *)

Module Rejection.
  Import Py Guardrails.

(** The pictograph that opens the heading, as the bytes of the file. *)
Definition shield : string := bytes [240; 159; 155; 161; 239; 184; 143].

Definition get_rejection_response (validation_result : Validation) : string :=
  "**" ++ shield ++ " InfoShield AI - Query Outside Scope**" ++ nl
  ++ nl
  ++ reason validation_result ++ nl
  ++ nl
  ++ "**Example queries I can help with:**" ++ nl
  ++ "- " ++ dq ++ "Is there flooding in Chennai right now?" ++ dq ++ nl
  ++ "- " ++ dq ++ "Earthquake near Tokyo - is this real?" ++ dq ++ nl
  ++ "- " ++ dq ++ "What's the status of the California wildfires?" ++ dq ++ nl
  ++ "- " ++ dq ++ "Is the tsunami warning in Japan genuine?" ++ dq ++ nl
  ++ nl
  ++ "---" ++ nl
  ++ "*InfoShield AI focuses exclusively on disaster verification to ensure accurate, life-saving information.*"
  ++ nl.

End Rejection.

(** ** [agents/runner.py]: the multi-agent runner

The run of the agents is the external collaborator: the text of its
final response and the names of the agents that answered are inputs.
Exceptions raised by the collaborator, the event cap and the counters
of the runner object are outside the model. *)

Module Runner.
  Import Py Re HumanReview.

Definition no_response : string :=
  "I wasn't able to generate a complete response. Please try rephrasing your query or contact emergency services if this is urgent.".

Definition score_patterns : list regex :=
  [ pat "Credibility Score\s*[|\t]\s*(\d+)/100"
      (seq [lit "Credibility Score"; Star ws; Set_ [One "|"; One "009"];
            Star ws; Group 1 (plus digit); lit "/100"]);
    pat "Credibility Score\s*\|\s*(\d+)/100"
      (seq [lit "Credibility Score"; Star ws; Chr "|"; Star ws;
            Group 1 (plus digit); lit "/100"]);
    pat "Score[:\s]+(\d+)/100"
      (seq [lit "Score"; plus (Set_ [One ":"; Cat Space]);
            Group 1 (plus digit); lit "/100"]);
    pat "credibility[:\s]+(\d+)"
      (seq [lit "credibility"; plus (Set_ [One ":"; Cat Space]);
            Group 1 (plus digit)]);
    pat "(\d+)/100.*credibility"
      (seq [Group 1 (plus digit); lit "/100"; Star Dot; lit "credibility"]) ].

(** The loop of [_extract_credibility_score] over a list of patterns. *)
Fixpoint first_score (patterns : list regex) (response : string) : option Z :=
  match patterns with
  | [] => None
  | pattern :: rest =>
      match search true pattern response with
      | Some m =>
          match group 1 m with
          | Some g => Some (int_of_digits g)
          | None => None
          end
      | None => first_score rest response
      end
  end.

Definition _extract_credibility_score (response : string) : option Z :=
  first_score score_patterns response.

(** The loop of [_extract_location] over the words left to visit; the
    test [i + 1 < len(words)] says that a word follows. *)
Fixpoint location_after (markers : list string) (words : list string) : string :=
  match words with
  | [] => "Unknown"
  | word :: rest =>
      if mem (lower word) markers && negb (Nat.eqb (List.length rest) 0)
      then strip_chars "?.,!" (join " " (firstn 2 rest))
      else location_after markers rest
  end.

Definition _extract_location (query : string) : string :=
  location_after ["in"; "at"; "near"] (split query).

(** [8 if any(kw in query.lower() for kw in [...]) else 5] *)
Definition urgency_estimate (query : string) : Z :=
  if any_in ["emergency"; "help"; "urgent"] (lower query) then 8%Z else 5%Z.

Record HumanReviewInfo := mkInfo {
  info_session_id : string;
  review_time_given : string
}.

Inductive Metadata :=
| Blocked (block_reason : string)
| Failed
| Processed.

Record Result := mkResult {
  response : string;
  credibility_score : option Z;
  agents_used : list string;
  human_review : option HumanReviewInfo;
  metadata : Metadata
}.

(** The sentence the synthesizer may leave, removed before the notice. *)
Definition placeholder : regex :=
  pat "This query has been flagged for human expert review\.?\s*Reference ID will be provided\.?"
    (seq [lit "This query has been flagged for human expert review";
          opt (Chr "."); Star ws; lit "Reference ID will be provided";
          opt (Chr ".")]).

(** The pictograph of the notice, as the bytes of the file. *)
Definition notice_mark : string := bytes [195; 176; 197; 184; 226; 128; 157].

Definition notice (session_id review_time : string) (credibility_score : Z) : string :=
  nl ++ nl
  ++ "---" ++ nl
  ++ "**" ++ notice_mark ++ " Human Review Triggered**" ++ nl
  ++ "- **Reference ID:** " ++ session_id ++ nl
  ++ "- **Estimated Review Time:** " ++ review_time ++ nl
  ++ "- **Reason:** Credibility score (" ++ str_of_Z credibility_score
  ++ "/100) below threshold (" ++ str_of_Z Config.CREDIBILITY_THRESHOLD ++ ")" ++ nl.

(** The post-processing of a non-empty final response: the score is
    extracted and, below the threshold, the query is queued for review. *)
Definition post_process (enable_human_review : bool) (uuid_hex now : string)
    (query final_response : string) (agents : list string) (st : store)
    : Result * store :=
  let credibility_score := _extract_credibility_score final_response in
  match credibility_score with
  | Some score =>
      if enable_human_review && (score <? Config.CREDIBILITY_THRESHOLD)%Z then
        let location := _extract_location query in
        let urgency := urgency_estimate query in
        let '(review_result, st') :=
          save_for_human_review uuid_hex now query location urgency score st in
        if String.eqb (save_status review_result) "saved" then
          ({| response :=
                remove_all placeholder final_response
                ++ notice (save_session_id review_result)
                          (estimated_review_time review_result) score;
              credibility_score := credibility_score;
              agents_used := agents;
              human_review :=
                Some (mkInfo (save_session_id review_result)
                             (estimated_review_time review_result));
              metadata := Processed |}, st')
        else
          ({| response := final_response;
              credibility_score := credibility_score;
              agents_used := agents;
              human_review := None;
              metadata := Processed |}, st')
      else
        ({| response := final_response;
            credibility_score := credibility_score;
            agents_used := agents;
            human_review := None;
            metadata := Processed |}, st)
  | None =>
      ({| response := final_response;
          credibility_score := None;
          agents_used := agents;
          human_review := None;
          metadata := Processed |}, st)
  end.

(** [MultiAgentRunner.process_query_async]: the guardrail, the run of the
    agents (given), the empty-response check and the post-processing. *)
Definition process_query_async (enable_human_review : bool)
    (uuid_hex now : string) (query final_response : string)
    (agents : list string) (st : store) : Result * store :=
  let validation := Guardrails.validate_query query in
  if negb (Guardrails.is_valid validation) then
    ({| response := Rejection.get_rejection_response validation;
        credibility_score := None;
        agents_used := ["guardrail"];
        human_review := None;
        metadata := Blocked (Guardrails.category validation) |}, st)
  else if negb (truthy final_response) then
    ({| response := no_response;
        credibility_score := None;
        agents_used := agents;
        human_review := None;
        metadata := Failed |}, st)
  else post_process enable_human_review uuid_hex now query final_response agents st.

End Runner.

(** ** [agent.py]: the single-agent runner *)

Module Agent.
  Import Py Re HumanReview.

Definition score_patterns : list regex :=
  [ pat "Credibility Score\s*\|\s*(\d+)/100"
      (seq [lit "Credibility Score"; Star ws; Chr "|"; Star ws;
            Group 1 (plus digit); lit "/100"]);
    pat "Credibility Score[:\s]+(\d+)"
      (seq [lit "Credibility Score"; plus (Set_ [One ":"; Cat Space]);
            Group 1 (plus digit)]);
    pat "credibility[:\s]+(\d+)"
      (seq [lit "credibility"; plus (Set_ [One ":"; Cat Space]);
            Group 1 (plus digit)]);
    pat "(\d+)/100.*credibility"
      (seq [Group 1 (plus digit); lit "/100"; Star Dot; lit "credibility"]) ].

Definition _extract_credibility_score (response : string) : option Z :=
  Runner.first_score score_patterns response.

(** Here the words are those of the lower-cased query. *)
Definition _extract_location (query : string) : string :=
  Runner.location_after ["in"; "at"; "near"; "around"] (split (lower query)).

(** The urgency heuristic of [InfoShieldRunner.process_query_async]. *)
Definition urgent_keywords : list string :=
  ["emergency"; "urgent"; "help"; "trapped"; "sos"].

Definition urgency_estimate (query : string) : Z :=
  if any_in urgent_keywords (lower query) then 8%Z else 5%Z.

(** The urgency heuristic of the function [run_query_async]. *)
Definition run_query_urgent_keywords : list string :=
  ["emergency"; "urgent"; "help"; "trapped"; "sos"; "immediately"].

Definition run_query_urgency_estimate (query : string) : Z :=
  if any_in run_query_urgent_keywords (lower query) then 8%Z else 5%Z.

Definition no_response : string := Runner.no_response.

Definition notice_mark : string := bytes [240; 159; 148; 141].

Definition notice (session_id review_time : string) (credibility_score : Z) : string :=
  nl ++ nl
  ++ "---" ++ nl
  ++ "**" ++ notice_mark ++ " Human Review Triggered**" ++ nl
  ++ "- **Reference ID:** " ++ session_id ++ nl
  ++ "- **Estimated Review Time:** " ++ review_time ++ nl
  ++ "- **Reason:** Credibility score (" ++ str_of_Z credibility_score
  ++ "/100) below threshold (" ++ str_of_Z Config.CREDIBILITY_THRESHOLD ++ ")" ++ nl.

(** [InfoShieldRunner.process_query_async] from the final response on. *)
Definition process_query_async (enable_human_review : bool)
    (uuid_hex now : string) (query final_response : string) (st : store)
    : string * store :=
  if negb (truthy final_response) || String.eqb (strip final_response) "" then
    (no_response, st)
  else if enable_human_review then
    match _extract_credibility_score final_response with
    | Some score =>
        if (score <? Config.CREDIBILITY_THRESHOLD)%Z then
          let location := _extract_location query in
          let urgency_score := urgency_estimate query in
          let '(review_result, st') :=
            save_for_human_review uuid_hex now query location urgency_score score st in
          if String.eqb (save_status review_result) "saved" then
            (final_response
             ++ notice (save_session_id review_result)
                       (estimated_review_time review_result) score, st')
          else (final_response, st')
        else (final_response, st)
    | None => (final_response, st)
    end
  else (final_response, st).

End Agent.

(** ** The run of the agents, as the runners read it

    The external collaborator is an asynchronous generator of events that
    may raise.  A run is the list of the events it yields and, when it ends
    by raising, the exception raised after the last of them. *)

Module AgentRun.
  Import Py.

(** An event, by what the loops read of it.  [part_text] is [None] when the
    event has no content or no parts; otherwise it is the text of the first
    part, which is Python's [None] for a part without text. *)
Record Event := mkEvent {
  author : string;            (* "" when the attribute is missing or empty *)
  error_message : string;     (* "" when the attribute is missing or empty *)
  is_final_response : bool;
  part_text : option (option string)
}.

(** An exception: whether it is an [asyncio.TimeoutError], the name of its
    type and [str(e)]. *)
Record Raised := mkRaised {
  is_timeout_error : bool;
  type_name : string;
  error_text : string
}.

Record Run := mkRun {
  events : list Event;
  raised : option Raised
}.

(** Falsiness of the final response, which [None] shares with "". *)
Definition falsy (final_response : option string) : bool :=
  match final_response with
  | Some t => negb (truthy t)
  | None => true
  end.

(** The assignment [final_response = event.content.parts[0].text], made
    for a final response with content and parts. *)
Definition capture (final_response : option string) (e : Event) : option string :=
  if is_final_response e then
    match part_text e with
    | Some t => t
    | None => final_response
    end
  else final_response.

Definition api_error : string :=
  "I apologize, but I'm experiencing technical difficulties connecting to my verification sources. Please try again in a moment. If this is an emergency, please contact local emergency services directly.".

Definition timeout : string :=
  "The verification is taking longer than expected. For urgent situations, please contact emergency services (911/112) while I continue processing.".

Definition rate_limit : string :=
  "I'm currently handling many requests. Please wait a moment and try again. For emergencies, contact local emergency services.".

End AgentRun.

(** ** [agents/runner.py]: [MultiAgentRunner], the whole of a query *)

Module MultiAgentRunner.
  Import Py HumanReview AgentRun.

(** The fields of the runner object that a query reads and writes. *)
Record Self := mkSelf {
  enable_human_review : bool;
  _query_count : nat;
  _error_count : nat
}.

Inductive Metadata :=
| Blocked (block_reason : string)
| Empty (event_count : nat)
| Completed (event_count query_number : nat)
| Errored (error_type : string).

Record Result := mkResult {
  response : string;
  credibility_score : option Z;
  agents_used : list string;
  human_review : option Runner.HumanReviewInfo;
  metadata : Metadata
}.

Definition max_events : nat := 100.

(** The variables of the loop. *)
Record Loop := mkLoop {
  final_response : option string;
  event_count : nat;
  seen_agents : list string;
  errors : nat
}.

(** The body of the loop below the test of the event limit. *)
Definition on_event (l : Loop) (e : Event) : Loop :=
  {| final_response := capture (final_response l) e;
     event_count := event_count l;
     seen_agents :=
       if truthy (author e) && negb (mem (author e) (seen_agents l))
       then (seen_agents l ++ [author e])%list else seen_agents l;
     errors :=
       if truthy (error_message e) then S (errors l) else errors l |}.

(** The loop: the variables at its end, and whether it ended by [break]. *)
Fixpoint event_loop (evs : list Event) (l : Loop) : Loop * bool :=
  match evs with
  | [] => (l, false)
  | e :: rest =>
      let l := mkLoop (final_response l) (S (event_count l))
                      (seen_agents l) (errors l) in
      if (max_events <? event_count l)%nat then (l, true)
      else event_loop rest (on_event l e)
  end.

(** The response of the two [except] clauses. *)
Definition error_reply (e : Raised) : string :=
  if is_timeout_error e then timeout
  else
    let error_str := lower (error_text e) in
    if contains "rate" error_str || contains "quota" error_str then rate_limit
    else if contains "timeout" error_str then timeout
    else api_error.

Definition error_type (e : Raised) : string :=
  if is_timeout_error e then "timeout" else type_name e.

Definition process_query_async (self : Self) (uuid_hex now : string)
    (query : string) (run : Run) (st : store) : Result * Self * store :=
  let self := mkSelf (enable_human_review self) (S (_query_count self))
                     (_error_count self) in
  let validation := Guardrails.validate_query query in
  if negb (Guardrails.is_valid validation) then
    ({| response := Rejection.get_rejection_response validation;
        credibility_score := None;
        agents_used := ["guardrail"];
        human_review := None;
        metadata := Blocked (Guardrails.category validation) |}, self, st)
  else
    let '(l, broke) :=
      event_loop (events run) (mkLoop (Some "") 0 [] (_error_count self)) in
    match (if broke then None else raised run) with
    | Some e =>
        ({| response := error_reply e;
            credibility_score := None;
            agents_used := seen_agents l;
            human_review := None;
            metadata := Errored (error_type e) |},
         mkSelf (enable_human_review self) (_query_count self) (S (errors l)), st)
    | None =>
        match final_response l with
        | Some text =>
            if negb (truthy text) then
              ({| response := Runner.no_response;
                  credibility_score := None;
                  agents_used := seen_agents l;
                  human_review := None;
                  metadata := Empty (event_count l) |},
               mkSelf (enable_human_review self) (_query_count self) (S (errors l)), st)
            else
              let '(r, st') :=
                Runner.post_process (enable_human_review self) uuid_hex now
                  query text (seen_agents l) st in
              ({| response := Runner.response r;
                  credibility_score := Runner.credibility_score r;
                  agents_used := Runner.agents_used r;
                  human_review := Runner.human_review r;
                  metadata := Completed (event_count l) (_query_count self) |},
               mkSelf (enable_human_review self) (_query_count self) 0, st')
        | None =>
            ({| response := Runner.no_response;
                credibility_score := None;
                agents_used := seen_agents l;
                human_review := None;
                metadata := Empty (event_count l) |},
             mkSelf (enable_human_review self) (_query_count self) (S (errors l)), st)
        end
    end.

(** [get_status()["healthy"]] *)
Definition healthy (self : Self) : bool := (_error_count self <? 3)%nat.

(** A new runner. *)
Definition new (enable_human_review : bool) : Self :=
  mkSelf enable_human_review 0 0.

End MultiAgentRunner.

(** ** [agent.py]: [InfoShieldRunner] and [run_query_async], the whole of a query *)

Module InfoShieldRunner.
  Import Py HumanReview AgentRun.

Record Self := mkSelf {
  enable_human_review : bool;
  _error_count : nat
}.

Definition _max_consecutive_errors : nat := 3.

Definition max_events : nat := 50.

(** How the loop ends: by the [return] of an event with an error message,
    or at its end or [break] with the final response captured so far. *)
Inductive LoopEnd :=
| ErrorEvent
| Finished (final_response : option string) (broke : bool).

Fixpoint event_loop (evs : list Event) (event_count : nat)
    (final_response : option string) : LoopEnd :=
  match evs with
  | [] => Finished final_response false
  | e :: rest =>
      let event_count := S event_count in
      if (max_events <? event_count)%nat then Finished final_response true
      else
        let final_response := capture final_response e in
        if truthy (error_message e) then ErrorEvent
        else event_loop rest event_count final_response
  end.

Definition degraded_note : string :=
  nl ++ nl
  ++ "(Multiple consecutive errors detected. The service may be temporarily unavailable.)".

(** The response of the two [except] clauses. *)
Definition error_reply (e : Raised) : string :=
  if is_timeout_error e then timeout
  else
    let error_str := lower (error_text e) in
    if contains "rate" error_str || contains "quota" error_str then rate_limit
    else if contains "timeout" error_str then timeout
    else api_error.

Definition process_query_async (self : Self) (uuid_hex now : string)
    (query : string) (run : Run) (st : store) : string * Self * store :=
  match event_loop (events run) 0 (Some "") with
  | ErrorEvent =>
      let self := mkSelf (enable_human_review self) (S (_error_count self)) in
      if (_max_consecutive_errors <=? _error_count self)%nat
      then (api_error ++ degraded_note, self, st)
      else (api_error, self, st)
  | Finished final_response broke =>
      match (if broke then None else raised run) with
      | Some e =>
          (error_reply e,
           mkSelf (enable_human_review self) (S (_error_count self)), st)
      | None =>
          match final_response with
          | Some text =>
              if negb (truthy text) || String.eqb (strip text) "" then
                (Agent.no_response,
                 mkSelf (enable_human_review self) (S (_error_count self)), st)
              else
                let '(response, st') :=
                  Agent.process_query_async (enable_human_review self)
                    uuid_hex now query text st in
                (response, mkSelf (enable_human_review self) 0, st')
          | None =>
              (Agent.no_response,
               mkSelf (enable_human_review self) (S (_error_count self)), st)
          end
      end
  end.

(** [get_error_status()["healthy"]] *)
Definition healthy (self : Self) : bool :=
  (_error_count self <? _max_consecutive_errors)%nat.

Definition new (enable_human_review : bool) : Self :=
  mkSelf enable_human_review 0.

End InfoShieldRunner.

Module RunQuery.
  Import Py HumanReview AgentRun.

Definition human_review_notice (session_id review_time : string)
    (credibility_score : Z) : string :=
  nl ++ nl
  ++ "---" ++ nl
  ++ "**" ++ Agent.notice_mark ++ " Human Review Triggered**" ++ nl
  ++ "Your query has been flagged for expert verification due to low credibility score ("
  ++ str_of_Z credibility_score ++ "/100)." ++ nl
  ++ "- **Reference ID:** " ++ session_id ++ nl
  ++ "- **Estimated Review Time:** " ++ review_time ++ nl
  ++ nl
  ++ "Our human experts will verify this information. You can check the status using your reference ID."
  ++ nl.

(** The response of the two [except] clauses. *)
Definition error_reply (e : Raised) : string :=
  if is_timeout_error e then timeout
  else
    let error_str := lower (error_text e) in
    if contains "rate" error_str || contains "quota" error_str then rate_limit
    else if contains "timeout" error_str || contains "timed out" error_str
         then timeout
    else api_error.

(** The post-processing of a non-empty final response. *)
Definition post_process (enable_human_review : bool) (uuid_hex now : string)
    (query final_response : string) (st : store) : string * store :=
  if enable_human_review then
    match Agent._extract_credibility_score final_response with
    | Some score =>
        if (score <? Config.CREDIBILITY_THRESHOLD)%Z then
          let location := Agent._extract_location query in
          let urgency_score := Agent.run_query_urgency_estimate query in
          let '(review_result, st') :=
            save_for_human_review uuid_hex now query location urgency_score score st in
          if String.eqb (save_status review_result) "saved" then
            (final_response
             ++ human_review_notice (save_session_id review_result)
                  (estimated_review_time review_result) score, st')
          else (final_response, st')
        else (final_response, st)
    | None => (final_response, st)
    end
  else (final_response, st).

(** [run_query_async]; its loop is that of [InfoShieldRunner], without the
    counter. *)
Definition run_query_async (enable_human_review : bool) (uuid_hex now : string)
    (query : string) (run : Run) (st : store) : string * store :=
  match InfoShieldRunner.event_loop (events run) 0 (Some "") with
  | InfoShieldRunner.ErrorEvent => (api_error, st)
  | InfoShieldRunner.Finished final_response broke =>
      match (if broke then None else raised run) with
      | Some e => (error_reply e, st)
      | None =>
          match final_response with
          | Some text =>
              if negb (truthy text) || String.eqb (strip text) "" then
                (Agent.no_response, st)
              else post_process enable_human_review uuid_hex now query text st
          | None => (Agent.no_response, st)
          end
      end
  end.

End RunQuery.

(** ** The repetition of the matcher, on its own

    The loop that [run] makes for [Star], with the matcher of the repeated
    pattern and the continuation as parameters. *)

Module ReLoop.
  Import Py Re.

Section Loop.
  Context {A : Type}.
  Variable step : option ascii -> string -> captures -> @cont A -> option A.
  Variable k : @cont A.

Fixpoint loop (fuel : nat) (prev : option ascii) (s : string)
    (cs : captures) {struct fuel} : option A :=
  match fuel with
  | O => k prev s cs
  | S fuel' =>
      orelse
        (step prev s cs
           (fun prev' s' cs' =>
              if (String.length s' <? String.length s)%nat
              then loop fuel' prev' s' cs' else None))
        (k prev s cs)
  end.
End Loop.

(** [g] occurs in [T]. *)
Definition occurs_in (T g : string) : Prop := exists a b, T = a ++ g ++ b.

(** Every captured text occurs in the whole text [T]. *)
Definition caps_ok (T : string) (cs : captures) : Prop :=
  forall n g, In (n, g) cs -> occurs_in T g.

(** A matcher is sound when a success on the input [s], a suffix of [T],
    is a success of its continuation on a suffix of [s], with captures
    taken from [T]. *)
Definition sound {A : Type} (T : string)
    (step : option ascii -> string -> captures -> @cont A -> option A) : Prop :=
  forall prev s cs k x pre,
    T = pre ++ s -> caps_ok T cs -> step prev s cs k = Some x ->
    exists p prev' s' cs',
      s = p ++ s' /\ caps_ok T cs' /\ k prev' s' cs' = Some x.

(** A continuation that accepts whatever it is given. *)
Definition accepting {A : Type} (k : @cont A) : Prop :=
  forall prev s cs, k prev s cs <> None.

End ReLoop.

(** ** The words the off-topic patterns look for anywhere in a query *)

Module GuardrailsWords.
  Import Py.

(** Whether every character of a string passes a test. *)
Fixpoint every (p : ascii -> bool) (s : string) : bool :=
  match s with
  | EmptyString => true
  | String c s' => p c && every p s'
  end.

(** The alternatives of the off-topic patterns that are plain words and
    stand under no anchor: those of the third to the eighth pattern (but
    for [java\b]) and of the last two. *)
Definition off_topic_words : list string :=
  [ "documentation"; "docs"; "api reference"; "library";
    "code"; "programming"; "python"; "javascript";
    "recipe"; "cook"; "food"; "restaurant";
    "movie"; "music"; "song"; "game"; "sport";
    "stock"; "crypto"; "bitcoin"; "investment";
    "joke"; "funny"; "meme";
    "who are you"; "what are you"; "your name";
    "weather forecast"; "temperature tomorrow" ].

End GuardrailsWords.

(** ** What the queue's calls do to a row, spelled out *)

Module HumanReviewRows.
  Import Py HumanReview.

(** Whether a call is a save. *)
Definition is_save (c : call) : bool :=
  match c with Save _ _ _ _ _ _ => true | _ => false end.

(** The row of eight fields after an update: status and notes are replaced
    when the first field is the session id, and nothing else changes. *)
Definition set_review (session_id new_status reviewer_notes : string)
    (row : list string) : list string :=
  match row with
  | [a; b; c; d; e; f; g; h] =>
      if String.eqb a session_id
      then [a; b; c; d; e; f; new_status; reviewer_notes]
      else row
  | _ => row
  end.

End HumanReviewRows.

(** ** The loops of the runners, turn by turn *)

Module RunnerLoops.
  Import Py AgentRun.

(** The counting of an event by the loop of [MultiAgentRunner]. *)
Definition bump (l : MultiAgentRunner.Loop) : MultiAgentRunner.Loop :=
  MultiAgentRunner.mkLoop
    (MultiAgentRunner.final_response l) (S (MultiAgentRunner.event_count l))
    (MultiAgentRunner.seen_agents l) (MultiAgentRunner.errors l).

(** One turn of that loop below the event limit. *)
Definition turn (l : MultiAgentRunner.Loop) (e : Event) : MultiAgentRunner.Loop :=
  MultiAgentRunner.on_event (bump l) e.

(** The variables of the loop as a query starts. *)
Definition start (error_count : nat) : MultiAgentRunner.Loop :=
  MultiAgentRunner.mkLoop (Some "") 0 [] error_count.

(** The variables after the events the loop reads. *)
Definition read (evs : list Event) (error_count : nat) : MultiAgentRunner.Loop :=
  fold_left turn (firstn MultiAgentRunner.max_events evs) (start error_count).

(** The events that carry an error message. *)
Definition error_events (evs : list Event) : nat :=
  List.length (filter (fun e => truthy (error_message e)) evs).

(** The authors of the events, without the empty ones. *)
Definition authors (evs : list Event) : list string :=
  filter truthy (map author evs).

End RunnerLoops.

(** ** What a pattern reads

    The texts a pattern can read, by the structure of the pattern; the
    anchors read nothing. *)

Module ReLang.
  Import Py Re.

Definition concat_all (ps : list string) : string := fold_right append "" ps.

Fixpoint reads (ic : bool) (r : regex) (p : string) : Prop :=
  match r with
  | Eps | Bol | Eol | WordB => p = ""
  | Chr a => exists c, p = String c "" /\ chr_match ic a c = true
  | Set_ items => exists c, p = String c "" /\ set_match ic items c = true
  | Dot => exists c, p = String c "" /\ Ascii.eqb c "010" = false
  | Seq r1 r2 => exists p1 p2, p = p1 ++ p2 /\ reads ic r1 p1 /\ reads ic r2 p2
  | Alt r1 r2 => reads ic r1 p \/ reads ic r2 p
  | Star r1 => exists ps, p = concat_all ps /\ Forall (reads ic r1) ps
  | Group _ r1 => reads ic r1 p
  end.

(** The capturing groups of a pattern, with their numbers. *)
Fixpoint groups (r : regex) : list (nat * regex) :=
  match r with
  | Seq r1 r2 | Alt r1 r2 => groups r1 ++ groups r2
  | Star r1 => groups r1
  | Group n r1 => (n, r1) :: groups r1
  | _ => []
  end.

(** Every captured text is read by the pattern of a group of its number,
    among the groups [G]. *)
Definition caps_in (ic : bool) (G : list (nat * regex)) (cs : captures) : Prop :=
  forall n g, In (n, g) cs -> exists b, In (n, b) G /\ reads ic b g.

(** A matcher reads texts of [L] when a success on [s] is a success of its
    continuation after a text of [L] at the start of [s]. *)
Definition reads_only {A : Type} (ic : bool) (G : list (nat * regex))
    (L : string -> Prop)
    (step : option ascii -> string -> captures -> @cont A -> option A) : Prop :=
  forall prev s cs k x,
    caps_in ic G cs -> step prev s cs k = Some x ->
    exists p prev' s' cs',
      s = p ++ s' /\ L p /\ caps_in ic G cs' /\ k prev' s' cs' = Some x.

End ReLang.

(** ** Tests on lists of strings *)

Module ListTests.
  Import Py.

(** Whether no string occurs twice. *)
Fixpoint nodupb (l : list string) : bool :=
  match l with
  | [] => true
  | x :: l' => negb (mem x l') && nodupb l'
  end.

End ListTests.

(** * Facts *)

(** ** Strings *)

Module PyFacts.
  Import Py.

Lemma append_nil_r (s : string) : s ++ "" = s.
Proof. induction s as [|c s IH]; simpl; [reflexivity | now rewrite IH]. Qed.

Lemma append_assoc (a b c : string) : (a ++ b) ++ c = a ++ (b ++ c).
Proof. induction a as [|x a IH]; simpl; [reflexivity | now rewrite IH]. Qed.

Lemma length_append (a b : string) :
  String.length (a ++ b) = String.length a + String.length b.
Proof. induction a as [|x a IH]; simpl; [reflexivity | now rewrite IH]. Qed.

Lemma lower_append (a b : string) : lower (a ++ b) = lower a ++ lower b.
Proof. induction a as [|x a IH]; simpl; [reflexivity | now rewrite IH]. Qed.

Lemma startswith_append (x s t : string) :
  startswith x s = true -> startswith x (s ++ t) = true.
Proof.
  revert s; induction x as [|a x IH]; intros s H; [reflexivity|].
  destruct s as [|b s]; simpl in *; [discriminate|].
  apply andb_true_iff in H as [H1 H2].
  rewrite H1; simpl; now apply IH.
Qed.

Lemma startswith_self_append (x t : string) : startswith x (x ++ t) = true.
Proof.
  induction x as [|a x IH]; simpl; [reflexivity|].
  now rewrite Ascii.eqb_refl, IH.
Qed.

(** A substring of [s] is a substring of [s] with text added after it. *)
Lemma contains_append_r (x s t : string) :
  contains x s = true -> contains x (s ++ t) = true.
Proof.
  induction s as [|c s IH]; simpl; intros H.
  - rewrite orb_false_r in H.
    destruct x; [destruct t; reflexivity | discriminate].
  - apply orb_true_iff in H as [H|H].
    + change (String c (s ++ t)) with (String c s ++ t).
      rewrite (startswith_append _ _ t H). reflexivity.
    + rewrite (IH H). apply orb_true_r.
Qed.

(** ... and with text added before it. *)
Lemma contains_append_l (x s t : string) :
  contains x s = true -> contains x (t ++ s) = true.
Proof.
  intros H; induction t as [|c t IH]; simpl; [assumption|].
  rewrite IH. apply orb_true_r.
Qed.

Lemma contains_self (x s t : string) : contains x (s ++ x ++ t) = true.
Proof.
  apply contains_append_l.
  destruct x as [|a x]; [destruct t; reflexivity|].
  change (String a x ++ t) with (String a (x ++ t)).
  cbn [contains].
  change (String a (x ++ t)) with (String a x ++ t).
  now rewrite startswith_self_append.
Qed.

Lemma contains_around (x s pre post : string) :
  contains x s = true -> contains x (pre ++ s ++ post) = true.
Proof. intros H. now apply contains_append_l, contains_append_r. Qed.



Lemma count_char_append (c : ascii) (a b : string) :
  count_char c (a ++ b) = count_char c a + count_char c b.
Proof. induction a as [|x a IH]; simpl; [reflexivity | rewrite IH; lia]. Qed.


End PyFacts.

(** ** The credibility scorer *)

Module CredibilityFacts.
  Import Py PyFacts Credibility.

Lemma fst_rule (c : bool) (pts : Z) (reason : string) (acc : Z * list string) :
  fst (rule c pts reason acc) = (fst acc + (if c then pts else 0))%Z.
Proof. destruct c; simpl; lia. Qed.


Lemma score_eq (s srcs loc dt : string) :
  score (calculate_credibility s srcs loc dt) =
  let '(found, o, n) := scan_sources (lower s) (lower srcs) in
  Z.max 0 (Z.min 100
    (points o n (any_in recency_keywords (lower s))
       (location_confirmed (lower s) loc)
       (3 <=? List.length found)%nat
       (disaster_confirmed (lower s) dt)
       (any_in doubt_keywords (lower s)))).
Proof.
  unfold calculate_credibility.
  destruct (scan_sources (lower s) (lower srcs)) as [[found o] n].
  cbn [score]. rewrite !fst_rule. cbn [fst]. unfold points.
  now rewrite Z.add_0_l.
Qed.









(** C1. On the scenario input the scorer finds exactly the two sources
    "reuters" and "ndrf" (one news, one official), so the corroboration
    bonus for three or more sources stays off, and the score is 55. *)
Theorem C1_scenario_score_55 :
  let r := calculate_credibility
             "NDRF confirms flooding today in Chennai. Reuters reports heavy rain."
             "ndrf, reuters" "Chennai" "flood" in
  score r = 55%Z /\
  official_sources_count r = 1 /\
  news_sources_count r = 1 /\
  List.length (sources_found r) = 2 /\
  sources_found r = ["reuters"; "ndrf"] /\
  (3 <=? List.length (sources_found r))%nat = false /\
  reasoning r =
    "Found 1 official source(s) (+20); Found 1 news/reliable source(s) (+10); Recent/current event indicators (+10); Location 'Chennai' confirmed in sources (+10); Disaster type 'flood' confirmed (+5)".
Proof.
  vm_compute. repeat split; reflexivity.
Qed.




End CredibilityFacts.

(** ** The query analyzer *)

Module AnalyzerFacts.
  Import Py PyFacts Analyzer.

Lemma raw_urgency_eq (q : string) :
  raw_urgency q =
  (3 + (if any_in panic_indicators (lower q) then 4 else 0)
     + (if any_in urgent_indicators (lower q) then 2 else 0)
     + (if (2 <=? count_char "!" q)%nat then 1 else 0)
     + Z.of_nat (List.length (find_keywords (lower q))))%Z.
Proof.
  unfold raw_urgency.
  destruct (any_in panic_indicators (lower q)),
           (any_in urgent_indicators (lower q)),
           (2 <=? count_char "!" q)%nat;
    destruct (find_keywords (lower q)); cbn [List.length Nat.ltb Nat.leb]; lia.
Qed.

Lemma urgency_score_eq (q : string) (loc : option string) :
  urgency_score (analyze_query q loc) = clamp_urgency (raw_urgency q).
Proof. reflexivity. Qed.

Lemma clamp_urgency_bounds (u : Z) : (1 <= clamp_urgency u <= 10)%Z.
Proof. unfold clamp_urgency. lia. Qed.

Lemma clamp_urgency_mono (u v : Z) :
  (u <= v)%Z -> (clamp_urgency u <= clamp_urgency v)%Z.
Proof. unfold clamp_urgency. lia. Qed.

(** A filter that accepts more keeps more. *)
Lemma filter_length_le {A} (f g : A -> bool) (l : list A) :
  (forall x, In x l -> f x = true -> g x = true) ->
  List.length (filter f l) <= List.length (filter g l).
Proof.
  induction l as [|x l IH]; intros H; [apply Nat.le_refl|].
  assert (IH' : List.length (filter f l) <= List.length (filter g l)).
  { apply IH. intros y Hy. apply H. now right. }
  cbn [filter].
  destruct (f x) eqn:Ef.
  - rewrite (H x (or_introl eq_refl) Ef). cbn [List.length]. lia.
  - destruct (g x); cbn [List.length]; lia.
Qed.

Section KeptHits.
  Variables q q' : string.
  Hypothesis kept : keeps_hits q q' = true.

Let all_indicators : list string :=
  (panic_indicators ++ urgent_indicators ++ Config.DISASTER_KEYWORDS)%list.

Lemma kept_indicator (ind : string) :
  In ind all_indicators ->
  contains ind (lower q) = true -> contains ind (lower q') = true.
Proof.
  intros Hin H. unfold keeps_hits in kept.
  apply andb_true_iff in kept as [Hall _].
  rewrite forallb_forall in Hall.
  specialize (Hall ind Hin). now rewrite H in Hall.
Qed.

Lemma kept_marks : count_char "!" q <= count_char "!" q'.
Proof.
  unfold keeps_hits in kept.
  apply andb_true_iff in kept as [_ H]. now apply Nat.leb_le.
Qed.

Lemma kept_any (kws : list string) :
  incl kws all_indicators ->
  any_in kws (lower q) = true -> any_in kws (lower q') = true.
Proof.
  intros Hincl. unfold any_in. rewrite !existsb_exists.
  intros [kw [Hin H]]. exists kw. split; [assumption|].
  apply kept_indicator; [now apply Hincl | assumption].
Qed.

Lemma raw_urgency_kept : (raw_urgency q <= raw_urgency q')%Z.
Proof.
  rewrite !raw_urgency_eq.
  assert (Hp : any_in panic_indicators (lower q) = true ->
               any_in panic_indicators (lower q') = true).
  { apply kept_any. unfold all_indicators. apply incl_appl, incl_refl. }
  assert (Hu : any_in urgent_indicators (lower q) = true ->
               any_in urgent_indicators (lower q') = true).
  { apply kept_any. unfold all_indicators.
    apply incl_appr, incl_appl, incl_refl. }
  assert (Hk : List.length (find_keywords (lower q))
               <= List.length (find_keywords (lower q'))).
  { unfold find_keywords. apply filter_length_le. intros kw Hin.
    apply kept_indicator. unfold all_indicators.
    apply in_or_app; right. apply in_or_app; now right. }
  pose proof kept_marks as Hm.
  destruct (any_in panic_indicators (lower q));
    [rewrite (Hp eq_refl) | destruct (any_in panic_indicators (lower q'))];
  (destruct (any_in urgent_indicators (lower q));
    [rewrite (Hu eq_refl) | destruct (any_in urgent_indicators (lower q'))]);
  (destruct (2 <=? count_char "!" q)%nat eqn:E1;
    [apply Nat.leb_le in E1;
     assert (E2 : (2 <=? count_char "!" q')%nat = true)
       by (apply Nat.leb_le; lia);
     rewrite E2
    | destruct (2 <=? count_char "!" q')%nat]);
  lia.
Qed.
End KeptHits.

(** Text added before and after a query keeps all its hits. *)
Lemma keeps_hits_around (q pre post : string) :
  keeps_hits q (pre ++ q ++ post) = true.
Proof.
  unfold keeps_hits. apply andb_true_iff. split.
  - apply forallb_forall. intros ind _.
    destruct (contains ind (lower q)) eqn:E; [|reflexivity].
    rewrite !lower_append. cbn [implb].
    now apply contains_around.
  - apply Nat.leb_le. rewrite !count_char_append. lia.
Qed.

(** C4. On "Help! Flooding in Mumbai!!", with no inferred location, the
    analyzer returns urgency 10 (the sum before clamping is 13: three
    keywords, "flood", "flooding" and "help", are found), sentiment
    "panic", disaster type "flood" and the emergency flag; the location
    found by the patterns is "Mumbai". *)
Theorem C4_scenario_help_flooding :
  let r := analyze_query "Help! Flooding in Mumbai!!" None in
  urgency_score r = 10%Z /\
  sentiment r = "panic" /\
  disaster_type r = Some "flood" /\
  is_emergency r = true /\
  location r = "Mumbai" /\
  keywords_found r = ["flood"; "flooding"; "help"] /\
  raw_urgency "Help! Flooding in Mumbai!!" = 13%Z.
Proof.
  vm_compute. repeat split; reflexivity.
Qed.

(** C6. The urgency score of [analyze_query] lies in [1,10] on every
    query, and it does not decrease when indicators or keyword occurrences
    are added and the rest is left as it is: neither for a query that
    keeps all the hits of the first, nor, in particular, for the query with
    any text added before and after it. *)
Theorem C6_urgency_bounded_and_monotone (q : string) (loc : option string) :
  (1 <= urgency_score (analyze_query q loc) <= 10)%Z /\
  (forall q' : string,
     keeps_hits q q' = true ->
     (urgency_score (analyze_query q loc)
        <= urgency_score (analyze_query q' loc))%Z) /\
  (forall pre post : string,
     (urgency_score (analyze_query q loc)
        <= urgency_score (analyze_query (pre ++ q ++ post) loc))%Z).
Proof.
  rewrite urgency_score_eq.
  split; [apply clamp_urgency_bounds|].
  assert (H : forall q', keeps_hits q q' = true ->
              (clamp_urgency (raw_urgency q)
                 <= urgency_score (analyze_query q' loc))%Z).
  { intros q' Hk. rewrite urgency_score_eq.
    apply clamp_urgency_mono. now apply raw_urgency_kept. }
  split; [exact H|].
  intros pre post. apply H. apply keeps_hits_around.
Qed.

Lemma C6_witness :
  keeps_hits "Flood in Pune" "Flood now in Pune, help" = true /\
  urgency_score (analyze_query "Flood in Pune" None) = 4%Z /\
  urgency_score (analyze_query "Flood now in Pune, help" None) = 10%Z /\
  (urgency_score (analyze_query "Flood in Pune" None)
     <= urgency_score (analyze_query "Flood now in Pune, help" None))%Z.
Proof.
  split; [vm_compute; reflexivity|].
  split; [vm_compute; reflexivity|].
  split; [vm_compute; reflexivity|].
  apply (proj1 (proj2 (C6_urgency_bounded_and_monotone "Flood in Pune" None))).
  vm_compute; reflexivity.
Defined.

(** C6, as it is stated, fails when the indicator is added inside a word:
    the exclamation mark, an urgent indicator, written inside "help" leaves
    every other character as it is, yet it removes a panic indicator and a
    keyword, and the score falls from 8 to 5.  The hits have to be kept. *)
Lemma C6_counterexample_indicator_inside_a_word :
  let q := "he" ++ "lp" in
  let q' := "he" ++ "!" ++ "lp" in
  In "!" urgent_indicators /\
  q = "help" /\
  urgency_score (analyze_query q None) = 8%Z /\
  urgency_score (analyze_query q' None) = 5%Z /\
  keeps_hits q q' = false /\
  ~ (urgency_score (analyze_query q None)
       <= urgency_score (analyze_query q' None))%Z.
Proof.
  cbv zeta.
  assert (E1 : urgency_score (analyze_query ("he" ++ "lp") None) = 8%Z)
    by (vm_compute; reflexivity).
  assert (E2 : urgency_score (analyze_query ("he" ++ "!" ++ "lp") None) = 5%Z)
    by (vm_compute; reflexivity).
  split; [vm_compute; tauto|].
  split; [reflexivity|].
  split; [exact E1|]. split; [exact E2|].
  split; [vm_compute; reflexivity|].
  rewrite E1, E2. lia.
Qed.

End AnalyzerFacts.

(** ** The guardrail *)

Module GuardrailsFacts.
  Import Py Re Guardrails.

(** The five results [validate_query] can return. *)
Lemma validate_query_cases (q : string) :
  validate_query q = mkValidation false too_short_reason "unclear"
  \/ validate_query q = mkValidation false off_topic_reason "off_topic"
  \/ validate_query q = mkValidation false tech_reason "off_topic"
  \/ validate_query q = mkValidation true "Query is disaster-related" "disaster"
  \/ validate_query q =
       mkValidation true "Query appears to be about a situation at a location"
                    "disaster"
  \/ validate_query q = mkValidation false unclear_reason "unclear".
Proof.
  unfold validate_query.
  destruct (String.length (strip (lower q)) <? 5)%nat; [tauto|].
  destruct (any_match true OFF_TOPIC_PATTERNS (strip (lower q))); [tauto|].
  destruct (any_match true TECH_OR_DEV_PATTERNS (strip (lower q))); [tauto|].
  destruct (any_in DISASTER_KEYWORDS (strip (lower q))); [tauto|].
  destruct (any_in location_indicators (strip (lower q))
            && any_match false situation_patterns (strip (lower q))); tauto.
Qed.

(** C7. A query whose trimmed, lower-cased text has at least five
    characters, matches no off-topic pattern and matches a
    technical/deployment pattern is rejected with category "off_topic" and
    the reason of the technical check, whatever disaster keywords it
    holds: the check comes before the keyword test. *)
Theorem C7_technical_pattern_rejected (q : string) :
  5 <= String.length (strip (lower q)) ->
  any_match true OFF_TOPIC_PATTERNS (strip (lower q)) = false ->
  any_match true TECH_OR_DEV_PATTERNS (strip (lower q)) = true ->
  validate_query q =
    {| is_valid := false; reason := tech_reason; category := "off_topic" |}.
Proof.
  intros Hlen Hoff Htech. unfold validate_query.
  assert (E : (String.length (strip (lower q)) <? 5)%nat = false)
    by (apply Nat.ltb_ge; exact Hlen).
  rewrite E, Hoff, Htech. reflexivity.
Qed.

Lemma C7_witness :
  let q := "Deploy app for flood alert in Chennai" in
  5 <= String.length (strip (lower q)) /\
  any_match true OFF_TOPIC_PATTERNS (strip (lower q)) = false /\
  any_match true TECH_OR_DEV_PATTERNS (strip (lower q)) = true /\
  any_in DISASTER_KEYWORDS (strip (lower q)) = true /\
  validate_query q =
    {| is_valid := false; reason := tech_reason; category := "off_topic" |}.
Proof.
  cbv zeta.
  split; [vm_compute; lia|].
  split; [vm_compute; reflexivity|].
  split; [vm_compute; reflexivity|].
  split; [vm_compute; reflexivity|].
  apply (C7_technical_pattern_rejected "Deploy app for flood alert in Chennai").
  - vm_compute; lia.
  - vm_compute; reflexivity.
  - vm_compute; reflexivity.
Defined.

(** The example of the specification is rejected one step earlier, by
    the off-topic pattern that starts with "how to". *)
Example how_to_deploy_rejected :
  validate_query "how to deploy an earthquake alert app" =
    {| is_valid := false; reason := off_topic_reason; category := "off_topic" |}.
Proof. vm_compute. reflexivity. Qed.

(** C10. [validate_query] returns [is_valid = true] exactly with the
    category "disaster" and [is_valid = false] exactly with the category
    "off_topic" or "unclear"; its reason is never the empty string. *)
Theorem C10_validity_matches_category (q : string) :
  (is_valid (validate_query q) = true <-> category (validate_query q) = "disaster") /\
  (is_valid (validate_query q) = false <->
     category (validate_query q) = "off_topic"
     \/ category (validate_query q) = "unclear") /\
  reason (validate_query q) <> "".
Proof.
  destruct (validate_query_cases q) as [E|[E|[E|[E|[E|E]]]]];
    rewrite E; cbn [is_valid category reason];
    (split; [split; intros H; try reflexivity; discriminate H|]);
    (split; [split; [intros H; try discriminate H; auto
                    | intros [H|H]; try reflexivity; discriminate H]|]);
    vm_compute; discriminate.
Qed.

End GuardrailsFacts.

(** ** The human-review queue *)

Module HumanReviewFacts.
  Import Py HumanReview.

(** *** The reading loop of [update_review_status] *)

Lemma update_step_eq (sid new_status notes : string)
    (acc : list dict) (found : bool) (row : dict) :
  update_step sid new_status notes (acc, found) row =
  ((acc ++ [updated sid new_status notes row])%list,
   found || matches_session sid row).
Proof.
  unfold update_step, updated, matches_session.
  destruct (dict_get "session_id" row) as [v|].
  - destruct (String.eqb v sid).
    + now rewrite orb_true_r.
    + now rewrite orb_false_r.
  - now rewrite orb_false_r.
Qed.

Lemma update_loop (sid new_status notes : string) (l : list dict) :
  forall (acc : list dict) (found : bool),
  fold_left (update_step sid new_status notes) l (acc, found) =
  ((acc ++ map (updated sid new_status notes) l)%list,
   found || existsb (matches_session sid) l).
Proof.
  induction l as [|row l IH]; intros acc found; cbn [fold_left map existsb].
  - now rewrite app_nil_r, orb_false_r.
  - rewrite update_step_eq, IH, <- app_assoc, orb_assoc. reflexivity.
Qed.

Lemma map_updated_no_match (sid new_status notes : string) (l : list dict) :
  existsb (matches_session sid) l = false ->
  map (updated sid new_status notes) l = l.
Proof.
  induction l as [|row l IH]; cbn [existsb map]; [reflexivity|].
  intros H. apply orb_false_iff in H as [H1 H2].
  unfold updated at 1. rewrite H1. now rewrite IH.
Qed.

(** [update_review_status], by whether the session is stored. *)
Lemma update_review_status_eq (sid new_status notes : string) (st : store) :
  update_review_status sid new_status notes st =
  let t := _ensure_csv_exists st in
  if has_session sid st then
    ({| update_status := "success";
        update_message := "Updated " ++ sid ++ " to status: " ++ new_status |},
     Some (mkTable (fieldnames t)
             (map (row_of_dict (fieldnames t))
                  (map (updated sid new_status notes) (read_dicts t)))))
  else
    ({| update_status := "error";
        update_message := "Session ID " ++ sid ++ " not found" |},
     Some t).
Proof.
  unfold update_review_status, has_session.
  rewrite update_loop. cbn [app orb].
  destruct (existsb (matches_session sid) (read_dicts (_ensure_csv_exists st)));
    reflexivity.
Qed.

(** *** The shape of the file *)

Lemma strings_eqb_eq (a b : list string) : strings_eqb a b = true -> a = b.
Proof.
  revert b; induction a as [|x a IH]; intros [|y b] H; try discriminate H.
  - reflexivity.
  - cbn [strings_eqb] in H. apply andb_true_iff in H as [H1 H2].
    apply String.eqb_eq in H1. subst y. f_equal. now apply IH.
Qed.

Lemma table_wf_inv (t : table) :
  table_wf t = true ->
  fieldnames t = csv_headers /\
  Forall (fun row => List.length row = 8) (rows t).
Proof.
  unfold table_wf. intros H. apply andb_true_iff in H as [H1 H2].
  split; [now apply strings_eqb_eq|].
  apply Forall_forall. intros row Hin.
  rewrite forallb_forall in H2. specialize (H2 row Hin).
  now apply Nat.eqb_eq in H2.
Qed.

Lemma table_wf_intro (t : table) :
  fieldnames t = csv_headers ->
  Forall (fun row => List.length row = 8) (rows t) ->
  table_wf t = true.
Proof.
  intros H1 H2. unfold table_wf. rewrite H1. apply andb_true_iff. split.
  - reflexivity.
  - apply forallb_forall. intros row Hin.
    rewrite Forall_forall in H2. apply Nat.eqb_eq. now apply H2.
Qed.

Lemma eight_fields (row : list string) :
  List.length row = 8 ->
  exists a b c d e f g h, row = [a; b; c; d; e; f; g; h].
Proof.
  intros H.
  do 8 (destruct row as [|? row]; [discriminate H|]).
  destruct row; [|discriminate H].
  now eexists _, _, _, _, _, _, _, _.
Qed.

Lemma no_blank_rows (l : list (list string)) :
  Forall (fun row => List.length row = 8) l ->
  filter (fun row => negb (is_blank row)) l = l.
Proof.
  induction 1 as [|row l H _ IH]; [reflexivity|].
  cbn [filter]. destruct row; [discriminate H|]. cbn [is_blank negb].
  now rewrite IH.
Qed.

Lemma read_dicts_wf (t : table) :
  table_wf t = true ->
  read_dicts t = map (dict_of_row csv_headers) (rows t).
Proof.
  intros H. apply table_wf_inv in H as [H1 H2].
  unfold read_dicts. now rewrite H1, no_blank_rows.
Qed.

(** A row of eight fields keeps its first six through an update, and all
    eight when the update is of another session. *)
Lemma rewritten_eq (sid new_status notes a b c d e f g h : string) :
  rewritten sid new_status notes [a; b; c; d; e; f; g; h] =
  if String.eqb a sid then [a; b; c; d; e; f; new_status; notes]
  else [a; b; c; d; e; f; g; h].
Proof.
  unfold rewritten, updated, matches_session.
  change (dict_get "session_id" (dict_of_row csv_headers [a; b; c; d; e; f; g; h]))
    with (Some a).
  destruct (String.eqb a sid); reflexivity.
Qed.

Lemma rewritten_length (sid new_status notes : string) (row : list string) :
  List.length row = 8 -> List.length (rewritten sid new_status notes row) = 8.
Proof.
  intros H. destruct (eight_fields row H) as (a & b & c & d & e & f & g & h & ->).
  rewrite rewritten_eq. destruct (String.eqb a sid); reflexivity.
Qed.

(** The state of a well-formed queue after each call. *)
Lemma stored_rows_save (u n q l : string) (us cs : Z) (st : store) :
  stored_rows (snd (save_for_human_review u n q l us cs st)) =
  (stored_rows st ++ [to_csv_row (new_entry u n q l us cs)])%list.
Proof. destruct st; reflexivity. Qed.

Lemma stored_rows_list (f : string) (st : store) :
  stored_rows (snd (get_pending_reviews f st)) = stored_rows st.
Proof. destruct st; reflexivity. Qed.

Lemma stored_rows_update (sid new_status notes : string) (st : store) :
  store_wf st = true ->
  stored_rows (snd (update_review_status sid new_status notes st)) =
  if has_session sid st
  then map (rewritten sid new_status notes) (stored_rows st)
  else stored_rows st.
Proof.
  intros Hwf. rewrite update_review_status_eq. cbv zeta.
  destruct (has_session sid st); [|destruct st; reflexivity].
  destruct st as [t|]; [|reflexivity].
  cbn [snd stored_rows _ensure_csv_exists rows].
  cbn [store_wf] in Hwf. rewrite (read_dicts_wf t Hwf).
  destruct (table_wf_inv t Hwf) as [-> _].
  rewrite !map_map. reflexivity.
Qed.

Lemma fieldnames_after_call (st : store) (c : call) :
  fieldnames (_ensure_csv_exists (after_call st c)) =
  fieldnames (_ensure_csv_exists st).
Proof.
  destruct c as [u n q l us cs|f|sid ns rn]; cbn [after_call].
  - destruct st; reflexivity.
  - destruct st; reflexivity.
  - rewrite update_review_status_eq. cbv zeta.
    destruct (has_session sid st); destruct st; reflexivity.
Qed.

Lemma after_call_some (st : store) (c : call) :
  after_call st c = Some (_ensure_csv_exists (after_call st c)).
Proof.
  destruct c as [u n q l us cs|f|sid ns rn]; cbn [after_call].
  - reflexivity.
  - reflexivity.
  - rewrite update_review_status_eq. cbv zeta.
    destruct (has_session sid st); reflexivity.
Qed.

Lemma store_wf_rows (st : store) :
  store_wf st = true -> Forall (fun row => List.length row = 8) (stored_rows st).
Proof.
  destruct st as [t|]; cbn [store_wf stored_rows]; [|constructor].
  intros H. now apply table_wf_inv in H.
Qed.

Lemma store_wf_fieldnames (st : store) :
  store_wf st = true -> fieldnames (_ensure_csv_exists st) = csv_headers.
Proof.
  destruct st as [t|]; cbn [store_wf _ensure_csv_exists]; [|reflexivity].
  intros H. now apply table_wf_inv in H.
Qed.

(** Every call keeps the shape of the file. *)
Lemma after_call_wf (st : store) (c : call) :
  store_wf st = true -> store_wf (after_call st c) = true.
Proof.
  intros Hwf.
  pose proof (store_wf_rows st Hwf) as Hrows.
  pose proof (store_wf_fieldnames st Hwf) as Hnames.
  rewrite after_call_some. cbn [store_wf]. apply table_wf_intro.
  - now rewrite fieldnames_after_call.
  - change (rows (_ensure_csv_exists (after_call st c)))
      with (stored_rows (Some (_ensure_csv_exists (after_call st c)))).
    rewrite <- after_call_some.
    destruct c as [u n q l us cs|f|sid ns rn]; cbn [after_call].
    + rewrite stored_rows_save. apply Forall_app. split; [assumption|].
      constructor; [reflexivity | constructor].
    + now rewrite stored_rows_list.
    + rewrite (stored_rows_update sid ns rn st Hwf).
      destruct (has_session sid st); [|assumption].
      apply Forall_forall. intros row Hin.
      apply in_map_iff in Hin as [row0 [<- Hin0]].
      apply rewritten_length.
      rewrite Forall_forall in Hrows. now apply Hrows.
Qed.

Lemma after_calls_wf (cs : list call) :
  forall st, store_wf st = true -> store_wf (after_calls st cs) = true.
Proof.
  induction cs as [|c cs IH]; intros st Hwf; [assumption|].
  cbn [after_calls fold_left]. apply IH. now apply after_call_wf.
Qed.

(** *** What a saved row becomes *)










(** A listing after a save and an update of the saved session: the six
    saved fields stand, status and notes are those of the update. *)
Example saved_then_updated :
  let st1 := snd (save_for_human_review "0123456789abcdef" "2025-01-01T10:00:00"
                    "Is there flooding in Chennai?" "Chennai" 5 45 None) in
  let st2 := snd (update_review_status "IS-01234567" "rejected" "a rumor" st1) in
  list_all st2 =
    [ [ ("session_id", "IS-01234567"); ("query", "Is there flooding in Chennai?");
        ("location", "Chennai"); ("urgency_score", "5");
        ("credibility_score", "45"); ("timestamp", "2025-01-01T10:00:00");
        ("status", "rejected"); ("reviewer_notes", "a rumor") ] ].
Proof. vm_compute. reflexivity. Qed.

End HumanReviewFacts.

(** ** The post-processing of the runners *)

Module RunnerFacts.
Import Py HumanReview Runner.

Lemma truthy_nonempty (s : string) : s <> "" -> truthy s = true.
Proof. destruct s; [congruence | reflexivity]. Qed.

(** A query that passes the guardrail, with a non-empty report, reaches
    the post-processing. *)
Lemma process_query_async_processed
    (enable : bool) (u n q report : string) (agents : list string) (st : store) :
  Guardrails.is_valid (Guardrails.validate_query q) = true ->
  report <> "" ->
  process_query_async enable u n q report agents st =
  post_process enable u n q report agents st.
Proof.
  intros Hv Hr. unfold process_query_async.
  rewrite Hv, (truthy_nonempty report Hr). reflexivity.
Qed.

Lemma save_status_saved (u n q l : string) (us cs : Z) (st : store) :
  save_status (fst (save_for_human_review u n q l us cs st)) = "saved".
Proof. reflexivity. Qed.

(** The post-processing when the score is below the threshold and human
    review is enabled: one call of the save operation. *)
Lemma post_process_low (u n q report : string) (agents : list string)
    (st : store) (s : Z) :
  _extract_credibility_score report = Some s ->
  (s < Config.CREDIBILITY_THRESHOLD)%Z ->
  let saved :=
    save_for_human_review u n q (_extract_location q) (urgency_estimate q) s st in
  snd (post_process true u n q report agents st) = snd saved /\
  credibility_score (fst (post_process true u n q report agents st)) = Some s /\
  human_review (fst (post_process true u n q report agents st)) =
    Some (mkInfo (save_session_id (fst saved)) (estimated_review_time (fst saved))).
Proof.
  intros He Hs. unfold post_process. rewrite He.
  apply Z.ltb_lt in Hs. rewrite Hs. cbn [andb].
  repeat split.
Qed.

(** The post-processing when nothing is queued. *)
Lemma post_process_none (enable : bool) (u n q report : string)
    (agents : list string) (st : store) :
  enable = false
  \/ _extract_credibility_score report = None
  \/ (exists s, _extract_credibility_score report = Some s
                /\ (Config.CREDIBILITY_THRESHOLD <= s)%Z) ->
  snd (post_process enable u n q report agents st) = st /\
  human_review (fst (post_process enable u n q report agents st)) = None.
Proof.
  unfold post_process.
  intros [->|[->|[s [-> Hs]]]].
  - destruct (_extract_credibility_score report); split; reflexivity.
  - split; reflexivity.
  - apply Z.ltb_ge in Hs. rewrite Hs, andb_false_r. split; reflexivity.
Qed.

(** C2, as amended. With human review enabled, a processed query (one that
    passes the guardrail and has a non-empty report) whose report yields a
    score below the threshold 60 makes the post-processing call the save
    operation once: the queue gains exactly one row, that of a new entry
    with status "pending", and when the urgency estimate is 5 the review
    time returned is "within 1 hour".  When human review is disabled, or the
    score is 60 or more, or no score can be extracted, the queue is left as
    it is. *)
Theorem C2_low_score_is_queued_once_when_enabled
    (enable : bool) (u n q report : string) (agents : list string) (st : store) :
  Guardrails.is_valid (Guardrails.validate_query q) = true ->
  report <> "" ->
  let r := fst (process_query_async enable u n q report agents st) in
  let st' := snd (process_query_async enable u n q report agents st) in
  (forall s : Z,
     enable = true ->
     _extract_credibility_score report = Some s ->
     (s < Config.CREDIBILITY_THRESHOLD)%Z ->
     let e := new_entry u n q (_extract_location q) (urgency_estimate q) s in
     st' = snd (save_for_human_review u n q (_extract_location q)
                  (urgency_estimate q) s st) /\
     stored_rows st' = (stored_rows st ++ [to_csv_row e])%list /\
     status e = "pending" /\
     credibility_score r = Some s /\
     (urgency_estimate q = 5%Z ->
      human_review r = Some (mkInfo (session_id e) "within 1 hour"))) /\
  (enable = false
   \/ _extract_credibility_score report = None
   \/ (exists s, _extract_credibility_score report = Some s
                 /\ (Config.CREDIBILITY_THRESHOLD <= s)%Z) ->
   st' = st /\ human_review r = None).
Proof.
  intros Hv Hr. cbv zeta.
  rewrite (process_query_async_processed enable u n q report agents st Hv Hr).
  split.
  - intros s -> He Hs.
    destruct (post_process_low u n q report agents st s He Hs) as [H1 [H2 H3]].
    split; [exact H1|].
    split; [rewrite H1; apply HumanReviewFacts.stored_rows_save|].
    split; [reflexivity|].
    split; [exact H2|].
    intros Hu. rewrite H3. cbn [fst save_for_human_review save_session_id
                               estimated_review_time].
    now rewrite Hu.
  - apply post_process_none.
Qed.

Lemma C2_witness :
  let q := "Is there flooding in Chennai right now?" in
  let report := "| Credibility Score | 45/100 |" in
  let res := process_query_async true "0123456789abcdef" "2025-01-01T10:00:00"
               q report ["synthesizer_agent"] None in
  Guardrails.is_valid (Guardrails.validate_query q) = true /\
  report <> "" /\
  _extract_credibility_score report = Some 45%Z /\
  urgency_estimate q = 5%Z /\
  stored_rows (snd res) =
    [ [ "IS-01234567"; q; "Chennai right"; "5"; "45"; "2025-01-01T10:00:00";
        "pending"; "" ] ] /\
  human_review (fst res) = Some (mkInfo "IS-01234567" "within 1 hour").
Proof.
  cbv zeta.
  pose proof (C2_low_score_is_queued_once_when_enabled true
    "0123456789abcdef" "2025-01-01T10:00:00"
    "Is there flooding in Chennai right now?" "| Credibility Score | 45/100 |"
    ["synthesizer_agent"] None
    ltac:(vm_compute; reflexivity) ltac:(discriminate)) as H.
  cbv zeta in H. destruct H as [H _].
  specialize (H 45%Z eq_refl ltac:(vm_compute; reflexivity)
                ltac:(vm_compute; reflexivity)).
  destruct H as [_ [H2 [_ [_ H5]]]].
  split; [vm_compute; reflexivity|].
  split; [discriminate|].
  split; [vm_compute; reflexivity|].
  split; [vm_compute; reflexivity|].
  split; [rewrite H2; vm_compute; reflexivity|].
  rewrite (H5 ltac:(vm_compute; reflexivity)). vm_compute. reflexivity.
Defined.

(** C2, as it is stated, fails on a runner built with human review
    disabled: the query passes the guardrail and its report yields the
    score 45, below 60, yet nothing is saved and no entry is created. *)
Lemma C2_counterexample_review_disabled :
  let q := "Is there flooding in Chennai right now?" in
  let report := "| Credibility Score | 45/100 |" in
  let res := process_query_async false "0123456789abcdef" "2025-01-01T10:00:00"
               q report ["synthesizer_agent"] None in
  Guardrails.is_valid (Guardrails.validate_query q) = true /\
  _extract_credibility_score report = Some 45%Z /\
  (45 < Config.CREDIBILITY_THRESHOLD)%Z /\
  snd res = None /\
  stored_rows (snd res) = [] /\
  human_review (fst res) = None /\
  snd res <> snd (save_for_human_review "0123456789abcdef" "2025-01-01T10:00:00"
                    q (_extract_location q) (urgency_estimate q) 45 None).
Proof.
  vm_compute. repeat split; try reflexivity. discriminate.
Qed.

(** The urgency estimate of each runner, by the keywords it looks for. *)
Lemma multi_agent_urgency_estimate (q : string) :
  urgency_estimate q =
  if any_in ["emergency"; "help"; "urgent"] (lower q) then 8%Z else 5%Z.
Proof. reflexivity. Qed.

Lemma single_agent_urgency_estimate (q : string) :
  (Agent.urgency_estimate q = 8%Z <->
   any_in ["emergency"; "help"; "urgent"; "trapped"; "sos"] (lower q) = true) /\
  (Agent.urgency_estimate q = 5%Z <->
   any_in ["emergency"; "help"; "urgent"; "trapped"; "sos"] (lower q) = false).
Proof.
  unfold Agent.urgency_estimate, Agent.urgent_keywords, any_in.
  cbn [existsb].
  destruct (contains "emergency" (lower q)), (contains "urgent" (lower q)),
           (contains "help" (lower q)), (contains "trapped" (lower q)),
           (contains "sos" (lower q));
    cbn [orb]; split; split; intros H; try reflexivity; discriminate H.
Qed.

(** C3. The claim holds of the single-agent runner and fails on the
    multi-agent runner, whose keyword list lacks "trapped" and "sos": on
    the query "People trapped by flood in Chennai", which passes the
    guardrail, with a report of score 45, the multi-agent runner saves the
    entry with urgency 5 and the review time "within 1 hour", where the
    single-agent runner saves it with urgency 8. *)
Theorem C3_multi_agent_runner_misses_trapped :
  let q := "People trapped by flood in Chennai" in
  let report := "| Credibility Score | 45/100 |" in
  let multi := process_query_async true "0123456789abcdef" "2025-01-01T10:00:00"
                 q report ["synthesizer_agent"] None in
  let single := Agent.process_query_async true "0123456789abcdef"
                  "2025-01-01T10:00:00" q report None in
  Guardrails.is_valid (Guardrails.validate_query q) = true /\
  contains "trapped" (lower q) = true /\
  urgency_estimate q = 5%Z /\
  Agent.urgency_estimate q = 8%Z /\
  stored_rows (snd multi) =
    [ [ "IS-01234567"; q; "Chennai"; "5"; "45"; "2025-01-01T10:00:00";
        "pending"; "" ] ] /\
  human_review (fst multi) = Some (mkInfo "IS-01234567" "within 1 hour") /\
  stored_rows (snd single) =
    [ [ "IS-01234567"; q; "chennai"; "8"; "45"; "2025-01-01T10:00:00";
        "pending"; "" ] ].
Proof.
  vm_compute. repeat split; reflexivity.
Qed.

End RunnerFacts.

(** ** More on the credibility scorer *)

Module CredibilityMore.
Import Py PyFacts Credibility CredibilityFacts ListTests.

Lemma lower_char_idem (c : ascii) : lower_char (lower_char c) = lower_char c.
Proof.
  destruct c as [[] [] [] [] [] [] [] []]; vm_compute; reflexivity.
Qed.

Lemma lower_idem (s : string) : lower (lower s) = lower s.
Proof.
  induction s as [|c s IH]; cbn [lower]; [reflexivity|].
  now rewrite lower_char_idem, IH.
Qed.

Lemma truthy_lower (s : string) : truthy (lower s) = truthy s.
Proof. destruct s; reflexivity. Qed.

(** The scan loop, from any state: the sources hit are appended in the
    order of the vocabulary, and each is counted once, as official or as
    news. *)
Lemma scan_loop (a b : string) (l : list string) :
  forall (found : list string) (o n : nat),
  fold_left (scan_step a b) l (found, o, n) =
  let hits := filter (source_hit a b) l in
  ((found ++ hits)%list,
   o + List.length (filter (fun x => mem x official_names) hits),
   n + List.length (filter (fun x => negb (mem x official_names)) hits)).
Proof.
  induction l as [|x l IH]; intros found o n; cbn [fold_left filter].
  - cbv zeta. cbn [filter List.length]. now rewrite app_nil_r, !Nat.add_0_r.
  - unfold scan_step at 2. destruct (source_hit a b x).
    + destruct (mem x official_names) eqn:E; rewrite IH; cbv zeta;
        cbn [filter]; rewrite E; cbn [negb List.length];
        rewrite <- app_assoc; cbn [app];
        (apply f_equal2; [apply f_equal2; [reflexivity | lia] | lia]).
    + apply IH.
Qed.

Lemma scan_sources_eq (a b : string) :
  scan_sources a b =
  let hits := filter (source_hit a b) Config.OFFICIAL_SOURCES in
  (hits,
   List.length (filter (fun x => mem x official_names) hits),
   List.length (filter (fun x => negb (mem x official_names)) hits)).
Proof. unfold scan_sources. rewrite scan_loop. reflexivity. Qed.

Lemma filter_split_length {A} (f : A -> bool) (l : list A) :
  List.length (filter f l) + List.length (filter (fun x => negb (f x)) l)
  = List.length l.
Proof.
  induction l as [|x l IH]; [reflexivity|].
  cbn [filter]. destruct (f x); cbn [negb List.length]; lia.
Qed.

Lemma calculate_credibility_scan (s srcs loc dt : string) :
  let r := calculate_credibility s srcs loc dt in
  sources_found r = fst (fst (scan_sources (lower s) (lower srcs))) /\
  official_sources_count r = snd (fst (scan_sources (lower s) (lower srcs))) /\
  news_sources_count r = snd (scan_sources (lower s) (lower srcs)).
Proof.
  unfold calculate_credibility.
  destruct (scan_sources (lower s) (lower srcs)) as [[found o] n].
  repeat split.
Qed.

Lemma sources_found_eq (s srcs loc dt : string) :
  sources_found (calculate_credibility s srcs loc dt) =
  filter (source_hit (lower s) (lower srcs)) Config.OFFICIAL_SOURCES.
Proof.
  rewrite (proj1 (calculate_credibility_scan s srcs loc dt)), scan_sources_eq.
  cbv beta iota zeta delta [fst snd]. reflexivity.
Qed.

Lemma counts_eq (s srcs loc dt : string) :
  let r := calculate_credibility s srcs loc dt in
  official_sources_count r =
    List.length (filter (fun x => mem x official_names) (sources_found r)) /\
  news_sources_count r =
    List.length (filter (fun x => negb (mem x official_names)) (sources_found r)).
Proof.
  destruct (calculate_credibility_scan s srcs loc dt) as [H1 [H2 H3]].
  cbv zeta. rewrite H1, H2, H3, scan_sources_eq.
  cbv beta iota zeta delta [fst snd]. split; reflexivity.
Qed.

Lemma mem_In (x : string) (l : list string) : mem x l = true <-> In x l.
Proof.
  unfold mem. rewrite existsb_exists. split.
  - intros [y [Hin E]]. apply String.eqb_eq in E. now subst.
  - intros H. exists x. split; [assumption | apply String.eqb_refl].
Qed.

Lemma nodupb_NoDup (l : list string) : nodupb l = true -> NoDup l.
Proof.
  induction l as [|x l IH]; intros H; [constructor|].
  cbn [nodupb] in H. apply andb_true_iff in H as [H1 H2].
  constructor; [|now apply IH].
  intros Hin. apply mem_In in Hin. now rewrite Hin in H1.
Qed.

Lemma official_sources_NoDup : NoDup Config.OFFICIAL_SOURCES.
Proof. apply nodupb_NoDup. vm_compute. reflexivity. Qed.

(** X1. The sources found are the entries of the vocabulary that occur in
    the lower-cased summary or source list, in vocabulary order and each
    once; every one of them is counted either as official or as news, so
    the two counts add up to the number of sources found, and at most six
    are official. *)
Theorem X1_sources_found_and_counts (s srcs loc dt : string) :
  let r := calculate_credibility s srcs loc dt in
  sources_found r =
    filter (source_hit (lower s) (lower srcs)) Config.OFFICIAL_SOURCES /\
  NoDup (sources_found r) /\
  official_sources_count r + news_sources_count r = List.length (sources_found r) /\
  official_sources_count r <= 6 /\
  (forall x, In x (sources_found r) ->
     In x Config.OFFICIAL_SOURCES /\
     (contains x (lower s) = true \/ contains x (lower srcs) = true)).
Proof.
  cbv zeta.
  destruct (counts_eq s srcs loc dt) as [Ho Hn]. cbv zeta in Ho, Hn.
  pose proof (sources_found_eq s srcs loc dt) as Hf.
  split; [exact Hf|].
  split; [rewrite Hf; apply NoDup_filter, official_sources_NoDup|].
  split; [rewrite Ho, Hn; apply filter_split_length|].
  split.
  - rewrite Ho.
    assert (Hnd : NoDup (filter (fun x => mem x official_names)
                          (sources_found (calculate_credibility s srcs loc dt)))).
    { apply NoDup_filter. rewrite Hf. apply NoDup_filter, official_sources_NoDup. }
    apply (NoDup_incl_length Hnd (l' := official_names)).
    intros x Hx. apply filter_In in Hx as [_ Hx]. now apply mem_In.
  - intros x Hx. rewrite Hf in Hx. apply filter_In in Hx as [H1 H2].
    split; [assumption|]. unfold source_hit in H2.
    now apply orb_true_iff in H2.
Qed.

Lemma lower_truthy_eq (a b : string) : lower a = lower b -> truthy a = truthy b.
Proof. destruct a, b; cbn [lower]; intros H; try reflexivity; discriminate H. Qed.

(** X2. Letter case plays no part in the scoring: two inputs whose summary,
    source list, location and disaster type differ only in letter case get
    the same score, the same sources and the same counts. *)
Theorem X2_scoring_ignores_letter_case
    (s srcs loc dt s' srcs' loc' dt' : string) :
  lower s' = lower s -> lower srcs' = lower srcs ->
  lower loc' = lower loc -> lower dt' = lower dt ->
  let r := calculate_credibility s srcs loc dt in
  let r' := calculate_credibility s' srcs' loc' dt' in
  score r' = score r /\
  sources_found r' = sources_found r /\
  official_sources_count r' = official_sources_count r /\
  news_sources_count r' = news_sources_count r.
Proof.
  intros Hs Hsrc Hloc Hdt. cbv zeta.
  destruct (calculate_credibility_scan s srcs loc dt) as [H1 [H2 H3]].
  destruct (calculate_credibility_scan s' srcs' loc' dt') as [H1' [H2' H3']].
  cbv zeta in H1, H2, H3, H1', H2', H3'.
  rewrite H1, H2, H3, H1', H2', H3', !score_eq.
  unfold location_confirmed, disaster_confirmed.
  rewrite Hs, Hsrc, Hloc, Hdt,
    (lower_truthy_eq loc' loc Hloc), (lower_truthy_eq dt' dt Hdt).
  repeat split.
Qed.

Lemma X2_witness :
  let r := calculate_credibility "ndrf confirms flooding in chennai" "reuters"
             "chennai" "flood" in
  let r' := calculate_credibility "NDRF confirms FLOODING in Chennai" "Reuters"
              "CHENNAI" "Flood" in
  score r' = score r /\
  sources_found r' = sources_found r /\
  official_sources_count r' = official_sources_count r /\
  news_sources_count r' = news_sources_count r.
Proof.
  apply (X2_scoring_ignores_letter_case
           "ndrf confirms flooding in chennai" "reuters" "chennai" "flood"
           "NDRF confirms FLOODING in Chennai" "Reuters" "CHENNAI" "Flood");
    vm_compute; reflexivity.
Defined.

(** The reasons, rule by rule. *)
Lemma snd_rule (c : bool) (pts : Z) (reason : string) (acc : Z * list string) :
  snd (rule c pts reason acc) = (snd acc ++ (if c then [reason] else []))%list.
Proof. destruct c; cbn [rule snd]; [reflexivity | now rewrite app_nil_r]. Qed.

Lemma join_head (sep : string) (c : ascii) (x : string) (l : list string) :
  exists t, join sep (String c x :: l) = String c t.
Proof. destruct l; cbn [join]; eexists; reflexivity. Qed.

Lemma join_not_fallback (l : list string) :
  l <> [] ->
  Forall (fun r => exists c x, r = String c x /\ c <> "N"%char) l ->
  join "; " l <> "No confirming sources found in search results" /\ join "; " l <> "".
Proof.
  intros Hne Hall. destruct l as [|r l]; [congruence|].
  inversion Hall as [|? ? [c [x [-> Hc]]] _]; subst.
  destruct (join_head "; " c x l) as [t ->].
  split; [|discriminate].
  intros E. injection E as E _. contradiction.
Qed.

Lemma reason_list_ok (c : bool) (r : string) :
  (exists a x, r = String a x /\ a <> "N"%char) ->
  Forall (fun r => exists c x, r = String c x /\ c <> "N"%char)
         (if c then [r] else []).
Proof. intros H. destruct c; constructor; [assumption | constructor]. Qed.

(** The reasoning text, by which rules fired. *)
Lemma reasoning_cases (s srcs loc dt : string) :
  let r := calculate_credibility s srcs loc dt in
  let fired :=
    (0 <? official_sources_count r)%nat || (0 <? news_sources_count r)%nat
    || any_in recency_keywords (lower s)
    || location_confirmed (lower s) loc
    || (3 <=? List.length (sources_found r))%nat
    || disaster_confirmed (lower s) dt
    || any_in doubt_keywords (lower s) in
  (fired = false -> reasoning r = "No confirming sources found in search results") /\
  (fired = true -> reasoning r <> "No confirming sources found in search results") /\
  reasoning r <> "".
Proof.
  unfold calculate_credibility.
  destruct (scan_sources (lower s) (lower srcs)) as [[found o] n].
  cbn [reasoning official_sources_count news_sources_count sources_found].
  rewrite !snd_rule. cbn [snd app].
  set (c1 := (0 <? o)%nat). set (c2 := (0 <? n)%nat).
  set (c3 := any_in recency_keywords (lower s)).
  set (c4 := location_confirmed (lower s) loc).
  set (c5 := (3 <=? List.length found)%nat).
  set (c6 := disaster_confirmed (lower s) dt).
  set (c7 := any_in doubt_keywords (lower s)).
  match goal with
  | |- context [join "; " (match ?l with [] => _ | _ :: _ => _ end)] =>
      set (reasons := l)
  end.
  assert (Hall : Forall (fun r => exists c x, r = String c x /\ c <> "N"%char) reasons).
  { unfold reasons.
    repeat (apply Forall_app; split);
      apply reason_list_ok; cbn [append]; eexists _, _; (split; [reflexivity|]);
      intros E; discriminate E. }
  destruct (c1 || c2 || c3 || c4 || c5 || c6 || c7) eqn:Hf.
  - assert (Hne : reasons <> []).
    { unfold reasons.
      destruct c1, c2, c3, c4, c5, c6, c7; try discriminate Hf;
        cbn [app]; discriminate. }
    destruct (join_not_fallback reasons Hne Hall) as [N1 N2].
    cbv zeta. destruct reasons as [|r0 rs]; [congruence|].
    split; [discriminate|]. split; [intros _; exact N1 | exact N2].
  - assert (E : reasons = []).
    { unfold reasons.
      destruct c1, c2, c3, c4, c5, c6, c7; try discriminate Hf; reflexivity. }
    cbv zeta. rewrite E. cbn [join].
    split; [reflexivity|]. split; [discriminate | discriminate].
Qed.

(** X3. The reasoning is never empty, and it is the sentence "No confirming
    sources found in search results" exactly when no rule fired: no source
    found, no recency keyword, no confirmed location or disaster type and no
    doubt keyword; the score is then 0. *)
Theorem X3_fallback_reasoning_iff_nothing_fired (s srcs loc dt : string) :
  let r := calculate_credibility s srcs loc dt in
  reasoning r <> "" /\
  (reasoning r = "No confirming sources found in search results" <->
   sources_found r = []
   /\ any_in recency_keywords (lower s) = false
   /\ location_confirmed (lower s) loc = false
   /\ disaster_confirmed (lower s) dt = false
   /\ any_in doubt_keywords (lower s) = false) /\
  (reasoning r = "No confirming sources found in search results" ->
   score r = 0%Z).
Proof.
  cbv zeta.
  pose proof (reasoning_cases s srcs loc dt) as H. cbv zeta in H.
  destruct H as [Hf [Ht Hne]].
  destruct (counts_eq s srcs loc dt) as [Ho Hn]. cbv zeta in Ho, Hn.
  pose proof (filter_split_length (fun x => mem x official_names)
                (sources_found (calculate_credibility s srcs loc dt))) as Hsum.
  rewrite <- Ho, <- Hn in Hsum.
  set (r := calculate_credibility s srcs loc dt) in *.
  assert (Hiff :
    reasoning r = "No confirming sources found in search results" <->
    sources_found r = []
    /\ any_in recency_keywords (lower s) = false
    /\ location_confirmed (lower s) loc = false
    /\ disaster_confirmed (lower s) dt = false
    /\ any_in doubt_keywords (lower s) = false).
  { split.
    - intros E.
      destruct ((0 <? official_sources_count r)%nat || (0 <? news_sources_count r)%nat
                || any_in recency_keywords (lower s)
                || location_confirmed (lower s) loc
                || (3 <=? List.length (sources_found r))%nat
                || disaster_confirmed (lower s) dt
                || any_in doubt_keywords (lower s)) eqn:F.
      + exfalso. now apply Ht.
      + apply orb_false_iff in F as [F F7]. apply orb_false_iff in F as [F F6].
        apply orb_false_iff in F as [F F5]. apply orb_false_iff in F as [F F4].
        apply orb_false_iff in F as [F F3]. apply orb_false_iff in F as [F1 F2].
        apply Nat.ltb_ge in F1. apply Nat.ltb_ge in F2.
        assert (L : List.length (sources_found r) = 0) by lia.
        destruct (sources_found r); [|discriminate L]. now repeat split.
    - intros [E1 [E2 [E3 [E4 E5]]]]. apply Hf.
      rewrite E1 in *. cbn [List.length] in *.
      assert (official_sources_count r = 0 /\ news_sources_count r = 0) as [-> ->] by lia.
      rewrite E2, E3, E4, E5. reflexivity. }
  split; [exact Hne|]. split; [exact Hiff|].
  intros E. apply Hiff in E as [E1 [E2 [E3 [E4 E5]]]].
  unfold r. rewrite score_eq.
  destruct (calculate_credibility_scan s srcs loc dt) as [K1 [K2 K3]].
  cbv zeta in K1, K2, K3. fold r in K1, K2, K3.
  destruct (scan_sources (lower s) (lower srcs)) as [[found o] n].
  cbn [fst snd] in K1, K2, K3.
  rewrite E2, E3, E4, E5. rewrite E1 in *. cbn [List.length] in Hsum.
  assert (o = 0 /\ n = 0) as [-> ->] by lia.
  rewrite <- K1. reflexivity.
Qed.

(** X4. A location that is empty or reads "unknown" in any letter case earns
    nothing and leaves no trace: the whole result is the one computed
    without a location, even when the search text contains the word
    "unknown". *)
Theorem X4_unknown_location_is_no_location (s srcs loc dt : string) :
  lower loc = "unknown" ->
  calculate_credibility s srcs loc dt = calculate_credibility s srcs "" dt.
Proof.
  intros H. unfold calculate_credibility.
  destruct (scan_sources (lower s) (lower srcs)) as [[found o] n].
  assert (E1 : location_confirmed (lower s) loc = false).
  { unfold location_confirmed. rewrite H. cbn [String.eqb Ascii.eqb Bool.eqb negb].
    now rewrite andb_false_r. }
  assert (E2 : location_confirmed (lower s) "" = false) by reflexivity.
  rewrite E1, E2. unfold rule at 4 11. cbv beta iota. reflexivity.
Qed.

Lemma X4_witness :
  calculate_credibility "Location unknown, floods reported today" "bbc" "UNKNOWN" "flood"
  = calculate_credibility "Location unknown, floods reported today" "bbc" "" "flood".
Proof.
  apply (X4_unknown_location_is_no_location
           "Location unknown, floods reported today" "bbc" "UNKNOWN" "flood").
  vm_compute. reflexivity.
Defined.

(** The points, with the two guards on the counts folded into the caps. *)
Lemma points_eq (o n : nat) (b1 b2 b3 b4 b5 : bool) :
  points o n b1 b2 b3 b4 b5 =
  (Z.min 40 (Z.of_nat o * 20) + Z.min 30 (Z.of_nat n * 10)
   + (if b1 then 10 else 0) + (if b2 then 10 else 0) + (if b3 then 10 else 0)
   + (if b4 then 5 else 0) + (if b5 then -30 else 0))%Z.
Proof.
  unfold points.
  destruct (0 <? o)%nat eqn:Eo, (0 <? n)%nat eqn:En;
    try apply Nat.ltb_ge in Eo; try apply Nat.ltb_ge in En; lia.
Qed.

(** X5. A report in which no recognised source is found scores at most 25,
    below the threshold 60 whatever else it says; and a report that contains
    a doubt keyword scores at most 75. *)
Theorem X5_score_caps (s srcs loc dt : string) :
  let r := calculate_credibility s srcs loc dt in
  (sources_found r = [] ->
   (score r <= 25)%Z /\ (score r < Config.CREDIBILITY_THRESHOLD)%Z) /\
  (any_in doubt_keywords (lower s) = true -> (score r <= 75)%Z).
Proof.
  cbv zeta.
  destruct (calculate_credibility_scan s srcs loc dt) as [K1 [K2 K3]].
  destruct (counts_eq s srcs loc dt) as [Ho Hn].
  cbv zeta in K1, K2, K3, Ho, Hn.
  pose proof (filter_split_length (fun x => mem x official_names)
                (sources_found (calculate_credibility s srcs loc dt))) as Hsum.
  rewrite <- Ho, <- Hn in Hsum. rewrite K2, K3 in Hsum.
  rewrite K1 in *. rewrite score_eq.
  destruct (scan_sources (lower s) (lower srcs)) as [[found o] n].
  cbn [fst snd] in *. rewrite points_eq.
  unfold Config.CREDIBILITY_THRESHOLD.
  split.
  - intros ->. cbn [List.length] in *.
    assert (o = 0 /\ n = 0) as [-> ->] by lia.
    destruct (any_in recency_keywords (lower s)),
             (location_confirmed (lower s) loc),
             (disaster_confirmed (lower s) dt),
             (any_in doubt_keywords (lower s)); cbn [Nat.leb]; lia.
  - intros ->.
    destruct (any_in recency_keywords (lower s)),
             (location_confirmed (lower s) loc),
             (3 <=? List.length found)%nat,
             (disaster_confirmed (lower s) dt); lia.
Qed.

Lemma X5_witness :
  let r := calculate_credibility "Fake rumor: flooding in Pune today" "" "Pune" "flood" in
  sources_found r = [] /\
  any_in doubt_keywords (lower "Fake rumor: flooding in Pune today") = true /\
  (score r <= 25)%Z /\ (score r <= 75)%Z.
Proof.
  cbv zeta.
  pose proof (X5_score_caps "Fake rumor: flooding in Pune today" "" "Pune" "flood") as H.
  cbv zeta in H. destruct H as [H1 H2].
  split; [vm_compute; reflexivity|].
  split; [vm_compute; reflexivity|].
  split.
  - apply H1. vm_compute; reflexivity.
  - apply H2. vm_compute; reflexivity.
Defined.



End CredibilityMore.

(** ** More on the query analyzer *)

Module AnalyzerMore.
Import Py PyFacts Analyzer AnalyzerFacts.

Lemma sentiment_eq (q : string) (loc : option string) :
  sentiment (analyze_query q loc) =
  let u := clamp_urgency (raw_urgency q) in
  if (8 <=? u)%Z then "panic"
  else if (6 <=? u)%Z then "urgent"
  else if (4 <=? u)%Z then "concerned"
  else if contains "?" q && (List.length (find_keywords (lower q)) =? 0)%nat
       then "curious"
  else "neutral".
Proof. reflexivity. Qed.

Lemma is_emergency_eq (q : string) (loc : option string) :
  is_emergency (analyze_query q loc) =
  (8 <=? clamp_urgency (raw_urgency q))%Z || any_in panic_indicators (lower q).
Proof. reflexivity. Qed.

Lemma disaster_type_eq (q : string) (loc : option string) :
  disaster_type (analyze_query q loc) = first_disaster disaster_mapping (lower q).
Proof. reflexivity. Qed.

Lemma keywords_found_eq (q : string) (loc : option string) :
  keywords_found (analyze_query q loc) = find_keywords (lower q).
Proof. reflexivity. Qed.

Lemma lower_char_bang (c : ascii) :
  Ascii.eqb (lower_char c) "!" = Ascii.eqb c "!".
Proof. destruct c as [[] [] [] [] [] [] [] []]; vm_compute; reflexivity. Qed.

Lemma lower_char_question (c : ascii) :
  Ascii.eqb "?" (lower_char c) = Ascii.eqb "?" c.
Proof. destruct c as [[] [] [] [] [] [] [] []]; vm_compute; reflexivity. Qed.

Lemma count_bang_lower (s : string) :
  count_char "!" (lower s) = count_char "!" s.
Proof.
  induction s as [|c s IH]; [reflexivity|].
  cbn [lower count_char]. now rewrite lower_char_bang, IH.
Qed.

Lemma contains_question_lower (s : string) :
  contains "?" (lower s) = contains "?" s.
Proof.
  induction s as [|c s IH]; [reflexivity|].
  cbn [lower contains startswith]. now rewrite lower_char_question, IH.
Qed.

(** X7. Letter case plays no part in the analysis but for the location: two
    queries that differ only in letter case get the same urgency score,
    sentiment, disaster type, emergency flag and keywords. *)
Theorem X7_analysis_ignores_letter_case (q q' : string) (loc loc' : option string) :
  lower q' = lower q ->
  let r := analyze_query q loc in
  let r' := analyze_query q' loc' in
  urgency_score r' = urgency_score r /\
  sentiment r' = sentiment r /\
  disaster_type r' = disaster_type r /\
  is_emergency r' = is_emergency r /\
  keywords_found r' = keywords_found r.
Proof.
  intros H. cbv zeta.
  assert (Hraw : raw_urgency q' = raw_urgency q).
  { rewrite !raw_urgency_eq, H.
    now rewrite <- (count_bang_lower q'), <- (count_bang_lower q), H. }
  assert (Hq : contains "?" q' = contains "?" q).
  { now rewrite <- (contains_question_lower q'), <- (contains_question_lower q), H. }
  rewrite !urgency_score_eq, !sentiment_eq, !disaster_type_eq,
    !is_emergency_eq, !keywords_found_eq.
  cbv zeta. rewrite Hraw, Hq, H. repeat split.
Qed.

Lemma X7_witness :
  let r := analyze_query "help! flooding in mumbai!!" None in
  let r' := analyze_query "HELP! Flooding in Mumbai!!" (Some "Mumbai") in
  urgency_score r' = urgency_score r /\
  sentiment r' = sentiment r /\
  disaster_type r' = disaster_type r /\
  is_emergency r' = is_emergency r /\
  keywords_found r' = keywords_found r.
Proof.
  exact (X7_analysis_ignores_letter_case
           "help! flooding in mumbai!!" "HELP! Flooding in Mumbai!!"
           None (Some "Mumbai") ltac:(vm_compute; reflexivity)).
Defined.

Lemma bang_is_urgent (q : string) :
  1 <= count_char "!" q -> any_in urgent_indicators (lower q) = true.
Proof.
  intros H. unfold any_in, urgent_indicators. cbn [existsb].
  assert (E : contains "!" (lower q) = true).
  { rewrite <- count_bang_lower in H.
    induction (lower q) as [|c s IH]; cbn [count_char] in H; [lia|].
    cbn [contains startswith]. rewrite Ascii.eqb_sym.
    destruct (Ascii.eqb c "!"); [reflexivity|].
    cbn [andb orb]. apply IH. cbn [Nat.add] in H. exact H. }
  rewrite E. now rewrite !orb_true_r.
Qed.

(** The query has no hit at all exactly when the urgency stays at its base. *)
Lemma raw_urgency_base (q : string) :
  (raw_urgency q < 4)%Z <->
  any_in panic_indicators (lower q) = false
  /\ any_in urgent_indicators (lower q) = false
  /\ find_keywords (lower q) = [].
Proof.
  rewrite raw_urgency_eq. split.
  - intros H.
    destruct (any_in panic_indicators (lower q)),
             (any_in urgent_indicators (lower q)),
             (2 <=? count_char "!" q)%nat,
             (find_keywords (lower q));
      cbn [List.length] in H; try lia; tauto.
  - intros [-> [Hu ->]]. rewrite Hu.
    destruct (2 <=? count_char "!" q)%nat eqn:E; [|cbn [List.length]; lia].
    apply Nat.leb_le in E.
    assert (any_in urgent_indicators (lower q) = true)
      by (apply bang_is_urgent; lia).
    congruence.
Qed.

(** X8. The sentiment is "curious" exactly when the query contains a
    question mark and no panic indicator, urgent indicator (the exclamation
    mark is one) or disaster keyword, and "neutral" exactly when it
    contains none of these and no question mark; the emergency flag is set
    exactly when the sentiment is "panic" or a panic indicator occurs. *)
Theorem X8_sentiment_and_emergency (q : string) (loc : option string) :
  let r := analyze_query q loc in
  let no_hit :=
    any_in panic_indicators (lower q) = false
    /\ any_in urgent_indicators (lower q) = false
    /\ keywords_found r = [] in
  (sentiment r = "curious" <-> no_hit /\ contains "?" q = true) /\
  (sentiment r = "neutral" <-> no_hit /\ contains "?" q = false) /\
  (is_emergency r = true <->
   sentiment r = "panic" \/ any_in panic_indicators (lower q) = true).
Proof.
  cbv zeta. rewrite sentiment_eq, is_emergency_eq, keywords_found_eq. cbv zeta.
  pose proof (raw_urgency_base q) as Hb.
  unfold clamp_urgency.
  destruct (8 <=? Z.min 10 (Z.max 1 (raw_urgency q)))%Z eqn:E8.
  { apply Z.leb_le in E8.
    split; [|split].
    - split; [discriminate|]. intros [H _]. apply Hb in H. lia.
    - split; [discriminate|]. intros [H _]. apply Hb in H. lia.
    - cbn [orb]. split; auto. }
  apply Z.leb_gt in E8. cbn [orb].
  destruct (6 <=? Z.min 10 (Z.max 1 (raw_urgency q)))%Z eqn:E6.
  { apply Z.leb_le in E6.
    split; [|split].
    - split; [discriminate|]. intros [H _]. apply Hb in H. lia.
    - split; [discriminate|]. intros [H _]. apply Hb in H. lia.
    - split; [auto | intros [H|H]; [discriminate H | exact H]]. }
  apply Z.leb_gt in E6.
  destruct (4 <=? Z.min 10 (Z.max 1 (raw_urgency q)))%Z eqn:E4.
  { apply Z.leb_le in E4.
    split; [|split].
    - split; [discriminate|]. intros [H _]. apply Hb in H. lia.
    - split; [discriminate|]. intros [H _]. apply Hb in H. lia.
    - split; [auto | intros [H|H]; [discriminate H | exact H]]. }
  apply Z.leb_gt in E4.
  assert (Hno : (raw_urgency q < 4)%Z) by lia.
  apply Hb in Hno. destruct Hno as [Hp [Hu Hk]].
  rewrite Hk. cbn [List.length Nat.eqb]. rewrite andb_true_r.
  destruct (contains "?" q).
  - split; [|split].
    + split; [intros _; now repeat split | reflexivity].
    + split; [discriminate | intros [_ H]; discriminate H].
    + split; [auto | intros [H|H]; [discriminate H | exact H]].
  - split; [|split].
    + split; [discriminate | intros [_ H]; discriminate H].
    + split; [intros _; now repeat split | reflexivity].
    + split; [auto | intros [H|H]; [discriminate H | exact H]].
Qed.

(** The first entry of a mapping with a keyword in the text. *)
Lemma first_disaster_spec (mapping : list (string * list string))
    (ql d : string) :
  first_disaster mapping ql = Some d <->
  exists before kws after,
    mapping = (before ++ (d, kws) :: after)%list /\
    any_in kws ql = true /\
    forall e, In e before -> any_in (snd e) ql = false.
Proof.
  induction mapping as [|[d0 k0] m IH]; cbn [first_disaster].
  - split; [discriminate|]. intros (b & k & a & E & _). destruct b; discriminate E.
  - destruct (any_in k0 ql) eqn:E0.
    + split.
      * intros H. injection H as <-. exists [], k0, m. now repeat split.
      * intros (b & k & a & E & Hk & Hb). destruct b as [|e b].
        -- injection E as <- <- _. reflexivity.
        -- injection E as <- _. specialize (Hb (d0, k0) (or_introl eq_refl)).
           cbn [snd] in Hb. congruence.
    + rewrite IH. split.
      * intros (b & k & a & E & Hk & Hb). exists ((d0, k0) :: b), k, a.
        split; [now rewrite E|]. split; [assumption|].
        intros e [<-|He]; [exact E0 | now apply Hb].
      * intros (b & k & a & E & Hk & Hb). destruct b as [|e b].
        -- injection E as <- <- _. congruence.
        -- injection E as _ E. exists b, k, a. split; [assumption|].
           split; [assumption|]. intros e' He'. apply Hb. now right.
Qed.

Lemma first_disaster_none (mapping : list (string * list string)) (ql : string) :
  first_disaster mapping ql = None <->
  forall e, In e mapping -> any_in (snd e) ql = false.
Proof.
  induction mapping as [|[d0 k0] m IH]; cbn [first_disaster].
  - split; [intros _ e [] | reflexivity].
  - destruct (any_in k0 ql) eqn:E0.
    + split; [discriminate|]. intros H.
      specialize (H (d0, k0) (or_introl eq_refl)). cbn [snd] in H. congruence.
    + rewrite IH. split.
      * intros H e [<-|He]; [exact E0 | now apply H].
      * intros H e He. apply H. now right.
Qed.

(** X9. The disaster type is that of the first entry, in the order flood,
    earthquake, tsunami, cyclone, fire, landslide, one of whose keywords
    occurs in the lower-cased query: every entry before it has no keyword in
    the query; and it is [None] exactly when no keyword of any entry occurs.
    So a query that mentions "flood" is typed "flood" whatever else it
    mentions. *)
Theorem X9_disaster_type_first_match (q : string) (loc : option string) :
  let r := analyze_query q loc in
  (forall d, disaster_type r = Some d <->
     exists before kws after,
       disaster_mapping = (before ++ (d, kws) :: after)%list /\
       any_in kws (lower q) = true /\
       forall e, In e before -> any_in (snd e) (lower q) = false) /\
  (disaster_type r = None <->
     forall e, In e disaster_mapping -> any_in (snd e) (lower q) = false) /\
  (contains "flood" (lower q) = true -> disaster_type r = Some "flood").
Proof.
  cbv zeta. rewrite disaster_type_eq.
  split; [intros d; apply first_disaster_spec|].
  split; [apply first_disaster_none|].
  intros H. unfold disaster_mapping. cbn [first_disaster].
  unfold any_in at 1. cbn [existsb]. now rewrite H.
Qed.

End AnalyzerMore.

(** ** The matcher reads what it is given *)

Module ReFacts.
Import Py PyFacts Re ReLoop.

Lemma run_star {A} (ic : bool) (r : regex) (prev : option ascii) (s : string)
    (cs : captures) (k : @cont A) :
  run ic (Star r) prev s cs k = loop (run ic r) k (String.length s) prev s cs.
Proof. reflexivity. Qed.

Lemma take_app (p s : string) : take (String.length p) (p ++ s) = p.
Proof. induction p as [|c p IH]; [destruct s; reflexivity|]. cbn. now rewrite IH. Qed.

Lemma consumed_app (p s : string) : consumed (p ++ s) s = p.
Proof.
  unfold consumed. rewrite length_append.
  replace (String.length p + String.length s - String.length s)
    with (String.length p) by lia.
  apply take_app.
Qed.

Lemma lookup_In (n : nat) (cs : captures) (g : string) :
  lookup n cs = Some g -> In (n, g) cs.
Proof.
  induction cs as [|[i v] cs IH]; cbn [lookup]; [discriminate|].
  destruct (i =? n)%nat eqn:E.
  - intros H. injection H as ->. apply Nat.eqb_eq in E. subst. now left.
  - intros H. right. now apply IH.
Qed.

Section Sound.
  Context {A : Type}.
  Variable T : string.
  Variable ic : bool.

Lemma loop_sound step (k : @cont A) (fuel : nat) :
  sound T step ->
  forall prev s cs x pre,
    T = pre ++ s -> caps_ok T cs -> loop step k fuel prev s cs = Some x ->
    exists p prev' s' cs',
      s = p ++ s' /\ caps_ok T cs' /\ k prev' s' cs' = Some x.
Proof.
  intros Hs. induction fuel as [|fuel IH]; intros prev s cs x pre HT Hc H.
  - cbn [loop] in H. exists "", prev, s, cs. now repeat split.
  - cbn [loop] in H. unfold orelse in H.
    match type of H with
    | match ?e with _ => _ end = _ => destruct e as [y|] eqn:E
    end.
    + injection H as ->.
      destruct (Hs _ _ _ _ _ _ HT Hc E) as (p1 & prev1 & s1 & cs1 & E1 & Hc1 & H1).
      destruct (String.length s1 <? String.length s)%nat; [|discriminate H1].
      assert (HT1 : T = (pre ++ p1) ++ s1) by (rewrite append_assoc, <- E1; exact HT).
      destruct (IH _ _ _ _ _ HT1 Hc1 H1) as (p2 & prev2 & s2 & cs2 & E2 & Hc2 & H2).
      exists (p1 ++ p2), prev2, s2, cs2.
      split; [now rewrite append_assoc, <- E2|]. now split.
    + exists "", prev, s, cs. now repeat split.
Qed.

Lemma run_sound (r : regex) : @sound A T (run ic r).
Proof.
  induction r as [|a|items| | | | |r1 IH1 r2 IH2|r1 IH1 r2 IH2|r1 IH1|n r1 IH1];
    intros prev s cs k x pre HT Hc H.
  - exists "", prev, s, cs. now repeat split.
  - cbn [run] in H. destruct s as [|c s']; [discriminate|].
    destruct (chr_match ic a c); [|discriminate].
    exists (String c ""), (Some c), s', cs. now repeat split.
  - cbn [run] in H. destruct s as [|c s']; [discriminate|].
    destruct (set_match ic items c); [|discriminate].
    exists (String c ""), (Some c), s', cs. now repeat split.
  - cbn [run] in H. destruct s as [|c s']; [discriminate|].
    destruct (Ascii.eqb c "010"); [discriminate|].
    exists (String c ""), (Some c), s', cs. now repeat split.
  - cbn [run] in H. destruct prev; [discriminate|].
    exists "", None, s, cs. now repeat split.
  - cbn [run] in H. exists "", prev, s, cs.
    split; [reflexivity|]. split; [assumption|].
    destruct s as [|c [|c' s']]; [assumption| |discriminate].
    destruct (Ascii.eqb c "010"); [assumption | discriminate].
  - cbn [run] in H.
    destruct (xorb (at_word prev) (at_word (head s))); [|discriminate].
    exists "", prev, s, cs. now repeat split.
  - cbn [run] in H.
    destruct (IH1 _ _ _ _ _ _ HT Hc H) as (p1 & prev1 & s1 & cs1 & E1 & Hc1 & H1).
    assert (HT1 : T = (pre ++ p1) ++ s1) by (rewrite append_assoc, <- E1; exact HT).
    destruct (IH2 _ _ _ _ _ _ HT1 Hc1 H1) as (p2 & prev2 & s2 & cs2 & E2 & Hc2 & H2).
    exists (p1 ++ p2), prev2, s2, cs2.
    split; [now rewrite append_assoc, <- E2|]. now split.
  - cbn [run] in H. unfold orelse in H.
    destruct (run ic r1 prev s cs k) as [y|] eqn:E.
    + injection H as ->. exact (IH1 _ _ _ _ _ _ HT Hc E).
    + exact (IH2 _ _ _ _ _ _ HT Hc H).
  - rewrite run_star in H.
    exact (loop_sound (run ic r1) k _ IH1 _ _ _ _ _ HT Hc H).
  - cbn [run] in H.
    destruct (IH1 _ _ _ _ _ _ HT Hc H) as (p1 & prev1 & s1 & cs1 & E1 & Hc1 & H1).
    exists p1, prev1, s1, ((n, consumed s s1) :: cs1).
    split; [assumption|]. split; [|assumption].
    intros m g [Hg|Hg]; [|now apply (Hc1 m)].
    injection Hg as _ <-. rewrite E1, consumed_app.
    exists pre, s1. now rewrite HT, E1.
Qed.
End Sound.

(** [re.search] returns an occurrence: the text splits into what is skipped,
    the match and the rest, and every group is text of the input. *)
Lemma search_from_sound (ic : bool) (r : regex) (T : string) :
  forall s pre pos prev m,
    T = pre ++ s ->
    search_from ic r pos prev s = Some m ->
    (exists skipped, T = skipped ++ m_text m ++ m_rest m) /\
    (forall n g, group n m = Some g -> occurs_in T g).
Proof.
  induction s as [|c s IH]; intros pre pos prev m HT H; cbn [search_from] in H.
  - destruct (run ic r prev "" [] _) as [y|] eqn:E; [|discriminate].
    injection H as ->.
    destruct (run_sound T ic r _ _ _ _ _ _ HT (fun _ _ (F : In _ []) => match F with end) E)
      as (p & prev' & s' & cs' & E1 & Hc & Hk).
    injection Hk as <-. cbn [m_text m_rest group m_groups].
    split.
    + exists pre. rewrite E1, consumed_app. now rewrite HT, E1.
    + intros n g Hg. apply (Hc n). now apply lookup_In.
  - destruct (run ic r prev (String c s) [] _) as [y|] eqn:E.
    + injection H as ->.
      destruct (run_sound T ic r _ _ _ _ _ _ HT (fun _ _ (F : In _ []) => match F with end) E)
        as (p & prev' & s' & cs' & E1 & Hc & Hk).
      injection Hk as <-. cbn [m_text m_rest group m_groups].
      split.
      * exists pre. rewrite E1, consumed_app. now rewrite HT, E1.
      * intros n g Hg. apply (Hc n). now apply lookup_In.
    + apply (IH (pre ++ String c "") (S pos) (Some c) m); [|exact H].
      rewrite append_assoc. exact HT.
Qed.

Lemma search_sound (ic : bool) (r : regex) (T : string) (m : match_) :
  search ic r T = Some m ->
  (exists skipped, T = skipped ++ m_text m ++ m_rest m) /\
  (forall n g, group n m = Some g -> occurs_in T g).
Proof. intros H. exact (search_from_sound ic r T T "" 0 None m eq_refl H). Qed.

Lemma occurs_contains (T g : string) : occurs_in T g -> contains g T = true.
Proof. intros (a & b & ->). apply contains_self. Qed.

End ReFacts.

(** ** The location of the analyzer *)

Module AnalyzerLocation.
Import Py PyFacts Re ReLoop ReFacts Analyzer.

Lemma location_eq (q : string) (loc : option string) :
  location (analyze_query q loc) =
  match loc with
  | Some l =>
      if truthy l && negb (String.eqb (lower l) "unknown") then l
      else first_location location_patterns q "Unknown"
  | None => first_location location_patterns q "Unknown"
  end.
Proof. reflexivity. Qed.

Lemma first_location_sound (patterns : list regex) (q default : string) :
  first_location patterns q default = default
  \/ occurs_in q (first_location patterns q default).
Proof.
  induction patterns as [|p ps IH]; cbn [first_location]; [now left|].
  destruct (search false p q) as [m|] eqn:E; [|exact IH].
  destruct (group 1 m) as [g|] eqn:G; [|now left].
  right. exact (proj2 (search_sound false p q m E) 1 g G).
Qed.

(** X10. The location is the inferred one, verbatim, when one is given that
    is neither empty nor "unknown" in any letter case; otherwise it is
    "Unknown" or a piece of text that occurs in the query. *)
Theorem X10_location_source (q : string) (loc : option string) :
  let r := analyze_query q loc in
  (forall l, loc = Some l -> l <> "" -> lower l <> "unknown" -> location r = l) /\
  ((forall l, loc = Some l -> l = "" \/ lower l = "unknown") ->
   location r = "Unknown" \/ contains (location r) q = true).
Proof.
  cbv zeta. rewrite location_eq. split.
  - intros l -> Hne Hun.
    destruct l as [|c l]; [congruence|]. cbn [truthy andb].
    apply String.eqb_neq in Hun. now rewrite Hun.
  - intros H.
    assert (F : first_location location_patterns q "Unknown" = "Unknown"
                \/ contains (first_location location_patterns q "Unknown") q = true).
    { destruct (first_location_sound location_patterns q "Unknown") as [E|E];
        [now left | right; now apply occurs_contains]. }
    destruct loc as [l|]; [|exact F].
    destruct (H l eq_refl) as [->|E]; [exact F|].
    rewrite E. cbn [String.eqb Ascii.eqb Bool.eqb negb]. rewrite andb_false_r.
    exact F.
Qed.

Lemma X10_witness :
  location (analyze_query "Heavy rain near New Delhi today" (Some "unknown"))
    = "New Delhi" /\
  location (analyze_query "Heavy rain near New Delhi today" (Some "Delhi NCR"))
    = "Delhi NCR" /\
  (location (analyze_query "Heavy rain near New Delhi today" (Some "unknown"))
     = "Unknown"
   \/ contains
        (location (analyze_query "Heavy rain near New Delhi today" (Some "unknown")))
        "Heavy rain near New Delhi today" = true).
Proof.
  pose proof (X10_location_source "Heavy rain near New Delhi today" (Some "unknown")) as H1.
  pose proof (X10_location_source "Heavy rain near New Delhi today" (Some "Delhi NCR")) as H2.
  cbv zeta in H1, H2.
  split; [vm_compute; reflexivity|].
  split.
  - apply (proj1 H2 "Delhi NCR" eq_refl); [discriminate | vm_compute; discriminate].
  - apply (proj2 H1). intros l E. injection E as <-. right. reflexivity.
Defined.

End AnalyzerLocation.

(** ** More on the guardrail *)

Module GuardrailsMore.
Import Py PyFacts Re ReLoop ReFacts Guardrails GuardrailsWords.





Lemma lstrip_by_every (p : ascii -> bool) (w s : string) :
  every p w = true -> lstrip_by p (w ++ s) = lstrip_by p s.
Proof.
  induction w as [|c w IH]; cbn [every append lstrip_by]; [reflexivity|].
  intros H. apply andb_true_iff in H as [H1 H2]. rewrite H1. now apply IH.
Qed.

Lemma rstrip_by_all (p : ascii -> bool) (w : string) :
  every p w = true -> rstrip_by p w = "".
Proof.
  induction w as [|c w IH]; cbn [every rstrip_by]; [reflexivity|].
  intros H. apply andb_true_iff in H as [H1 H2]. now rewrite (IH H2), H1.
Qed.

Lemma rstrip_by_every (p : ascii -> bool) (w s : string) :
  every p w = true -> rstrip_by p (s ++ w) = rstrip_by p s.
Proof.
  intros H. induction s as [|c s IH]; cbn [append rstrip_by].
  - now apply rstrip_by_all.
  - now rewrite IH.
Qed.

Lemma lstrip_by_append (p : ascii -> bool) (s w : string) :
  every p w = true ->
  rstrip_by p (lstrip_by p (s ++ w)) = rstrip_by p (lstrip_by p s).
Proof.
  intros H. induction s as [|c s IH]; cbn [append lstrip_by].
  - rewrite <- (append_nil_r w) at 1. rewrite lstrip_by_every by assumption.
    reflexivity.
  - destruct (p c); [exact IH|].
    change (String c (s ++ w)) with (String c s ++ w).
    now apply rstrip_by_every.
Qed.

Lemma strip_by_around (p : ascii -> bool) (pre s post : string) :
  every p pre = true -> every p post = true ->
  strip_by p (pre ++ s ++ post) = strip_by p s.
Proof.
  intros H1 H2. unfold strip_by.
  rewrite lstrip_by_every by assumption. now apply lstrip_by_append.
Qed.

Lemma isspace_lower_char (c : ascii) : isspace (lower_char c) = isspace c.
Proof. destruct c as [[] [] [] [] [] [] [] []]; vm_compute; reflexivity. Qed.

Lemma every_isspace_lower (w : string) :
  every isspace (lower w) = every isspace w.
Proof.
  induction w as [|c w IH]; cbn [lower every]; [reflexivity|].
  now rewrite isspace_lower_char, IH.
Qed.

(** What [validate_query] reads of a query: its lower-cased, trimmed text. *)
Lemma validate_query_reads (q q' : string) :
  strip (lower q') = strip (lower q) -> validate_query q' = validate_query q.
Proof. intros H. unfold validate_query. now rewrite H. Qed.

(** X11. The verdict of the guardrail does not depend on letter case nor on
    white space around the query: a query in other letter case, between any
    two runs of white space, gets the same result. *)
Theorem X11_verdict_ignores_case_and_padding (q q' pre post : string) :
  lower q' = lower q ->
  every isspace pre = true -> every isspace post = true ->
  validate_query (pre ++ q' ++ post) = validate_query q.
Proof.
  intros Hq H1 H2. apply validate_query_reads.
  rewrite !lower_append, Hq. unfold strip.
  apply strip_by_around; now rewrite every_isspace_lower.
Qed.

Lemma X11_witness :
  validate_query ("  " ++ "IS THERE FLOODING IN CHENNAI?" ++ nl)
  = validate_query "Is there flooding in Chennai?".
Proof.
  apply (X11_verdict_ignores_case_and_padding
           "Is there flooding in Chennai?" "IS THERE FLOODING IN CHENNAI?" "  " nl);
    vm_compute; reflexivity.
Defined.



(** *** Words that a pattern finds wherever they stand *)

Section Complete.
  Context {A : Type}.
  Variable ic : bool.

Lemma chr_match_refl (c : ascii) : chr_match ic c c = true.
Proof. unfold chr_match. destruct ic; apply Ascii.eqb_refl. Qed.

Lemma run_lit_accepts (w : string) :
  forall prev s cs (k : @cont A),
    accepting k -> startswith w s = true ->
    run ic (lit w) prev s cs k <> None.
Proof.
  induction w as [|c w IH]; intros prev s cs k Hk H.
  - cbn [lit run]. apply Hk.
  - cbn [startswith] in H. destruct s as [|c' s]; [discriminate|].
    apply andb_true_iff in H as [H1 H2]. apply Ascii.eqb_eq in H1. subst c'.
    destruct w as [|c2 w].
    + cbn [lit run]. rewrite chr_match_refl. apply Hk.
    + change (lit (String c (String c2 w)))
        with (Seq (Chr c) (lit (String c2 w))).
      cbn [run]. rewrite chr_match_refl. now apply IH.
Qed.

Lemma orelse_some (x y : option A) : x <> None \/ y <> None -> orelse x y <> None.
Proof. destruct x; cbn [orelse]; [discriminate | tauto]. Qed.

Lemma run_alt_accepts (rs : list regex) (r : regex) :
  In r rs ->
  forall prev s cs (k : @cont A),
    run ic r prev s cs k <> None -> run ic (alt rs) prev s cs k <> None.
Proof.
  induction rs as [|r0 rs IH]; intros Hin prev s cs k H; [destruct Hin|].
  destruct rs as [|r1 rs].
  - destruct Hin as [->|[]]. exact H.
  - change (alt (r0 :: r1 :: rs)) with (Alt r0 (alt (r1 :: rs))).
    cbn [run]. apply orelse_some.
    destruct Hin as [->|Hin]; [now left | right; now apply IH].
Qed.
End Complete.

(** A word among the alternatives of a group is found wherever it occurs. *)
Lemma group_of_words_matches (ic : bool) (n : nat) (rs : list regex) (w s : string) :
  In (lit w) rs -> contains w s = true -> matches ic (Group n (alt rs)) s = true.
Proof.
  intros Hin. unfold matches, search. generalize 0 (@None ascii).
  induction s as [|c s IH]; intros pos prev H; cbn [search_from].
  - cbn [contains] in H. rewrite orb_false_r in H.
    destruct (run ic (Group n (alt rs)) prev "" [] _) eqn:E; [reflexivity|].
    exfalso. revert E. cbn [run].
    apply run_alt_accepts with (r := lit w); [assumption|].
    apply run_lit_accepts; [|assumption]. intros ? ? ?; discriminate.
  - destruct (run ic (Group n (alt rs)) prev (String c s) [] _) eqn:E;
      [reflexivity|].
    cbn [contains] in H. apply orb_true_iff in H as [H|H].
    + exfalso. revert E. cbn [run].
      apply run_alt_accepts with (r := lit w); [assumption|].
      apply run_lit_accepts; [|assumption]. intros ? ? ?; discriminate.
    + now apply IH.
Qed.

(** Every word of [off_topic_words] is an alternative of a group among the
    off-topic patterns. *)
Lemma off_topic_word_pattern (w : string) :
  In w off_topic_words ->
  exists rs, In (Group 1 (alt rs)) OFF_TOPIC_PATTERNS /\ In (lit w) rs.
Proof.
  unfold off_topic_words. intros H.
  repeat (destruct H as [<-|H];
    [ first
        [ exists (map lit ["documentation"; "docs"; "api reference"; "library"]);
          split; [cbn; tauto | cbn; tauto]
        | exists [lit "code"; lit "programming"; lit "python"; lit "javascript";
                  seq [lit "java"; WordB]];
          split; [cbn; tauto | cbn; tauto]
        | exists (map lit ["recipe"; "cook"; "food"; "restaurant"]);
          split; [cbn; tauto | cbn; tauto]
        | exists (map lit ["movie"; "music"; "song"; "game"; "sport"]);
          split; [cbn; tauto | cbn; tauto]
        | exists (map lit ["stock"; "crypto"; "bitcoin"; "investment"]);
          split; [cbn; tauto | cbn; tauto]
        | exists (map lit ["joke"; "funny"; "meme"]);
          split; [cbn; tauto | cbn; tauto]
        | exists (map lit ["who are you"; "what are you"; "your name"]);
          split; [cbn; tauto | cbn; tauto]
        | exists (map lit ["weather forecast"; "temperature tomorrow"]);
          split; [cbn; tauto | cbn; tauto] ]
    | ]).
  destruct H.
Qed.

Lemma contains_length (w s : string) :
  contains w s = true -> String.length w <= String.length s.
Proof.
  assert (P : forall w s, startswith w s = true -> String.length w <= String.length s).
  { clear. induction w as [|a w IH]; intros s H; cbn [String.length]; [lia|].
    destruct s as [|b s]; [discriminate|]. cbn [startswith] in H.
    apply andb_true_iff in H as [_ H]. apply IH in H. cbn [String.length]. lia. }
  induction s as [|c s IH]; cbn [contains]; intros H.
  - rewrite orb_false_r in H. now apply P.
  - apply orb_true_iff in H as [H|H]; [now apply P|].
    apply IH in H. cbn [String.length]. lia.
Qed.

(** X13. A query whose trimmed, lower-cased text contains one of the words
    of the unanchored off-topic patterns ("code", "game", "sport", "stock",
    "food", ...) is never accepted, whatever disaster keywords it holds: it
    is rejected as "off_topic", or as too short when it has fewer than five
    characters.  The words are looked for as substrings, so that
    "transport" is rejected for its "sport". *)
Theorem X13_off_topic_words_always_rejected (q w : string) :
  In w off_topic_words ->
  contains w (strip (lower q)) = true ->
  is_valid (validate_query q) = false /\
  (5 <= String.length (strip (lower q)) ->
   validate_query q =
     {| is_valid := false; reason := off_topic_reason; category := "off_topic" |}).
Proof.
  intros Hw Hc.
  destruct (off_topic_word_pattern w Hw) as [rs [Hp Hl]].
  assert (Hm : any_match true OFF_TOPIC_PATTERNS (strip (lower q)) = true).
  { unfold any_match. apply existsb_exists.
    exists (Group 1 (alt rs)). split; [assumption|].
    now apply group_of_words_matches with (w := w). }
  unfold validate_query. rewrite Hm.
  destruct (String.length (strip (lower q)) <? 5)%nat eqn:L.
  - split; [reflexivity|]. apply Nat.ltb_lt in L. lia.
  - split; reflexivity.
Qed.

Lemma X13_witness :
  let q := "Is public transport safe after the flood in Mumbai?" in
  In "sport" off_topic_words /\
  contains "sport" (strip (lower q)) = true /\
  any_in DISASTER_KEYWORDS (strip (lower q)) = true /\
  validate_query q =
    {| is_valid := false; reason := off_topic_reason; category := "off_topic" |}.
Proof.
  cbv zeta.
  pose proof (X13_off_topic_words_always_rejected
                "Is public transport safe after the flood in Mumbai?" "sport"
                ltac:(vm_compute; tauto) ltac:(vm_compute; reflexivity)) as H.
  split; [vm_compute; tauto|].
  split; [vm_compute; reflexivity|].
  split; [vm_compute; reflexivity|].
  apply (proj2 H). vm_compute. lia.
Defined.

Lemma startswith_after (p x s : string) :
  startswith x s = true -> startswith (p ++ x) (p ++ s) = true.
Proof.
  intros H. induction p as [|c p IH]; cbn [append startswith]; [exact H|].
  now rewrite Ascii.eqb_refl, IH.
Qed.

Lemma append_cancel_l (p a b : string) : p ++ a = p ++ b -> a = b.
Proof.
  induction p as [|c p IH]; cbn [append]; [trivial|].
  intros H. injection H as H. now apply IH.
Qed.

Lemma append_cancel_r (t a : string) : forall b, a ++ t = b ++ t -> a = b.
Proof.
  induction a as [|c a IH]; intros [|d b] H; cbn [append] in H.
  - reflexivity.
  - apply (f_equal String.length) in H. cbn [String.length] in H.
    rewrite length_append in H. lia.
  - apply (f_equal String.length) in H. cbn [String.length] in H.
    rewrite length_append in H. lia.
  - injection H as -> H. now rewrite (IH b H).
Qed.

(** The reason can be read back from the message. *)
Lemma rejection_reason_inj (v v' : Validation) :
  Rejection.get_rejection_response v = Rejection.get_rejection_response v' ->
  reason v = reason v'.
Proof.
  unfold Rejection.get_rejection_response. intros H.
  do 5 apply append_cancel_l in H.
  exact (append_cancel_r _ _ _ H).
Qed.

(** X14. The rejection message shows the verdict.  The reason of the
    validation stands verbatim right under the heading of the out-of-scope
    notice, a blank line apart, and before the examples; the message gives
    the reason back, two validations having the same message exactly when
    they have the same reason; and for the results of [validate_query] the
    message settles the whole verdict: two queries answered with the same
    message have the same validity, reason and category. *)
Theorem X14_rejection_message_shows_the_verdict :
  (forall v,
     startswith
       ("**" ++ Rejection.shield ++ " InfoShield AI - Query Outside Scope**" ++ nl
        ++ nl
        ++ reason v ++ nl
        ++ nl
        ++ "**Example queries I can help with:**")
       (Rejection.get_rejection_response v) = true) /\
  (forall v v',
     Rejection.get_rejection_response v = Rejection.get_rejection_response v'
     <-> reason v = reason v') /\
  (forall q q',
     Rejection.get_rejection_response (validate_query q)
       = Rejection.get_rejection_response (validate_query q') ->
     validate_query q = validate_query q').
Proof.
  split; [|split].
  - intros v. unfold Rejection.get_rejection_response.
    do 8 apply startswith_after. apply startswith_self_append.
  - intros v v'. split; [apply rejection_reason_inj|].
    intros H. unfold Rejection.get_rejection_response. now rewrite H.
  - intros q q' H. apply rejection_reason_inj in H.
    destruct (GuardrailsFacts.validate_query_cases q)
      as [E|[E|[E|[E|[E|E]]]]];
      destruct (GuardrailsFacts.validate_query_cases q')
        as [E'|[E'|[E'|[E'|[E'|E']]]]];
      rewrite E, E' in *; cbn [reason] in H;
      first [reflexivity | (vm_compute in H; discriminate H)].
Qed.

Lemma X14_witness :
  validate_query "sos" <> validate_query "What is the capital of France?" /\
  Rejection.get_rejection_response (validate_query "sos")
    <> Rejection.get_rejection_response
         (validate_query "What is the capital of France?").
Proof.
  assert (N : validate_query "sos" <> validate_query "What is the capital of France?")
    by (vm_compute; discriminate).
  split; [exact N|].
  intros H. apply N.
  exact (proj2 (proj2 X14_rejection_message_shows_the_verdict) _ _ H).
Defined.

End GuardrailsMore.

(** ** More on the human-review queue *)

Module HumanReviewMore.
Import Py HumanReview HumanReviewFacts HumanReviewRows.

Lemma rewritten_set_review (sid ns rn : string) (row : list string) :
  List.length row = 8 -> rewritten sid ns rn row = set_review sid ns rn row.
Proof.
  intros H. destruct (eight_fields row H) as (a & b & c & d & e & f & g & h & ->).
  apply rewritten_eq.
Qed.

Lemma map_rewritten (sid ns rn : string) (l : list (list string)) :
  Forall (fun row => List.length row = 8) l ->
  map (rewritten sid ns rn) l = map (set_review sid ns rn) l.
Proof.
  induction 1 as [|row l H _ IH]; [reflexivity|].
  cbn [map]. now rewrite IH, rewritten_set_review.
Qed.

(** Whether some row starts with the session id. *)
Lemma has_session_wf (sid : string) (st : store) :
  store_wf st = true ->
  has_session sid st =
  existsb (fun row => match row with a :: _ => String.eqb a sid | [] => false end)
          (stored_rows st).
Proof.
  intros Hwf. unfold has_session.
  destruct st as [t|]; [|reflexivity].
  cbn [store_wf] in Hwf. cbn [_ensure_csv_exists stored_rows].
  rewrite (read_dicts_wf t Hwf).
  apply table_wf_inv in Hwf as [_ Hrows].
  induction Hrows as [|row l H _ IH]; [reflexivity|].
  cbn [map existsb]. rewrite IH. f_equal.
  destruct (eight_fields row H) as (a & b & c & d & e & f & g & h & ->).
  reflexivity.
Qed.

(** X15. The file keeps its shape: starting from a missing file, or from
    one in the shape this module creates, any sequence of save, list and
    update calls leaves a file with the eight headers of
    [HumanReviewEntry.csv_headers] and eight fields in every row. *)
Theorem X15_queue_file_keeps_its_shape (st : store) (cs : list call) :
  store_wf st = true ->
  forall t, after_calls st cs = Some t ->
    fieldnames t = csv_headers /\
    Forall (fun row => List.length row = List.length csv_headers) (rows t).
Proof.
  intros Hwf t E.
  pose proof (after_calls_wf cs st Hwf) as H. rewrite E in H. cbn [store_wf] in H.
  now apply table_wf_inv in H.
Qed.

Lemma X15_witness :
  exists t,
    after_calls None
      [ List_ "pending";
        Save "0123456789abcdef" "2025-01-01T10:00:00" "Flood in Pune?" "Pune" 5 45;
        Update "IS-01234567" "verified" "ok" ] = Some t /\
    fieldnames t = csv_headers /\
    Forall (fun row => List.length row = List.length csv_headers) (rows t).
Proof.
  eexists. split; [vm_compute; reflexivity|].
  apply (X15_queue_file_keeps_its_shape None
           [ List_ "pending";
             Save "0123456789abcdef" "2025-01-01T10:00:00" "Flood in Pune?" "Pune" 5 45;
             Update "IS-01234567" "verified" "ok" ] eq_refl).
  vm_compute. reflexivity.
Defined.

Lemma rows_after_call (st : store) (c : call) :
  store_wf st = true ->
  List.length (stored_rows (after_call st c)) =
  List.length (stored_rows st) + (if is_save c then 1 else 0).
Proof.
  intros Hwf. destruct c as [u n q l us cs|f|sid ns rn]; cbn [after_call is_save].
  - rewrite stored_rows_save, length_app. reflexivity.
  - rewrite stored_rows_list. lia.
  - rewrite (stored_rows_update sid ns rn st Hwf).
    destruct (has_session sid st); [rewrite length_map|]; lia.
Qed.

(** X16. The queue is append-only: a save adds exactly one row, a listing
    and an update add and remove none, so after any sequence of calls the
    queue holds as many rows more as there were saves. *)
Theorem X16_queue_is_append_only (st : store) (cs : list call) :
  store_wf st = true ->
  List.length (stored_rows (after_calls st cs)) =
  List.length (stored_rows st) + List.length (filter is_save cs).
Proof.
  revert st. induction cs as [|c cs IH]; intros st Hwf.
  - cbn. lia.
  - cbn [after_calls fold_left]. fold (after_calls (after_call st c) cs).
    rewrite IH by (now apply after_call_wf).
    rewrite (rows_after_call st c Hwf).
    cbn [filter]. destruct (is_save c); cbn [List.length]; lia.
Qed.

Lemma X16_witness :
  List.length
    (stored_rows
       (after_calls None
          [ Save "0123456789abcdef" "2025-01-01T10:00:00" "Flood in Pune?" "Pune" 5 45;
            Update "IS-01234567" "rejected" "";
            Save "fedcba9876543210" "2025-01-01T10:05:00" "Quake in Kobe?" "Kobe" 8 30;
            List_ "all" ])) = 0 + 2.
Proof.
  exact (X16_queue_is_append_only None
           [ Save "0123456789abcdef" "2025-01-01T10:00:00" "Flood in Pune?" "Pune" 5 45;
             Update "IS-01234567" "rejected" "";
             Save "fedcba9876543210" "2025-01-01T10:05:00" "Quake in Kobe?" "Kobe" 8 30;
             List_ "all" ] eq_refl).
Defined.



Lemma dict_of_eight (a b c d e f g h : string) :
  dict_of_row csv_headers [a; b; c; d; e; f; g; h] =
  [ ("session_id", a); ("query", b); ("location", c); ("urgency_score", d);
    ("credibility_score", e); ("timestamp", f); ("status", g);
    ("reviewer_notes", h) ].
Proof. reflexivity. Qed.

Lemma read_dicts_store (st : store) :
  store_wf st = true ->
  read_dicts (_ensure_csv_exists st) = map (dict_of_row csv_headers) (stored_rows st).
Proof.
  intros Hwf. destruct st as [t|]; [|reflexivity].
  cbn [store_wf] in Hwf. now apply read_dicts_wf.
Qed.

Lemma entries_eq (f : string) (st : store) :
  store_wf st = true ->
  entries (fst (get_pending_reviews f st)) =
  filter (fun row =>
            String.eqb f "all"
            || String.eqb (dict_get_default "status" row "pending") f)
         (map (dict_of_row csv_headers) (stored_rows st)).
Proof.
  intros Hwf. unfold get_pending_reviews. cbn [fst entries].
  now rewrite (read_dicts_store st Hwf).
Qed.

(** X18. A reviewed entry leaves the pending list: after an update of a
    session id to a status other than "pending", the listing of pending
    entries holds no entry with that session id. *)
Theorem X18_reviewed_entry_leaves_pending_list (sid ns rn : string) (st : store) :
  store_wf st = true ->
  ns <> "pending" ->
  let st' := snd (update_review_status sid ns rn st) in
  forall d, In d (entries (fst (get_pending_reviews "pending" st'))) ->
    dict_get "session_id" d <> Some sid.
Proof.
  intros Hwf Hns st' d Hd.
  assert (Hwf' : store_wf st' = true)
    by exact (after_call_wf st (Update sid ns rn) Hwf).
  rewrite (entries_eq "pending" st' Hwf') in Hd.
  apply filter_In in Hd as [Hd Hf].
  apply in_map_iff in Hd as [row [<- Hrow]].
  unfold st' in Hrow. rewrite (stored_rows_update sid ns rn st Hwf) in Hrow.
  pose proof (store_wf_rows st Hwf) as Hrows. rewrite Forall_forall in Hrows.
  pose proof (has_session_wf sid st Hwf) as Hh.
  destruct (has_session sid st) eqn:Hs.
  - apply in_map_iff in Hrow as [row0 [<- Hrow0]].
    destruct (eight_fields row0 (Hrows row0 Hrow0))
      as (a & b & c & e & f & g & h & i & ->).
    rewrite rewritten_eq in *.
    destruct (String.eqb a sid) eqn:Ea.
    + rewrite dict_of_eight in Hf.
      cbn [dict_get_default dict_get String.eqb Ascii.eqb Bool.eqb orb] in Hf.
      apply String.eqb_eq in Hf. congruence.
    + rewrite dict_of_eight. cbn [dict_get String.eqb Ascii.eqb Bool.eqb].
      intros E. injection E as ->. now rewrite String.eqb_refl in Ea.
  - destruct (eight_fields row (Hrows row Hrow))
      as (a & b & c & e & f & g & h & i & ->).
    rewrite dict_of_eight. cbn [dict_get String.eqb Ascii.eqb Bool.eqb].
    intros E. injection E as ->.
    assert (Ht : existsb (fun row => match row with
                                     | x :: _ => String.eqb x sid
                                     | [] => false
                                     end) (stored_rows st) = true).
    { apply existsb_exists. eexists. split; [exact Hrow|].
      cbn. apply String.eqb_refl. }
    congruence.
Qed.

Lemma X18_witness :
  let st :=
    after_calls None
      [ Save "0123456789abcdef" "2025-01-01T10:00:00" "Flood in Pune?" "Pune" 5 45;
        Save "fedcba9876543210" "2025-01-01T10:05:00" "Quake in Kobe?" "Kobe" 8 30 ] in
  let st' := snd (update_review_status "IS-01234567" "verified" "seen" st) in
  store_wf st = true /\
  "verified" <> "pending" /\
  List.length (entries (fst (get_pending_reviews "pending" st))) = 2 /\
  List.length (entries (fst (get_pending_reviews "pending" st'))) = 1 /\
  Forall (fun d => dict_get "session_id" d <> Some "IS-01234567")
         (entries (fst (get_pending_reviews "pending" st'))).
Proof.
  cbv zeta.
  split; [vm_compute; reflexivity|].
  split; [discriminate|].
  split; [vm_compute; reflexivity|].
  split; [vm_compute; reflexivity|].
  apply Forall_forall.
  apply (X18_reviewed_entry_leaves_pending_list "IS-01234567" "verified" "seen"
    (after_calls None
      [ Save "0123456789abcdef" "2025-01-01T10:00:00" "Flood in Pune?" "Pune" 5 45;
        Save "fedcba9876543210" "2025-01-01T10:05:00" "Quake in Kobe?" "Kobe" 8 30 ])).
  - vm_compute; reflexivity.
  - discriminate.
Defined.

Lemma set_review_first (sid ns rn : string) (row : list string) :
  match set_review sid ns rn row with a :: _ => String.eqb a sid | [] => false end
  = match row with a :: _ => String.eqb a sid | [] => false end.
Proof.
  destruct row as [|a [|b [|c [|d [|e [|f [|g [|h [|i row]]]]]]]]]; try reflexivity.
  cbn [set_review]. destruct (String.eqb a sid) eqn:E; rewrite ?E; reflexivity.
Qed.

(** X19. An update is idempotent: the same update made a second time
    returns the same result and leaves the file as the first one left it. *)
Theorem X19_update_is_idempotent (sid ns rn : string) (st : store) :
  store_wf st = true ->
  let once := update_review_status sid ns rn st in
  let twice := update_review_status sid ns rn (snd once) in
  fst twice = fst once /\ snd twice = snd once.
Proof.
  intros Hwf. cbv zeta.
  assert (Hwf' : store_wf (snd (update_review_status sid ns rn st)) = true)
    by exact (after_call_wf st (Update sid ns rn) Hwf).
  pose proof (stored_rows_update sid ns rn st Hwf) as R1.
  pose proof (has_session_wf sid st Hwf) as S0.
  pose proof (has_session_wf sid _ Hwf') as S1.
  pose proof (store_wf_rows st Hwf) as Hrows.
  pose proof (store_wf_fieldnames st Hwf) as Hn.
  rewrite R1 in S1.
  rewrite (update_review_status_eq sid ns rn (snd _)).
  rewrite (update_review_status_eq sid ns rn st) in *. cbv zeta in *.
  destruct (has_session sid st) eqn:Hs.
  - cbn [snd fst] in *.
    rewrite map_rewritten in S1 by assumption.
    assert (S1' : has_session sid
                    (Some {| fieldnames := fieldnames (_ensure_csv_exists st);
                             rows := map (row_of_dict (fieldnames (_ensure_csv_exists st)))
                                       (map (updated sid ns rn)
                                          (read_dicts (_ensure_csv_exists st))) |})
                  = true).
    { rewrite S1, S0. clear. induction (stored_rows st) as [|row l IH]; [reflexivity|].
      cbn [map existsb]. now rewrite IH, set_review_first. }
    rewrite S1'. split; [reflexivity|]. cbn [snd _ensure_csv_exists].
    rewrite (read_dicts_wf _ Hwf'). cbn [rows fieldnames].
    rewrite (read_dicts_store st Hwf), Hn, !map_map.
    f_equal. f_equal.
    apply map_ext_in. intros row Hin.
    rewrite Forall_forall in Hrows.
    destruct (eight_fields row (Hrows row Hin))
      as (a & b & c & d & e & f & g & h & ->).
    change (rewritten sid ns rn (rewritten sid ns rn [a; b; c; d; e; f; g; h])
            = rewritten sid ns rn [a; b; c; d; e; f; g; h]).
    rewrite (rewritten_eq sid ns rn a b c d e f g h).
    destruct (String.eqb a sid) eqn:E; rewrite rewritten_eq, E; reflexivity.
  - cbn [snd fst] in *.
    replace (has_session sid (Some (_ensure_csv_exists st))) with false
      by (rewrite <- Hs; unfold has_session; destruct st; reflexivity).
    split; reflexivity.
Qed.

Lemma X19_witness :
  let st :=
    after_calls None
      [ Save "0123456789abcdef" "2025-01-01T10:00:00" "Flood in Pune?" "Pune" 5 45 ] in
  let once := update_review_status "IS-01234567" "verified" "seen" st in
  let twice := update_review_status "IS-01234567" "verified" "seen" (snd once) in
  store_wf st = true /\ fst twice = fst once /\ snd twice = snd once.
Proof.
  cbv zeta. split; [vm_compute; reflexivity|].
  exact (X19_update_is_idempotent "IS-01234567" "verified" "seen"
    (after_calls None
      [ Save "0123456789abcdef" "2025-01-01T10:00:00" "Flood in Pune?" "Pune" 5 45 ])
    ltac:(vm_compute; reflexivity)).
Defined.



End HumanReviewMore.

(** ** [MultiAgentRunner] over a whole run *)

Module MultiAgentRunnerFacts.
Import Py PyFacts HumanReview AgentRun MultiAgentRunner RunnerLoops.

Lemma event_loop_cons (e : Event) (rest : list Event) (l : Loop) :
  event_loop (e :: rest) l =
  if (max_events <? S (event_count l))%nat then (bump l, true)
  else event_loop rest (turn l e).
Proof. reflexivity. Qed.

Lemma event_loop_gen (evs : list Event) :
  forall l, (event_count l <= max_events)%nat ->
  event_loop evs l =
  (if (max_events - event_count l <? List.length evs)%nat
   then bump (fold_left turn (firstn (max_events - event_count l) evs) l)
   else fold_left turn evs l,
   (max_events - event_count l <? List.length evs)%nat).
Proof.
  induction evs as [|e rest IH]; intros l Hl.
  - cbn [event_loop List.length fold_left].
    destruct (Nat.ltb_spec (max_events - event_count l) 0); [lia | reflexivity].
  - rewrite event_loop_cons. cbn [List.length].
    destruct (Nat.ltb_spec max_events (S (event_count l))) as [H|H].
    + replace (max_events - event_count l)%nat with 0%nat by lia.
      reflexivity.
    + rewrite IH by (cbn [turn on_event bump event_count]; lia).
      change (event_count (turn l e)) with (S (event_count l)).
      replace (max_events - event_count l)%nat
        with (S (max_events - S (event_count l))) by lia.
      reflexivity.
Qed.

Lemma event_loop_start (evs : list Event) (c : nat) :
  event_loop evs (start c) =
  (if (max_events <? List.length evs)%nat then bump (read evs c) else read evs c,
   (max_events <? List.length evs)%nat).
Proof.
  rewrite event_loop_gen by (cbn [start event_count]; lia).
  change (event_count (start c)) with 0%nat. rewrite Nat.sub_0_r.
  unfold read.
  destruct (Nat.ltb_spec max_events (List.length evs)) as [H|H]; [reflexivity|].
  now rewrite firstn_all2.
Qed.

Lemma read_firstn (evs : list Event) (c : nat) :
  read (firstn max_events evs) c = read evs c.
Proof. unfold read. now rewrite firstn_firstn, Nat.min_id. Qed.

Lemma fold_turn_count (evs : list Event) :
  forall l, event_count (fold_left turn evs l) = (event_count l + List.length evs)%nat.
Proof.
  induction evs as [|e rest IH]; intros l; cbn [fold_left List.length]; [lia|].
  rewrite IH. change (event_count (turn l e)) with (S (event_count l)). lia.
Qed.

Lemma read_count (evs : list Event) (c : nat) :
  event_count (read evs c) = Nat.min max_events (List.length evs).
Proof.
  unfold read. rewrite fold_turn_count, length_firstn. reflexivity.
Qed.

Lemma fold_turn_errors (evs : list Event) :
  forall l, errors (fold_left turn evs l) = (errors l + error_events evs)%nat.
Proof.
  unfold error_events.
  induction evs as [|e rest IH]; intros l; cbn [fold_left filter List.length]; [lia|].
  rewrite IH. cbn [turn on_event bump errors].
  destruct (truthy (error_message e)); cbn [List.length]; lia.
Qed.

Lemma read_errors (evs : list Event) (c : nat) :
  errors (read evs c) = (c + error_events (firstn max_events evs))%nat.
Proof. unfold read. now rewrite fold_turn_errors. Qed.

Lemma fold_turn_final (evs : list Event) :
  forall l, final_response (fold_left turn evs l)
            = fold_left capture evs (final_response l).
Proof.
  induction evs as [|e rest IH]; intros l; cbn [fold_left]; [reflexivity|].
  now rewrite IH.
Qed.

Lemma truthy_iff (a : string) : truthy a = true <-> a <> "".
Proof. destruct a; cbn [truthy]; split; congruence. Qed.

Lemma fold_turn_seen (evs : list Event) :
  forall l, NoDup (seen_agents l) ->
    NoDup (seen_agents (fold_left turn evs l)) /\
    (forall a, In a (seen_agents (fold_left turn evs l)) <->
               In a (seen_agents l) \/ In a (authors evs)).
Proof.
  unfold authors.
  induction evs as [|e rest IH]; intros l Hl; cbn [fold_left map filter].
  - split; [assumption|]. intros a. cbn [In]. tauto.
  - assert (Hs : seen_agents (turn l e) =
                 if truthy (author e) && negb (mem (author e) (seen_agents l))
                 then (seen_agents l ++ [author e])%list else seen_agents l)
      by reflexivity.
    assert (Hn : NoDup (seen_agents (turn l e))).
    { rewrite Hs. destruct (truthy (author e)); cbn [andb]; [|assumption].
      destruct (mem (author e) (seen_agents l)) eqn:M; cbn [negb]; [assumption|].
      apply NoDup_app; [assumption | repeat constructor; intros [] |].
      intros a Ha [<-|[]]. apply CredibilityMore.mem_In in Ha. congruence. }
    destruct (IH (turn l e) Hn) as [IH1 IH2].
    split; [exact IH1|]. intros a. rewrite IH2, Hs.
    destruct (truthy (author e)) eqn:T; cbn [andb In].
    + destruct (mem (author e) (seen_agents l)) eqn:M; cbn [negb].
      * apply CredibilityMore.mem_In in M.
        split; [tauto|]. intros [H|[<-|H]]; tauto.
      * rewrite in_app_iff. cbn [In]. tauto.
    + tauto.
Qed.

Lemma read_seen (evs : list Event) (c : nat) :
  NoDup (seen_agents (read evs c)) /\
  (forall a, In a (seen_agents (read evs c)) <->
             In a (authors (firstn max_events evs))).
Proof.
  unfold read.
  destruct (fold_turn_seen (firstn max_events evs) (start c) (NoDup_nil _)) as [H1 H2].
  split; [exact H1|]. intros a. rewrite H2. cbn [start seen_agents In]. tauto.
Qed.

(** The query in terms of what the loop reads. *)
Lemma process_query_async_read (self : Self) (u n q : string) (run : Run) (st : store) :
  process_query_async self u n q run st =
  let self1 := mkSelf (enable_human_review self) (S (_query_count self))
                      (_error_count self) in
  let validation := Guardrails.validate_query q in
  let over := (max_events <? List.length (events run))%nat in
  let l := read (events run) (_error_count self) in
  let count := if over then S (event_count l) else event_count l in
  let failed := mkSelf (enable_human_review self) (S (_query_count self))
                       (S (errors l)) in
  if negb (Guardrails.is_valid validation) then
    ({| response := Rejection.get_rejection_response validation;
        credibility_score := None;
        agents_used := ["guardrail"];
        human_review := None;
        metadata := Blocked (Guardrails.category validation) |}, self1, st)
  else
    match (if over then None else raised run) with
    | Some e =>
        ({| response := error_reply e;
            credibility_score := None;
            agents_used := seen_agents l;
            human_review := None;
            metadata := Errored (error_type e) |}, failed, st)
    | None =>
        match final_response l with
        | Some text =>
            if negb (truthy text) then
              ({| response := Runner.no_response;
                  credibility_score := None;
                  agents_used := seen_agents l;
                  human_review := None;
                  metadata := Empty count |}, failed, st)
            else
              let '(r, st') :=
                Runner.post_process (enable_human_review self) u n q text
                  (seen_agents l) st in
              ({| response := Runner.response r;
                  credibility_score := Runner.credibility_score r;
                  agents_used := Runner.agents_used r;
                  human_review := Runner.human_review r;
                  metadata := Completed count (S (_query_count self)) |},
               mkSelf (enable_human_review self) (S (_query_count self)) 0, st')
        | None =>
            ({| response := Runner.no_response;
                credibility_score := None;
                agents_used := seen_agents l;
                human_review := None;
                metadata := Empty count |}, failed, st)
        end
    end.
Proof.
  unfold process_query_async. cbv zeta.
  destruct (negb (Guardrails.is_valid (Guardrails.validate_query q))); [reflexivity|].
  cbn [_error_count enable_human_review _query_count].
  change (mkLoop (Some "") 0 [] (_error_count self)) with (start (_error_count self)).
  rewrite event_loop_start.
  destruct (max_events <? List.length (events run))%nat; reflexivity.
Qed.

(** The two ends of the post-processing: the query is queued and the
    reply carries the notice, or the reply is the report as it is. *)
Lemma post_process_cases (enable : bool) (u n q text : string)
    (agents : list string) (st : store) :
  (exists s,
     enable = true /\
     Runner._extract_credibility_score text = Some s /\
     (s < Config.CREDIBILITY_THRESHOLD)%Z /\
     Runner.post_process enable u n q text agents st =
     ({| Runner.response :=
           Re.remove_all Runner.placeholder text
           ++ Runner.notice ("IS-" ++ take 8 u)
                (review_time (Runner.urgency_estimate q)) s;
         Runner.credibility_score := Some s;
         Runner.agents_used := agents;
         Runner.human_review :=
           Some (Runner.mkInfo ("IS-" ++ take 8 u)
                   (review_time (Runner.urgency_estimate q)));
         Runner.metadata := Runner.Processed |},
      snd (save_for_human_review u n q (Runner._extract_location q)
             (Runner.urgency_estimate q) s st)))
  \/ Runner.post_process enable u n q text agents st =
     ({| Runner.response := text;
         Runner.credibility_score := Runner._extract_credibility_score text;
         Runner.agents_used := agents;
         Runner.human_review := None;
         Runner.metadata := Runner.Processed |}, st).
Proof.
  unfold Runner.post_process.
  destruct (Runner._extract_credibility_score text) as [s|]; [|now right].
  destruct enable; cbn [andb]; [|now right].
  destruct (s <? Config.CREDIBILITY_THRESHOLD)%Z eqn:E; [|now right].
  left. exists s. apply Z.ltb_lt in E. repeat split; assumption.
Qed.

Lemma authors_In (evs : list Event) (a : string) :
  In a (authors evs) <-> a <> "" /\ exists e, In e evs /\ author e = a.
Proof.
  unfold authors. rewrite filter_In, in_map_iff, truthy_iff.
  split.
  - intros [[e [E H]] Ha]. split; [assumption|]. now exists e.
  - intros [Ha [e [H E]]]. split; [now exists e | assumption].
Qed.

(** X21. The events after the hundredth are not read: a run of more than
    100 events is answered as the run of its first 100 events that ends
    without an exception, whatever the later events are and whatever the
    run raises after them; only the event count reported differs, 101 for
    100. *)
Theorem X21_events_after_the_limit_are_not_read
    (self : Self) (u n q : string) (run : Run) (st : store) :
  (max_events < List.length (events run))%nat ->
  let '(r, self', st') := process_query_async self u n q run st in
  let '(r0, self0, st0) :=
    process_query_async self u n q
      (mkRun (firstn max_events (events run)) None) st in
  response r = response r0 /\
  credibility_score r = credibility_score r0 /\
  agents_used r = agents_used r0 /\
  human_review r = human_review r0 /\
  self' = self0 /\ st' = st0 /\
  match metadata r, metadata r0 with
  | Blocked a, Blocked b => a = b
  | Empty c, Empty c0 => c = S max_events /\ c0 = max_events
  | Completed c k, Completed c0 k0 =>
      c = S max_events /\ c0 = max_events /\ k = k0
  | _, _ => False
  end.
Proof.
  intros Hlen.
  rewrite !process_query_async_read. cbv zeta. cbn [events raised].
  rewrite read_firstn.
  assert (Hc : event_count (read (events run) (_error_count self)) = max_events)
    by (rewrite read_count; lia).
  rewrite Hc.
  assert (H1 : (max_events <? List.length (events run))%nat = true)
    by now apply Nat.ltb_lt.
  assert (H2 : (max_events <? List.length (firstn max_events (events run)))%nat = false)
    by (apply Nat.ltb_ge; rewrite length_firstn; lia).
  rewrite H1, H2.
  destruct (negb (Guardrails.is_valid (Guardrails.validate_query q))).
  { repeat split. }
  destruct (final_response (read (events run) (_error_count self))) as [text|].
  - destruct (negb (truthy text)).
    + repeat split.
    + destruct (Runner.post_process _ u n q text _ st) as [r st'].
      repeat split.
  - repeat split.
Qed.

Lemma X21_witness :
  let evs :=
    (repeat (mkEvent "search_agent" "" false None) 100
     ++ [ mkEvent "credibility_agent" "" true (Some (Some "Late report")) ])%list in
  (max_events < List.length evs)%nat /\
  response (fst (fst (process_query_async (new true) "0123456789abcdef"
                        "2025-01-01T10:00:00" "Is there a flood in Pune?"
                        (mkRun evs (Some (mkRaised false "ValueError" "boom"))) None)))
  = Runner.no_response.
Proof.
  cbv zeta.
  pose proof (X21_events_after_the_limit_are_not_read (new true) "0123456789abcdef"
                "2025-01-01T10:00:00" "Is there a flood in Pune?"
                (mkRun (repeat (mkEvent "search_agent" "" false None) 100
                        ++ [ mkEvent "credibility_agent" "" true
                               (Some (Some "Late report")) ])%list
                       (Some (mkRaised false "ValueError" "boom"))) None
                ltac:(vm_compute; lia)) as H.
  split; [vm_compute; lia|].
  destruct (process_query_async _ _ _ _ (mkRun (_ ++ _) _) _) as [[r self'] st'].
  destruct (process_query_async _ _ _ _ (mkRun (firstn _ _) _) _)
    as [[r0 self0] st0] eqn:E0.
  destruct H as [H _]. cbn [fst]. rewrite H.
  vm_compute in E0. injection E0 as <- _ _. reflexivity.
Defined.

(** X22. The agents reported for a query that passes the guardrail are the
    authors of the events read, the first 100 of the run: each non-empty
    author once, and nothing else.  A rejected query reports the guardrail
    alone. *)
Theorem X22_agents_used_are_the_authors
    (self : Self) (u n q : string) (run : Run) (st : store) :
  let r := fst (fst (process_query_async self u n q run st)) in
  if Guardrails.is_valid (Guardrails.validate_query q) then
    NoDup (agents_used r) /\
    forall a, In a (agents_used r) <->
              a <> "" /\
              exists e, In e (firstn max_events (events run)) /\ author e = a
  else agents_used r = ["guardrail"].
Proof.
  cbv zeta. rewrite process_query_async_read. cbv zeta.
  destruct (Guardrails.is_valid (Guardrails.validate_query q)); cbn [negb];
    [|reflexivity].
  destruct (read_seen (events run) (_error_count self)) as [Hn Hi].
  assert (G : NoDup (seen_agents (read (events run) (_error_count self))) /\
              forall a, In a (seen_agents (read (events run) (_error_count self))) <->
                        a <> "" /\
                        exists e, In e (firstn max_events (events run)) /\ author e = a).
  { split; [exact Hn|]. intros a. rewrite Hi. apply authors_In. }
  destruct (if (max_events <? List.length (events run))%nat then None else raised run);
    [exact G|].
  destruct (final_response (read (events run) (_error_count self))) as [text|];
    [|exact G].
  destruct (negb (truthy text)); [exact G|].
  destruct (post_process_cases (enable_human_review self) u n q text
              (seen_agents (read (events run) (_error_count self))) st)
    as [(s & _ & _ & _ & ->)| ->]; exact G.
Qed.

(** X23. The count of errors after a query: a rejected query leaves it as
    it is; a query answered with a report sets it to 0, so that the runner
    is healthy, whatever errors came before or during the run; every other
    query adds to it one and the number of events with an error message
    among those read.  The count of queries grows by one in each case. *)
Theorem X23_error_count_after_a_query
    (self : Self) (u n q : string) (run : Run) (st : store) :
  let '(r, self', st') := process_query_async self u n q run st in
  _query_count self' = S (_query_count self) /\
  enable_human_review self' = enable_human_review self /\
  match metadata r with
  | Blocked _ => _error_count self' = _error_count self
  | Completed _ _ => _error_count self' = 0%nat /\ healthy self' = true
  | Empty _ | Errored _ =>
      _error_count self' =
      S (_error_count self + error_events (firstn max_events (events run)))
  end.
Proof.
  rewrite process_query_async_read. cbv zeta.
  rewrite read_errors.
  destruct (negb (Guardrails.is_valid (Guardrails.validate_query q))).
  { repeat split. }
  destruct (if (max_events <? List.length (events run))%nat then None else raised run).
  { repeat split. }
  destruct (final_response (read (events run) (_error_count self))) as [text|].
  - destruct (negb (truthy text)).
    + repeat split.
    + destruct (Runner.post_process _ u n q text _ st) as [r st'].
      repeat split.
  - repeat split.
Qed.

(** X24. The queue changes only with a reference: when the result carries
    no review information the queue file is left exactly as it was; when it
    does, human review is enabled, the score extracted is below 60, the
    queue has gained one pending row made of the reference id, the query,
    the location, the urgency, the score and the time, and the reply shows
    the same reference id. *)
Theorem X24_queue_changes_only_with_a_reference
    (self : Self) (u n q : string) (run : Run) (st : store) :
  let '(r, self', st') := process_query_async self u n q run st in
  match human_review r with
  | None => st' = st
  | Some info =>
      enable_human_review self = true /\
      Runner.info_session_id info = "IS-" ++ take 8 u /\
      Runner.review_time_given info = review_time (Runner.urgency_estimate q) /\
      contains (Runner.info_session_id info) (response r) = true /\
      exists s,
        credibility_score r = Some s /\
        (s < 60)%Z /\
        stored_rows st' =
        (stored_rows st
         ++ [[ Runner.info_session_id info; q; Runner._extract_location q;
               str_of_Z (Runner.urgency_estimate q); str_of_Z s; n;
               "pending"; "" ]])%list
  end.
Proof.
  rewrite process_query_async_read. cbv zeta.
  destruct (negb (Guardrails.is_valid (Guardrails.validate_query q))); [reflexivity|].
  destruct (if (max_events <? List.length (events run))%nat then None else raised run);
    [reflexivity|].
  destruct (final_response (read (events run) (_error_count self))) as [text|];
    [|reflexivity].
  destruct (negb (truthy text)); [reflexivity|].
  destruct (post_process_cases (enable_human_review self) u n q text
              (seen_agents (read (events run) (_error_count self))) st)
    as [(s & He & Hx & Hs & ->)| ->]; [|reflexivity].
  cbn [human_review response credibility_score Runner.human_review Runner.response
       Runner.credibility_score Runner.info_session_id Runner.review_time_given].
  split; [exact He|]. split; [reflexivity|]. split; [reflexivity|].
  split.
  - apply contains_append_l. unfold Runner.notice.
    do 8 apply contains_append_l.
    apply (contains_self ("IS-" ++ take 8 u) "- **Reference ID:** ").
  - exists s. split; [reflexivity|]. split; [exact Hs|].
    apply HumanReviewFacts.stored_rows_save.
Qed.

End MultiAgentRunnerFacts.

(** ** [InfoShieldRunner] and [run_query_async] over a whole run *)

Module SingleAgentFacts.
Import Py PyFacts HumanReview AgentRun GuardrailsWords.

Lemma every_append (p : ascii -> bool) (a b : string) :
  every p (a ++ b) = every p a && every p b.
Proof.
  induction a as [|c a IH]; cbn [append every]; [reflexivity|].
  now rewrite IH, andb_assoc.
Qed.

Lemma rstrip_by_kept (p : ascii -> bool) (c : ascii) (s : string) :
  p c = false -> rstrip_by p (String c s) <> "".
Proof.
  intros H. cbn [rstrip_by]. destruct (rstrip_by p s); [rewrite H|]; discriminate.
Qed.

Lemma strip_by_blank (p : ascii -> bool) (s : string) :
  strip_by p s = "" <-> every p s = true.
Proof.
  unfold strip_by. induction s as [|c s IH]; cbn [lstrip_by every].
  - split; reflexivity.
  - destruct (p c) eqn:E; cbn [andb]; [exact IH|].
    split; [|discriminate]. intros H. now apply rstrip_by_kept in H.
Qed.

Lemma strip_append_nonblank (a b : string) : strip a <> "" -> strip (a ++ b) <> "".
Proof.
  unfold strip. rewrite !strip_by_blank, every_append.
  destruct (every isspace a); cbn [andb]; congruence.
Qed.

Lemma nonblank_test (text : string) :
  negb (truthy text) || String.eqb (strip text) "" = false -> strip text <> "".
Proof.
  intros H. apply orb_false_iff in H as [_ H]. now apply String.eqb_neq.
Qed.

(** The loop ends at the first event with an error message, when that
    event is among those read. *)
Lemma event_loop_error (pre : list Event) (e : Event) (post : list Event) :
  forallb (fun x => negb (truthy (error_message x))) pre = true ->
  truthy (error_message e) = true ->
  forall c f,
    (c + List.length pre < InfoShieldRunner.max_events)%nat ->
    InfoShieldRunner.event_loop (pre ++ e :: post)%list c f
    = InfoShieldRunner.ErrorEvent.
Proof.
  intros Hpre He.
  induction pre as [|x pre IH]; intros c f Hc; cbn [app InfoShieldRunner.event_loop].
  - cbn [List.length] in Hc.
    destruct (Nat.ltb_spec InfoShieldRunner.max_events (S c)); [lia|].
    now rewrite He.
  - cbn [List.length forallb] in Hc, Hpre.
    apply andb_true_iff in Hpre as [Hx Hpre].
    destruct (Nat.ltb_spec InfoShieldRunner.max_events (S c)); [lia|].
    apply negb_true_iff in Hx. rewrite Hx.
    apply IH; [assumption | lia].
Qed.

(** X25. An event with an error message, among the first 50 of the run,
    ends the query of the single-agent runner at once: the reply is the
    message for an API error, whatever the events before it gave as a
    final response, whatever follows and whatever the run raises; the
    queue is not touched.  [InfoShieldRunner] counts one error more and
    adds its note on repeated errors when the count reaches 3. *)
Theorem X25_error_event_ends_the_query
    (self : InfoShieldRunner.Self) (u n q : string)
    (pre : list Event) (e : Event) (post : list Event)
    (raised : option Raised) (st : store) :
  (List.length pre < 50)%nat ->
  forallb (fun x => negb (truthy (error_message x))) pre = true ->
  truthy (error_message e) = true ->
  let run := mkRun (pre ++ e :: post)%list raised in
  InfoShieldRunner.process_query_async self u n q run st =
    (if (3 <=? S (InfoShieldRunner._error_count self))%nat
     then api_error ++ InfoShieldRunner.degraded_note else api_error,
     InfoShieldRunner.mkSelf (InfoShieldRunner.enable_human_review self)
       (S (InfoShieldRunner._error_count self)),
     st) /\
  RunQuery.run_query_async (InfoShieldRunner.enable_human_review self) u n q run st
    = (api_error, st).
Proof.
  intros Hlen Hpre He. cbv zeta.
  unfold InfoShieldRunner.process_query_async, RunQuery.run_query_async.
  cbn [events].
  rewrite (event_loop_error pre e post Hpre He 0 (Some "") Hlen).
  split; [|reflexivity].
  cbv zeta. cbn [InfoShieldRunner._error_count].
  change InfoShieldRunner._max_consecutive_errors with 3%nat.
  destruct (3 <=? S (InfoShieldRunner._error_count self))%nat; reflexivity.
Qed.

Lemma X25_witness :
  let run :=
    mkRun [ mkEvent "infoshield" "" true (Some (Some "Report: all clear"));
            mkEvent "infoshield" "503 unavailable" false None;
            mkEvent "infoshield" "" true (Some (Some "Report: all clear")) ] None in
  fst (fst (InfoShieldRunner.process_query_async
              (InfoShieldRunner.mkSelf true 2) "0123456789abcdef"
              "2025-01-01T10:00:00" "Is there a flood in Pune?" run None))
    = api_error ++ InfoShieldRunner.degraded_note /\
  fst (RunQuery.run_query_async true "0123456789abcdef"
         "2025-01-01T10:00:00" "Is there a flood in Pune?" run None)
    = api_error.
Proof.
  cbv zeta.
  pose proof (X25_error_event_ends_the_query
                (InfoShieldRunner.mkSelf true 2) "0123456789abcdef"
                "2025-01-01T10:00:00" "Is there a flood in Pune?"
                [ mkEvent "infoshield" "" true (Some (Some "Report: all clear")) ]
                (mkEvent "infoshield" "503 unavailable" false None)
                [ mkEvent "infoshield" "" true (Some (Some "Report: all clear")) ]
                None None
                ltac:(cbn; lia) eq_refl eq_refl) as [H1 H2].
  split.
  - exact (f_equal (fun x => fst (fst x)) H1).
  - exact (f_equal fst H2).
Defined.

(** The post-processing of [InfoShieldRunner] on a report that is not
    blank. *)
Lemma agent_post_cases (enable : bool) (u n q text : string) (st : store) :
  negb (truthy text) || String.eqb (strip text) "" = false ->
  Agent.process_query_async enable u n q text st = (text, st)
  \/ exists s,
       enable = true /\
       Agent._extract_credibility_score text = Some s /\
       (s < Config.CREDIBILITY_THRESHOLD)%Z /\
       Agent.process_query_async enable u n q text st =
       (text ++ Agent.notice ("IS-" ++ take 8 u)
                  (review_time (Agent.urgency_estimate q)) s,
        snd (save_for_human_review u n q (Agent._extract_location q)
               (Agent.urgency_estimate q) s st)).
Proof.
  intros H. unfold Agent.process_query_async. rewrite H.
  destruct enable; [|now left].
  destruct (Agent._extract_credibility_score text) as [s|]; [|now left].
  destruct (s <? Config.CREDIBILITY_THRESHOLD)%Z eqn:E; [|now left].
  right. exists s. apply Z.ltb_lt in E. repeat split; assumption.
Qed.

(** The post-processing of [run_query_async]. *)
Lemma run_query_post_cases (enable : bool) (u n q text : string) (st : store) :
  RunQuery.post_process enable u n q text st = (text, st)
  \/ exists s,
       enable = true /\
       Agent._extract_credibility_score text = Some s /\
       (s < Config.CREDIBILITY_THRESHOLD)%Z /\
       RunQuery.post_process enable u n q text st =
       (text ++ RunQuery.human_review_notice ("IS-" ++ take 8 u)
                  (review_time (Agent.run_query_urgency_estimate q)) s,
        snd (save_for_human_review u n q (Agent._extract_location q)
               (Agent.run_query_urgency_estimate q) s st)).
Proof.
  unfold RunQuery.post_process.
  destruct enable; [|now left].
  destruct (Agent._extract_credibility_score text) as [s|]; [|now left].
  destruct (s <? Config.CREDIBILITY_THRESHOLD)%Z eqn:E; [|now left].
  right. exists s. apply Z.ltb_lt in E. repeat split; assumption.
Qed.

Lemma error_reply_cases (e : Raised) :
  In (InfoShieldRunner.error_reply e) [timeout; rate_limit; api_error].
Proof.
  unfold InfoShieldRunner.error_reply. cbv zeta. cbn [In].
  destruct (is_timeout_error e); [tauto|].
  destruct (_ || _); [tauto|]. destruct (contains "timeout" _); tauto.
Qed.

Lemma run_query_error_reply_cases (e : Raised) :
  In (RunQuery.error_reply e) [timeout; rate_limit; api_error].
Proof.
  unfold RunQuery.error_reply. cbv zeta. cbn [In].
  destruct (is_timeout_error e); [tauto|].
  destruct (_ || _); [tauto|]. destruct (_ || _); tauto.
Qed.

(** X26. How a query of [InfoShieldRunner] ends.  Either it fails: the
    reply is one of five fixed messages, the count of consecutive errors
    grows by one and the queue is not touched.  Or it succeeds: the count
    is set to 0, and the reply is the report, which is not blank, either as
    it is with the queue untouched, or followed by the notice with the
    reference id of the one row the queue has gained, when human review is
    enabled and the score extracted is below 60. *)
Theorem X26_single_agent_runner_outcomes
    (self : InfoShieldRunner.Self) (u n q : string) (run : Run) (st : store) :
  let '(reply, self', st') :=
    InfoShieldRunner.process_query_async self u n q run st in
  InfoShieldRunner.enable_human_review self'
    = InfoShieldRunner.enable_human_review self /\
  ((InfoShieldRunner._error_count self' = S (InfoShieldRunner._error_count self) /\
    st' = st /\
    In reply [ Agent.no_response; timeout; rate_limit; api_error;
               api_error ++ InfoShieldRunner.degraded_note ])
   \/
   (InfoShieldRunner._error_count self' = 0%nat /\
    exists text,
      strip text <> "" /\
      ((reply = text /\ st' = st)
       \/ exists s,
            InfoShieldRunner.enable_human_review self = true /\
            Agent._extract_credibility_score text = Some s /\
            (s < 60)%Z /\
            reply = text ++ Agent.notice ("IS-" ++ take 8 u)
                              (review_time (Agent.urgency_estimate q)) s /\
            stored_rows st' =
            (stored_rows st
             ++ [[ ("IS-" ++ take 8 u)%string; q; Agent._extract_location q;
                   str_of_Z (Agent.urgency_estimate q); str_of_Z s; n;
                   "pending"; "" ]])%list))).
Proof.
  unfold InfoShieldRunner.process_query_async.
  destruct (InfoShieldRunner.event_loop (events run) 0 (Some "")) as [|final broke].
  { cbv zeta. destruct (_ <=? _)%nat; (split; [reflexivity|]); left;
      (split; [reflexivity|]); (split; [reflexivity|]); cbn [In]; tauto. }
  destruct (if broke then None else raised run) as [e|].
  { split; [reflexivity|]. left. split; [reflexivity|]. split; [reflexivity|].
    pose proof (error_reply_cases e) as H. cbn [In] in *. tauto. }
  destruct final as [text|].
  2:{ split; [reflexivity|]. left. split; [reflexivity|]. split; [reflexivity|].
      cbn [In]. tauto. }
  destruct (negb (truthy text) || String.eqb (strip text) "") eqn:B.
  { split; [reflexivity|]. left. split; [reflexivity|]. split; [reflexivity|].
    cbn [In]. tauto. }
  pose proof (nonblank_test text B) as Hn.
  destruct (agent_post_cases (InfoShieldRunner.enable_human_review self) u n q text st B)
    as [->|(s & He & Hx & Hs & ->)].
  - split; [reflexivity|]. right. split; [reflexivity|].
    exists text. split; [exact Hn|]. left. split; reflexivity.
  - split; [reflexivity|]. right. split; [reflexivity|].
    exists text. split; [exact Hn|]. right. exists s.
    split; [exact He|]. split; [exact Hx|]. split; [exact Hs|].
    split; [reflexivity|]. apply HumanReviewFacts.stored_rows_save.
Qed.

(** X27. How a call of [run_query_async] ends: with one of four fixed
    messages and the queue untouched, or with the report, which is not
    blank, either as it is with the queue untouched, or followed by the
    notice with the reference id of the one row the queue has gained, when
    human review is enabled and the score extracted is below 60. *)
Theorem X27_run_query_outcomes
    (enable : bool) (u n q : string) (run : Run) (st : store) :
  let '(reply, st') := RunQuery.run_query_async enable u n q run st in
  (st' = st /\ In reply [Agent.no_response; timeout; rate_limit; api_error])
  \/
  exists text,
    strip text <> "" /\
    ((reply = text /\ st' = st)
     \/ exists s,
          enable = true /\
          Agent._extract_credibility_score text = Some s /\
          (s < 60)%Z /\
          reply = text ++ RunQuery.human_review_notice ("IS-" ++ take 8 u)
                            (review_time (Agent.run_query_urgency_estimate q)) s /\
          stored_rows st' =
          (stored_rows st
           ++ [[ ("IS-" ++ take 8 u)%string; q; Agent._extract_location q;
                 str_of_Z (Agent.run_query_urgency_estimate q); str_of_Z s; n;
                 "pending"; "" ]])%list).
Proof.
  unfold RunQuery.run_query_async.
  destruct (InfoShieldRunner.event_loop (events run) 0 (Some "")) as [|final broke].
  { left. split; [reflexivity|]. cbn [In]. tauto. }
  destruct (if broke then None else raised run) as [e|].
  { left. split; [reflexivity|].
    pose proof (run_query_error_reply_cases e) as H. cbn [In] in *. tauto. }
  destruct final as [text|].
  2:{ left. split; [reflexivity|]. cbn [In]. tauto. }
  destruct (negb (truthy text) || String.eqb (strip text) "") eqn:B.
  { left. split; [reflexivity|]. cbn [In]. tauto. }
  pose proof (nonblank_test text B) as Hn.
  destruct (run_query_post_cases enable u n q text st)
    as [->|(s & He & Hx & Hs & ->)].
  - right. exists text. split; [exact Hn|]. left. split; reflexivity.
  - right. exists text. split; [exact Hn|]. right. exists s.
    split; [exact He|]. split; [exact Hx|]. split; [exact Hs|].
    split; [reflexivity|]. apply HumanReviewFacts.stored_rows_save.
Qed.

Lemma fixed_replies_nonblank (reply : string) :
  In reply [ Agent.no_response; timeout; rate_limit; api_error;
             api_error ++ InfoShieldRunner.degraded_note ] ->
  strip reply <> "".
Proof.
  cbn [In]. intros [<-|[<-|[<-|[<-|[<-|[]]]]]]; vm_compute; discriminate.
Qed.

(** X28. The single-agent runner and [run_query_async] never reply with an
    empty or blank text, whatever the run gives: a blank final response is
    answered with the message for no response. *)
Theorem X28_single_agent_reply_never_blank
    (self : InfoShieldRunner.Self) (u n q : string) (run : Run) (st : store) :
  strip (fst (fst (InfoShieldRunner.process_query_async self u n q run st))) <> "" /\
  strip (fst (RunQuery.run_query_async
                (InfoShieldRunner.enable_human_review self) u n q run st)) <> "".
Proof.
  assert (F : forall reply,
             In reply [Agent.no_response; timeout; rate_limit; api_error] ->
             strip reply <> "").
  { intros reply H. apply fixed_replies_nonblank. cbn [In] in *. tauto. }
  split.
  - unfold InfoShieldRunner.process_query_async.
    destruct (InfoShieldRunner.event_loop (events run) 0 (Some "")) as [|final broke].
    { cbv zeta. destruct (_ <=? _)%nat; cbn [fst];
        apply fixed_replies_nonblank; cbn [In]; tauto. }
    destruct (if broke then None else raised run) as [e|].
    { cbn [fst]. apply F. pose proof (error_reply_cases e) as H.
      cbn [In] in *. tauto. }
    destruct final as [text|]; [|cbn [fst]; apply F; cbn [In]; tauto].
    destruct (negb (truthy text) || String.eqb (strip text) "") eqn:B;
      [cbn [fst]; apply F; cbn [In]; tauto|].
    pose proof (nonblank_test text B) as Hn.
    destruct (agent_post_cases (InfoShieldRunner.enable_human_review self)
                u n q text st B) as [->|(s & _ & _ & _ & ->)]; cbn [fst].
    + exact Hn.
    + now apply strip_append_nonblank.
  - unfold RunQuery.run_query_async.
    destruct (InfoShieldRunner.event_loop (events run) 0 (Some "")) as [|final broke].
    { cbn [fst]. apply F. cbn [In]. tauto. }
    destruct (if broke then None else raised run) as [e|].
    { cbn [fst]. apply F. pose proof (run_query_error_reply_cases e) as H.
      cbn [In] in *. tauto. }
    destruct final as [text|]; [|cbn [fst]; apply F; cbn [In]; tauto].
    destruct (negb (truthy text) || String.eqb (strip text) "") eqn:B;
      [cbn [fst]; apply F; cbn [In]; tauto|].
    pose proof (nonblank_test text B) as Hn.
    destruct (run_query_post_cases (InfoShieldRunner.enable_human_review self)
                u n q text st) as [->|(s & _ & _ & _ & ->)]; cbn [fst].
    + exact Hn.
    + now apply strip_append_nonblank.
Qed.

End SingleAgentFacts.

(** ** The groups of a match are read by their patterns *)

Module ReLangFacts.
Import Py PyFacts Re ReLoop ReLang ReFacts GuardrailsWords.

Section Reads.
  Context {A : Type}.
  Variable ic : bool.
  Variable G : list (nat * regex).

Lemma loop_reads (L : string -> Prop) step (k : @cont A) (fuel : nat) :
  reads_only ic G L step ->
  forall prev s cs x,
    caps_in ic G cs -> loop step k fuel prev s cs = Some x ->
    exists p prev' s' cs',
      s = p ++ s' /\ (exists ps, p = concat_all ps /\ Forall L ps)
      /\ caps_in ic G cs' /\ k prev' s' cs' = Some x.
Proof.
  intros Hs. induction fuel as [|fuel IH]; intros prev s cs x Hc H.
  - cbn [loop] in H. exists "", prev, s, cs.
    split; [reflexivity|]. split; [now exists []|]. now split.
  - cbn [loop] in H. unfold orelse in H.
    match type of H with
    | match ?e with _ => _ end = _ => destruct e as [y|] eqn:E
    end.
    + injection H as ->.
      destruct (Hs _ _ _ _ _ Hc E) as (p1 & prev1 & s1 & cs1 & E1 & L1 & Hc1 & H1).
      destruct (String.length s1 <? String.length s)%nat; [|discriminate H1].
      destruct (IH _ _ _ _ Hc1 H1)
        as (p2 & prev2 & s2 & cs2 & E2 & (ps & Ep & Lp) & Hc2 & H2).
      exists (p1 ++ p2), prev2, s2, cs2.
      split; [now rewrite append_assoc, <- E2|].
      split; [|now split].
      exists (p1 :: ps). split; [cbn [concat_all fold_right]; now rewrite Ep|].
      now constructor.
    + exists "", prev, s, cs.
      split; [reflexivity|]. split; [now exists []|]. now split.
Qed.

Lemma run_reads (r : regex) :
  incl (groups r) G -> @reads_only A ic G (reads ic r) (run ic r).
Proof.
  induction r as [|a|items| | | | |r1 IH1 r2 IH2|r1 IH1 r2 IH2|r1 IH1|n r1 IH1];
    intros HG prev s cs k x Hc H; cbn [groups] in HG.
  - exists "", prev, s, cs. now repeat split.
  - cbn [run] in H. destruct s as [|c s']; [discriminate|].
    destruct (chr_match ic a c) eqn:E; [|discriminate].
    exists (String c ""), (Some c), s', cs.
    split; [reflexivity|]. split; [now exists c|]. now split.
  - cbn [run] in H. destruct s as [|c s']; [discriminate|].
    destruct (set_match ic items c) eqn:E; [|discriminate].
    exists (String c ""), (Some c), s', cs.
    split; [reflexivity|]. split; [now exists c|]. now split.
  - cbn [run] in H. destruct s as [|c s']; [discriminate|].
    destruct (Ascii.eqb c "010") eqn:E; [discriminate|].
    exists (String c ""), (Some c), s', cs.
    split; [reflexivity|]. split; [now exists c|]. now split.
  - cbn [run] in H. destruct prev; [discriminate|].
    exists "", None, s, cs. now repeat split.
  - cbn [run] in H. exists "", prev, s, cs.
    split; [reflexivity|]. split; [reflexivity|]. split; [assumption|].
    destruct s as [|c [|c' s']]; [assumption| |discriminate].
    destruct (Ascii.eqb c "010"); [assumption | discriminate].
  - cbn [run] in H.
    destruct (xorb (at_word prev) (at_word (head s))); [|discriminate].
    exists "", prev, s, cs. now repeat split.
  - cbn [run] in H. apply incl_app_inv in HG as [HG1 HG2].
    destruct (IH1 HG1 _ _ _ _ _ Hc H) as (p1 & prev1 & s1 & cs1 & E1 & L1 & Hc1 & H1).
    destruct (IH2 HG2 _ _ _ _ _ Hc1 H1) as (p2 & prev2 & s2 & cs2 & E2 & L2 & Hc2 & H2).
    exists (p1 ++ p2), prev2, s2, cs2.
    split; [now rewrite append_assoc, <- E2|].
    split; [now exists p1, p2|]. now split.
  - cbn [run] in H. unfold orelse in H. apply incl_app_inv in HG as [HG1 HG2].
    destruct (run ic r1 prev s cs k) as [y|] eqn:E.
    + injection H as ->.
      destruct (IH1 HG1 _ _ _ _ _ Hc E) as (p1 & prev1 & s1 & cs1 & E1 & L1 & Hc1 & H1).
      exists p1, prev1, s1, cs1. split; [assumption|]. split; [now left|]. now split.
    + destruct (IH2 HG2 _ _ _ _ _ Hc H) as (p1 & prev1 & s1 & cs1 & E1 & L1 & Hc1 & H1).
      exists p1, prev1, s1, cs1. split; [assumption|]. split; [now right|]. now split.
  - rewrite run_star in H.
    exact (loop_reads (reads ic r1) (run ic r1) k _ (IH1 HG) _ _ _ _ Hc H).
  - cbn [run] in H.
    assert (HG1 : incl (groups r1) G) by (intros y Hy; apply HG; now right).
    destruct (IH1 HG1 _ _ _ _ _ Hc H) as (p1 & prev1 & s1 & cs1 & E1 & L1 & Hc1 & H1).
    exists p1, prev1, s1, ((n, consumed s s1) :: cs1).
    split; [assumption|]. split; [exact L1|]. split; [|assumption].
    intros m g [Hg|Hg]; [|now apply (Hc1 m)].
    injection Hg as <- <-. rewrite E1, consumed_app.
    exists r1. split; [apply HG; now left | exact L1].
Qed.
End Reads.

(** The groups of the match [re.search] returns are read by groups of the
    pattern. *)
Lemma search_from_reads (ic : bool) (r : regex) :
  forall s pos prev m,
    search_from ic r pos prev s = Some m ->
    forall n g, group n m = Some g ->
      exists b, In (n, b) (groups r) /\ reads ic b g.
Proof.
  assert (H0 : caps_in ic (groups r) []) by (intros n g []).
  induction s as [|c s IH]; intros pos prev m H; cbn [search_from] in H.
  - destruct (run ic r prev "" [] _) as [y|] eqn:E; [|discriminate].
    injection H as ->.
    destruct (run_reads ic (groups r) r (incl_refl _) _ _ _ _ _ H0 E)
      as (p & prev' & s' & cs' & E1 & _ & Hc & Hk).
    injection Hk as <-. intros n g Hg. apply (Hc n). now apply lookup_In.
  - destruct (run ic r prev (String c s) [] _) as [y|] eqn:E.
    + injection H as ->.
      destruct (run_reads ic (groups r) r (incl_refl _) _ _ _ _ _ H0 E)
        as (p & prev' & s' & cs' & E1 & _ & Hc & Hk).
      injection Hk as <-. intros n g Hg. apply (Hc n). now apply lookup_In.
    + exact (IH (S pos) (Some c) m H).
Qed.

Lemma isdigit_lower_char (c : ascii) : isdigit (lower_char c) = isdigit c.
Proof. destruct c as [[] [] [] [] [] [] [] []]; vm_compute; reflexivity. Qed.

Lemma isdigit_upper_char (c : ascii) : isdigit (upper_char c) = isdigit c.
Proof. destruct c as [[] [] [] [] [] [] [] []]; vm_compute; reflexivity. Qed.

Lemma reads_digit (ic : bool) (p : string) :
  reads ic digit p -> exists c, p = String c "" /\ isdigit c = true.
Proof.
  intros [c [-> H]]. exists c. split; [reflexivity|].
  unfold set_match in H. cbn [existsb in_item in_category] in H.
  rewrite !orb_false_r, isdigit_lower_char, isdigit_upper_char in H.
  destruct (isdigit c); [reflexivity|]. now destruct ic.
Qed.

Lemma every_cat (p : ascii -> bool) (a b : string) :
  every p (a ++ b) = every p a && every p b.
Proof.
  induction a as [|c a IH]; cbn [append every]; [reflexivity|].
  now rewrite IH, andb_assoc.
Qed.

(** What [(\d+)] reads: one decimal digit or more. *)
Lemma reads_digits (ic : bool) (g : string) :
  reads ic (plus digit) g -> g <> "" /\ every isdigit g = true.
Proof.
  intros (p1 & p2 & -> & H1 & ps & -> & Hps).
  apply reads_digit in H1 as (c & -> & Hc).
  split; [discriminate|].
  rewrite every_cat. cbn [every]. rewrite Hc. cbn [andb].
  induction Hps as [|p ps Hp _ IH]; [reflexivity|].
  cbn [concat_all fold_right]. rewrite every_cat.
  apply reads_digit in Hp as (d & -> & Hd). cbn [every]. rewrite Hd.
  exact IH.
Qed.

Lemma int_from_nonneg (s : string) :
  forall acc, (0 <= acc)%Z -> every isdigit s = true -> (0 <= int_from acc s)%Z.
Proof.
  induction s as [|c s IH]; intros acc Ha H; cbn [int_from]; [assumption|].
  cbn [every] in H. apply andb_true_iff in H as [Hc Hs].
  apply IH; [|assumption].
  unfold isdigit in Hc. cbv zeta in Hc. apply andb_true_iff in Hc as [H1 _].
  apply Nat.leb_le in H1. lia.
Qed.

End ReLangFacts.

(** ** The score and the urgency the runners derive *)

Module ExtractionFacts.
Import Py PyFacts Re ReLoop ReLang ReFacts ReLangFacts GuardrailsWords HumanReview.

Lemma first_score_reads (patterns : list regex) (report : string) (n : Z) :
  Forall (fun p => groups p = [(1%nat, plus digit)]) patterns ->
  Runner.first_score patterns report = Some n ->
  exists g,
    occurs_in report g /\ g <> "" /\ every isdigit g = true /\ n = int_of_digits g.
Proof.
  induction 1 as [|p ps Hp _ IH]; cbn [Runner.first_score]; [discriminate|].
  destruct (search true p report) as [m|] eqn:E; [|exact IH].
  destruct (group 1 m) as [g|] eqn:Gm; [|discriminate].
  intros F. injection F as <-.
  destruct (search_from_reads true p report 0 None m E 1 g Gm) as (b & Hb & Hr).
  rewrite Hp in Hb. destruct Hb as [Hb|[]]. injection Hb as <-.
  apply reads_digits in Hr as [Hne Hd].
  exists g. split; [exact (proj2 (search_sound true p report m E) 1 g Gm)|].
  now repeat split.
Qed.

Lemma runner_patterns_groups :
  Forall (fun p => groups p = [(1%nat, plus digit)]) Runner.score_patterns.
Proof. repeat constructor. Qed.

Lemma agent_patterns_groups :
  Forall (fun p => groups p = [(1%nat, plus digit)]) Agent.score_patterns.
Proof. repeat constructor. Qed.

Lemma every_occurs (p : ascii -> bool) (T g : string) :
  occurs_in T g -> every p T = true -> every p g = true.
Proof.
  intros (a & b & ->). rewrite !every_cat.
  intros H. apply andb_true_iff in H as [_ H]. now apply andb_true_iff in H as [H _].
Qed.

Lemma no_digit_no_score (patterns : list regex) (report : string) :
  Forall (fun p => groups p = [(1%nat, plus digit)]) patterns ->
  every (fun c => negb (isdigit c)) report = true ->
  Runner.first_score patterns report = None.
Proof.
  intros HG Hn.
  destruct (Runner.first_score patterns report) as [n|] eqn:E; [|reflexivity].
  destruct (first_score_reads patterns report n HG E) as (g & Ho & Hne & Hd & _).
  pose proof (every_occurs _ report g Ho Hn) as H.
  destruct g as [|c g]; [congruence|].
  cbn [every] in H, Hd.
  apply andb_true_iff in H as [H _]. apply andb_true_iff in Hd as [Hd _].
  rewrite Hd in H. discriminate.
Qed.

(** X29. The score extracted from a report, by either runner, is read from
    the report: it is the value of a run of one or more decimal digits that
    occurs in the report, and so is never negative; nothing bounds it by
    100.  A report without a digit has no score. *)
Theorem X29_extracted_score_is_read_from_the_report (report : string) :
  (forall n,
     Runner._extract_credibility_score report = Some n
     \/ Agent._extract_credibility_score report = Some n ->
     (0 <= n)%Z /\
     exists g,
       g <> "" /\ every isdigit g = true /\ contains g report = true
       /\ n = int_of_digits g) /\
  (every (fun c => negb (isdigit c)) report = true ->
   Runner._extract_credibility_score report = None
   /\ Agent._extract_credibility_score report = None).
Proof.
  split.
  - intros n H.
    assert (G : exists g, occurs_in report g /\ g <> "" /\ every isdigit g = true
                          /\ n = int_of_digits g).
    { destruct H as [H|H].
      - exact (first_score_reads _ report n runner_patterns_groups H).
      - exact (first_score_reads _ report n agent_patterns_groups H). }
    destruct G as (g & Ho & Hne & Hd & ->).
    split; [apply int_from_nonneg; [lia | exact Hd]|].
    exists g. split; [exact Hne|]. split; [exact Hd|].
    split; [now apply occurs_contains | reflexivity].
  - intros Hn. split.
    + exact (no_digit_no_score _ report runner_patterns_groups Hn).
    + exact (no_digit_no_score _ report agent_patterns_groups Hn).
Qed.

Lemma X29_witness :
  Runner._extract_credibility_score "| Credibility Score | 250/100 |" = Some 250%Z /\
  (0 <= 250)%Z /\
  Agent._extract_credibility_score "The credibility score is high." = None.
Proof.
  assert (E : Runner._extract_credibility_score "| Credibility Score | 250/100 |"
              = Some 250%Z) by (vm_compute; reflexivity).
  split; [exact E|]. split.
  - exact (proj1 (proj1 (X29_extracted_score_is_read_from_the_report
                           "| Credibility Score | 250/100 |") 250%Z (or_introl E))).
  - exact (proj2 (proj2 (X29_extracted_score_is_read_from_the_report
                           "The credibility score is high.") eq_refl)).
Defined.

Lemma any_in_incl (l1 l2 : list string) (s : string) :
  incl l1 l2 -> any_in l1 s = true -> any_in l2 s = true.
Proof.
  unfold any_in. rewrite !existsb_exists.
  intros Hi [k [Hk H]]. exists k. split; [now apply Hi | assumption].
Qed.

Lemma review_time_5_8 (u : Z) :
  (u = 5 \/ u = 8)%Z ->
  review_time u = "within 1 hour" \/ review_time u = "within 15 minutes".
Proof. intros [->| ->]; [now left | now right]. Qed.

(** X30. The three urgency estimates made before a save, that of
    [MultiAgentRunner], that of [InfoShieldRunner] and that of
    [run_query_async], are each 5 or 8 and never decrease in that order,
    since each list of keywords holds the one before; so the review time a
    runner announces is "within 1 hour" or "within 15 minutes", never
    "within 24 hours". *)
Theorem X30_urgency_estimates_of_the_runners (q : string) :
  let a := Runner.urgency_estimate q in
  let b := Agent.urgency_estimate q in
  let c := Agent.run_query_urgency_estimate q in
  (a = 5 \/ a = 8)%Z /\ (b = 5 \/ b = 8)%Z /\ (c = 5 \/ c = 8)%Z /\
  (a <= b <= c)%Z /\
  Forall (fun u => review_time u = "within 1 hour"
                   \/ review_time u = "within 15 minutes") [a; b; c].
Proof.
  cbv zeta.
  unfold Runner.urgency_estimate, Agent.urgency_estimate,
    Agent.run_query_urgency_estimate.
  pose proof (any_in_incl ["emergency"; "help"; "urgent"] Agent.urgent_keywords
                (lower q)) as H1.
  pose proof (any_in_incl Agent.urgent_keywords Agent.run_query_urgent_keywords
                (lower q)) as H2.
  assert (I1 : incl ["emergency"; "help"; "urgent"] Agent.urgent_keywords).
  { intros k [<-|[<-|[<-|[]]]]; cbn; tauto. }
  assert (I2 : incl Agent.urgent_keywords Agent.run_query_urgent_keywords).
  { intros k [<-|[<-|[<-|[<-|[<-|[]]]]]]; cbn; tauto. }
  specialize (H1 I1). specialize (H2 I2).
  destruct (any_in ["emergency"; "help"; "urgent"] (lower q)),
    (any_in Agent.urgent_keywords (lower q)),
    (any_in Agent.run_query_urgent_keywords (lower q));
    try (discriminate (H1 eq_refl)); try (discriminate (H2 eq_refl));
    (split; [tauto|]); (split; [tauto|]); (split; [tauto|]); (split; [lia|]);
    repeat constructor; apply review_time_5_8; tauto.
Qed.

End ExtractionFacts.
